(** * Secure Key Services: the processing engine

    A shallow embedding of [ta_services/secure_key_services/src/processing.c]
    and of the inline accessors of [attributes.h], with the proofs of the
    properties the design document states about the per-session processing
    state machine.

    The C code runs against a trusted-OS crypto provider (the GPD TEE
    Internal Core API) and against helpers of the same trusted application
    that live in other translation units.  The provider and those helpers are
    the fields of the class [sks_env]: every theorem below holds for every
    provider and every helper, unless it names the assumption it needs. *)

From Stdlib Require Import ZArith List Bool Lia.
From Stdlib.Strings Require Import Byte.
From stdpp Require Import base option gmap.
Import ListNotations.
Local Open Scope Z_scope.

#[global] Instance byte_eq_decision : EqDecision byte := Byte.byte_eq_dec.

(** ** Return codes and identifiers *)

(** The SKS return codes ([uint32_t] in the source).  [SKS_OK] is the zero
    code: a C test [if (rv)] reads [failed rv = true]. *)
Inductive sks_rc : Type :=
| SKS_OK
| SKS_ERROR
| SKS_MEMORY
| SKS_BAD_PARAM
| SKS_SHORT_BUFFER
| SKS_FAILED
| SKS_NOT_FOUND
| SKS_CKR_SESSION_HANDLE_INVALID
| SKS_CKR_KEY_HANDLE_INVALID
| SKS_CKR_OPERATION_ACTIVE
| SKS_CKR_OPERATION_NOT_INITIALIZED
| SKS_CKR_MECHANISM_INVALID
| SKS_CKR_MECHANISM_PARAM_INVALID
| SKS_CKR_KEY_TYPE_INCONSISTENT
| SKS_CKR_KEY_FUNCTION_NOT_PERMITTED
| SKS_CKR_ATTRIBUTE_TYPE_INVALID
| SKS_CKR_ATTRIBUTE_VALUE_INVALID
| SKS_CKR_TEMPLATE_INCONSISTENT
| SKS_CKR_USER_NOT_LOGGED_IN
| SKS_CKR_SESSION_READ_ONLY
| SKS_CKR_SIGNATURE_INVALID.

#[global] Instance sks_rc_eq_dec : EqDecision sks_rc.
Proof. solve_decision. Defined.

Definition failed (rv : sks_rc) : bool :=
  match rv with SKS_OK => false | _ => true end.

(** The 32-bit identifiers of the SKS ABI.  The source holds all of them in
    [uint32_t] variables; their numeric values are fixed by a header that the
    engine only includes, so the embedding keeps the names and leaves the
    numbers to the decoders of [sks_env].  [SKS_UNLISTED_ID] stands for every
    value that no [case] label of the engine names. *)
Inductive sks_id : Type :=
(* mechanisms *)
| SKS_CKM_AES_ECB
| SKS_CKM_AES_CBC
| SKS_CKM_AES_CBC_PAD
| SKS_CKM_AES_CTS
| SKS_CKM_AES_CTR
| SKS_CKM_AES_GCM
| SKS_CKM_AES_CCM
| SKS_CKM_AES_CMAC
| SKS_CKM_AES_CMAC_GENERAL
| SKS_CKM_AES_XCBC_MAC
| SKS_CKM_MD5_HMAC
| SKS_CKM_SHA_1_HMAC
| SKS_CKM_SHA224_HMAC
| SKS_CKM_SHA256_HMAC
| SKS_CKM_SHA384_HMAC
| SKS_CKM_SHA512_HMAC
| SKS_CKM_GENERIC_SECRET_KEY_GEN
| SKS_CKM_AES_KEY_GEN
| SKS_PROCESSING_IMPORT
(* key types *)
| SKS_CKK_AES
| SKS_CKK_GENERIC_SECRET
| SKS_CKK_MD5_HMAC
| SKS_CKK_SHA_1_HMAC
| SKS_CKK_SHA224_HMAC
| SKS_CKK_SHA256_HMAC
| SKS_CKK_SHA384_HMAC
| SKS_CKK_SHA512_HMAC
(* object classes *)
| SKS_CKO_SECRET_KEY
(* attributes *)
| SKS_CKA_CLASS
| SKS_CKA_KEY_TYPE
| SKS_CKA_VALUE
| SKS_CKA_VALUE_LEN
| SKS_CKA_TOKEN
| SKS_CKA_PRIVATE
| SKS_CKA_ENCRYPT
| SKS_CKA_DECRYPT
| SKS_CKA_SIGN
| SKS_CKA_VERIFY
(* the rest *)
| SKS_UNDEFINED_ID
| SKS_UNLISTED_ID (raw : Z).

#[global] Instance sks_id_eq_dec : EqDecision sks_id.
Proof. solve_decision. Defined.

Inductive sks_function : Type :=
| SKS_FUNCTION_IMPORT
| SKS_FUNCTION_GENERATE
| SKS_FUNCTION_ENCRYPT
| SKS_FUNCTION_DECRYPT
| SKS_FUNCTION_SIGN
| SKS_FUNCTION_VERIFY.

#[global] Instance sks_function_eq_dec : EqDecision sks_function.
Proof. solve_decision. Defined.

(** ** Provider values (GPD TEE Internal Core API) *)

Definition TEE_Result := Z.
Definition TEE_SUCCESS : TEE_Result := 0.
Definition TEE_ERROR_NOT_IMPLEMENTED : TEE_Result := 0xFFFF0009.
Definition TEE_ERROR_OUT_OF_MEMORY : TEE_Result := 0xFFFF000C.
Definition TEE_ERROR_SHORT_BUFFER : TEE_Result := 0xFFFF0010.

Definition TEE_OperationHandle := Z.
Definition TEE_ObjectHandle := Z.
Definition TEE_HANDLE_NULL : Z := 0.

Inductive tee_algorithm : Type :=
| TEE_ALG_AES_ECB_NOPAD
| TEE_ALG_AES_CBC_NOPAD
| TEE_ALG_AES_CTR
| TEE_ALG_AES_CTS
| TEE_ALG_AES_CCM
| TEE_ALG_AES_GCM
| TEE_ALG_AES_CMAC
| TEE_ALG_AES_CBC_MAC_NOPAD
| TEE_ALG_HMAC_MD5
| TEE_ALG_HMAC_SHA1
| TEE_ALG_HMAC_SHA224
| TEE_ALG_HMAC_SHA256
| TEE_ALG_HMAC_SHA384
| TEE_ALG_HMAC_SHA512.

Inductive tee_mode : Type :=
| TEE_MODE_ENCRYPT
| TEE_MODE_DECRYPT
| TEE_MODE_MAC.

Inductive tee_object_type : Type :=
| TEE_TYPE_AES
| TEE_TYPE_GENERIC_SECRET
| TEE_TYPE_HMAC_MD5
| TEE_TYPE_HMAC_SHA1
| TEE_TYPE_HMAC_SHA224
| TEE_TYPE_HMAC_SHA256
| TEE_TYPE_HMAC_SHA384
| TEE_TYPE_HMAC_SHA512.

Inductive tee_attribute_id : Type :=
| TEE_ATTR_SECRET_VALUE.

(** A memory reference parameter of an invocation: [memref.buffer] (its
    address and the bytes behind it) and [memref.size]. *)
Record TEE_Param : Type := mk_param {
  memref_addr : Z;
  memref_buffer : list byte;
  memref_size : Z;
}.

Definition set_memref_size (p : TEE_Param) (n : Z) : TEE_Param :=
  mk_param (memref_addr p) (memref_buffer p) n.

Definition set_memref_buffer (p : TEE_Param) (b : list byte) : TEE_Param :=
  mk_param (memref_addr p) b (memref_size p).

(** ** Outcomes

    A C function of the engine returns, or calls [TEE_Panic], or dereferences
    a null pointer, or goes on from a copy that does not fit its destination:
    a shorter value leaves the variable partly uninitialised, a longer one
    writes past it, and the source does not say what follows. *)
Inductive panic_code : Type :=
| PANIC_0
| PANIC_SKS (rc : sks_rc)
| PANIC_TEE (res : TEE_Result).

Inductive outcome (A : Type) : Type :=
| Done (a : A)
| TEE_Panic (code : panic_code)
| NullDeref
| Indeterminate.

Arguments Done {A} a.
Arguments TEE_Panic {A} code.
Arguments NullDeref {A}.
Arguments Indeterminate {A}.

#[global] Instance outcome_ret : MRet outcome := fun A a => Done a.
#[global] Instance outcome_bind : MBind outcome := fun A B k m =>
  match m with
  | Done a => k a
  | TEE_Panic c => TEE_Panic c
  | NullDeref => NullDeref
  | Indeterminate => Indeterminate
  end.

Definition uint32 (z : Z) : Z := z mod 2 ^ 32.

(** A null pointer argument. *)
Definition null {A : Type} (p : option A) : bool :=
  match p with None => true | Some _ => false end.

(** ** Data model *)

(** The serialized attributes of an object: the header fields and the
    entries [{id, size, value}], the size of an entry being the length of its
    value.  [class], [type], [boolpropl] and [boolproph] are the header fields
    of the builds with [SKS_SHEAD_WITH_TYPE] and [SKS_SHEAD_WITH_BOOLPROPS]. *)
Record sks_attrs_head : Type := mk_head {
  class : sks_id;
  type : sks_id;
  boolpropl : Z;
  boolproph : Z;
  attrs : list (sks_id * list byte);
}.

(** [struct sks_attribute_head]: one attribute, here the mechanism
    parameters of an init command. *)
Record sks_attribute_head : Type := mk_attribute {
  id : sks_id;
  size : Z;
  data : list byte;
}.

(** [struct sks_object] of object.h, without the list link and the fields
    of persistent objects. *)
Record sks_object : Type := mk_object {
  attributes : sks_attrs_head;
  key_handle : TEE_ObjectHandle;
}.

Definition set_key_handle (obj : sks_object) (h : TEE_ObjectHandle) : sks_object :=
  mk_object (attributes obj) h.

Inductive pkcs11_session_processing : Type :=
| PKCS11_SESSION_READY
| PKCS11_SESSION_ENCRYPTING
| PKCS11_SESSION_DECRYPTING
| PKCS11_SESSION_DIGESTING
| PKCS11_SESSION_SIGNING
| PKCS11_SESSION_VERIFYING.

#[global] Instance pkcs11_session_processing_eq_dec :
  EqDecision pkcs11_session_processing.
Proof. solve_decision. Defined.

(** The processing part of [struct pkcs11_session]: the state, the active
    mechanism, the provider operation and, for the AE modes, the scratch
    that the AES helpers allocate. *)
Record pkcs11_session : Type := mk_session {
  processing : pkcs11_session_processing;
  proc_id : sks_id;
  tee_op_handle : TEE_OperationHandle;
  ae_scratch : option (list byte);
}.

Definition set_processing (s : pkcs11_session) (p : pkcs11_session_processing) :=
  mk_session p (proc_id s) (tee_op_handle s) (ae_scratch s).
Definition set_proc_id (s : pkcs11_session) (i : sks_id) :=
  mk_session (processing s) i (tee_op_handle s) (ae_scratch s).
Definition set_tee_op_handle (s : pkcs11_session) (h : TEE_OperationHandle) :=
  mk_session (processing s) (proc_id s) h (ae_scratch s).
Definition set_ae_scratch (s : pkcs11_session) (c : option (list byte)) :=
  mk_session (processing s) (proc_id s) (tee_op_handle s) c.

(** Modelled from the spec: [check_processing_state] and
    [set_processing_state] are defined in pkcs11_token.c, outside the files
    embedded here.  The design document says that a call is accepted when the
    state "matches", that "only READY permits starting a new operation" and
    that a failure to move to an active state "means another operation is
    active".  As in C, zero is success. *)
Definition check_processing_state (session : pkcs11_session)
    (state : pkcs11_session_processing) : Z :=
  if decide (processing session = state) then 0 else 1.

Definition set_processing_state (session : pkcs11_session)
    (state : pkcs11_session_processing) : Z * pkcs11_session :=
  if decide (processing session = PKCS11_SESSION_READY) then
    (0, set_processing session state)
  else if decide (state = PKCS11_SESSION_READY) then
    (0, set_processing session state)
  else (1, session).

(** Modelled from the spec: [tee_release_ctr_operation],
    [tee_release_gcm_operation] and [tee_release_ccm_operation] are defined
    in processing_aes.c, outside the files embedded here; the design document
    says of the release: "free AE scratch". *)
Definition tee_release_ctr_operation (session : pkcs11_session) : pkcs11_session :=
  set_ae_scratch session None.
Definition tee_release_gcm_operation (session : pkcs11_session) : pkcs11_session :=
  set_ae_scratch session None.
Definition tee_release_ccm_operation (session : pkcs11_session) : pkcs11_session :=
  set_ae_scratch session None.

(** ** The environment of the engine *)

(** What the engine calls and does not define.  [W] is the state of the
    crypto provider, opaque to the engine and threaded through every provider
    call.  A provider function that fills a caller buffer returns the new
    content of the buffer and the size it reports; [TEE_Malloc] tells whether
    the allocation succeeded.  The AES helpers reach the session only through
    its operation handle and its AE scratch; [create_object] reaches the
    object store only. *)
Class sks_env (W : Type) : Type := {
  (* build configuration *)
  SKS_SHEAD_WITH_TYPE : bool;
  SKS_SHEAD_WITH_BOOLPROPS : bool;
  (* sks_helpers.c *)
  tee2sks_error : TEE_Result -> sks_rc;
  sks_attr2boolprop_shift : sks_id -> Z;
  (* numeric values of the identifiers, read from 32-bit words *)
  mechanism_of_u32 : Z -> sks_id;
  class_of_u32 : Z -> sks_id;
  key_type_of_u32 : Z -> sks_id;
  (* pkcs11_attributes.c *)
  check_parent_attrs_against_processing :
    sks_id -> sks_function -> sks_attrs_head -> outcome sks_rc;
  check_parent_attrs_against_token :
    pkcs11_session -> sks_attrs_head -> outcome sks_rc;
  create_attributes_from_template :
    list byte -> Z -> sks_function -> outcome (sks_rc + sks_attrs_head);
  check_created_attrs_against_processing :
    sks_id -> sks_attrs_head -> outcome sks_rc;
  check_created_attrs_against_token :
    pkcs11_session -> sks_attrs_head -> outcome sks_rc;
  (* attributes.c *)
  add_attribute : sks_attrs_head -> sks_id -> list byte -> Z -> sks_rc * sks_attrs_head;
  (* object.c *)
  create_object :
    gmap Z sks_object -> pkcs11_session -> sks_attrs_head ->
    sks_rc * Z * gmap Z sks_object;
  (* processing_aes.c *)
  tee_init_ctr_operation :
    W -> TEE_OperationHandle -> option (list byte) -> list byte -> Z ->
    sks_rc * option (list byte) * W;
  tee_init_ccm_operation :
    W -> TEE_OperationHandle -> option (list byte) -> list byte -> Z ->
    sks_rc * option (list byte) * W;
  tee_init_gcm_operation :
    W -> TEE_OperationHandle -> option (list byte) -> list byte -> Z ->
    sks_rc * option (list byte) * W;
  tee_ae_decrypt_update :
    W -> TEE_OperationHandle -> option (list byte) -> option (list byte) -> Z ->
    sks_rc * option (list byte) * W;
  tee_ae_decrypt_final :
    W -> TEE_OperationHandle -> option (list byte) -> option (list byte) -> Z ->
    sks_rc * list byte * Z * option (list byte) * W;
  tee_ae_encrypt_final :
    W -> TEE_OperationHandle -> option (list byte) -> option (list byte) -> Z ->
    sks_rc * list byte * Z * option (list byte) * W;
  (* GPD TEE Internal Core API *)
  TEE_AllocateOperation :
    W -> tee_algorithm -> tee_mode -> Z -> TEE_Result * TEE_OperationHandle * W;
  TEE_FreeOperation : W -> TEE_OperationHandle -> W;
  TEE_SetOperationKey :
    W -> TEE_OperationHandle -> TEE_ObjectHandle -> TEE_Result * W;
  TEE_AllocateTransientObject :
    W -> tee_object_type -> Z -> TEE_Result * TEE_ObjectHandle * W;
  TEE_PopulateTransientObject :
    W -> TEE_ObjectHandle -> tee_attribute_id -> list byte -> Z -> TEE_Result * W;
  TEE_FreeTransientObject : W -> TEE_ObjectHandle -> W;
  TEE_CipherInit : W -> TEE_OperationHandle -> option (list byte) -> Z -> W;
  TEE_CipherUpdate :
    W -> TEE_OperationHandle -> option (list byte) -> Z -> option (list byte) -> Z ->
    TEE_Result * list byte * Z * W;
  TEE_CipherDoFinal :
    W -> TEE_OperationHandle -> option (list byte) -> Z -> option (list byte) -> Z ->
    TEE_Result * list byte * Z * W;
  TEE_AEUpdate :
    W -> TEE_OperationHandle -> option (list byte) -> Z -> option (list byte) -> Z ->
    TEE_Result * list byte * Z * W;
  TEE_MACInit : W -> TEE_OperationHandle -> option (list byte) -> Z -> W;
  TEE_MACUpdate : W -> TEE_OperationHandle -> list byte -> Z -> W;
  TEE_MACComputeFinal :
    W -> TEE_OperationHandle -> list byte -> Z -> TEE_Result * list byte * Z * W;
  TEE_MACCompareFinal :
    W -> TEE_OperationHandle -> list byte -> Z -> TEE_Result * W;
  TEE_Malloc : W -> Z -> bool * W;
  TEE_GenerateRandom : W -> Z -> list byte * W;
}.

(** The state of the trusted application that the engine reads and writes:
    the provider, the sessions of every client (by client and session handle)
    and the objects (by object handle). *)
Record sks_state (W : Type) : Type := mk_state {
  tee : W;
  sessions : gmap (Z * Z) pkcs11_session;
  objects : gmap Z sks_object;
}.

Arguments mk_state {W} _ _ _.
Arguments tee {W} _.
Arguments sessions {W} _.
Arguments objects {W} _.

Definition set_tee {W : Type} (st : sks_state W) (w : W) : sks_state W :=
  mk_state w (sessions st) (objects st).
Definition set_session {W : Type} (st : sks_state W) (tee_session handle : Z)
    (session : pkcs11_session) : sks_state W :=
  mk_state (tee st) (<[(tee_session, handle) := session]> (sessions st)) (objects st).
Definition set_object {W : Type} (st : sks_state W) (handle : Z)
    (obj : sks_object) : sks_state W :=
  mk_state (tee st) (sessions st) (<[handle := obj]> (objects st)).

(** Modelled from the spec: [sks_handle2session] is defined in
    pkcs11_token.c and [sks_handle2object] in object.c, outside the files
    embedded here.  Handles are "opaque 32-bit integers" that "must be validated on every
    entry", and "every handle lookup that misses is non-fatal"; [None] is the
    null pointer of the source.  The scoping of object handles to a session
    is left out: the engine only needs the object behind a handle. *)
Definition sks_handle2session {W : Type} (st : sks_state W)
    (session_handle : Z) (tee_session : Z) : option pkcs11_session :=
  sessions st !! (tee_session, session_handle).

Definition sks_handle2object {W : Type} (st : sks_state W)
    (client_handle : Z) : option sks_object :=
  objects st !! client_handle.

(** ** The serial argument reader *)

Fixpoint le_uint (bs : list byte) : Z :=
  match bs with
  | [] => 0
  | b :: bs' => Z.of_N (Byte.to_N b) + 256 * le_uint bs'
  end.

(** Modelled from the spec: the reader is defined in serializer.c, outside
    the files embedded here.  It is "a cursor over a caller-supplied byte range"; "every read is
    length-checked against the remaining buffer; under-run yields BAD_PARAM".
    A read that succeeds returns the bytes read and the advanced cursor. *)
Definition serialargs_get (args : list byte) (n : nat) :
    sks_rc + list byte * list byte :=
  if decide (length args < n)%nat then inl SKS_BAD_PARAM
  else inr (take n args, drop n args).

(** [serialargs_init]: the cursor starts on the [size] bytes of the buffer. *)
Definition serialargs_init (buffer : list byte) (size : Z) : list byte :=
  take (Z.to_nat size) buffer.

(** Modelled from the spec: one attribute [{u32 id, u32 size, u8[size] data}],
    read with the same length checks. *)
Definition serialargs_alloc_get_one_attribute {W : Type} {E : sks_env W} (args : list byte) :
    sks_rc + sks_attribute_head * list byte :=
  match serialargs_get args 8 with
  | inl rv => inl rv
  | inr (head, rest) =>
      let sz := le_uint (drop 4 head) in
      match serialargs_get rest (Z.to_nat sz) with
      | inl rv => inl rv
      | inr (value, rest') =>
          inr (mk_attribute (mechanism_of_u32 (le_uint (take 4 head))) sz value,
               rest')
      end
  end.


(** The [n] low bytes of a word, little-endian. *)
Fixpoint le_bytes (n : nat) (z : Z) : list byte :=
  match n with
  | O => []
  | S n' =>
      default x00 (Byte.of_N (Z.to_N (z mod 256))) :: le_bytes n' (z / 256)
  end.

(** ** attributes.h *)

Fixpoint find_attribute (l : list (sks_id * list byte)) (attribute : sks_id) :
    option (list byte) :=
  match l with
  | [] => None
  | (a, v) :: l' => if decide (a = attribute) then Some v else find_attribute l' attribute
  end.

(** Modelled from the comment of its declaration in attributes.h: "If
    attributes is not found return SKS_NOT_FOUND", else the address and the
    size of the value of the first occurrence; here the value itself. *)
Definition get_attribute_ptr (head : sks_attrs_head) (attribute : sks_id) :
    sks_rc * list byte :=
  match find_attribute (attrs head) attribute with
  | Some v => (SKS_OK, v)
  | None => (SKS_NOT_FOUND, [])
  end.

Definition BIT (n : Z) : Z := Z.shiftl 1 n.

(** Modelled from the comment of its declaration in attributes.h and from
    the spec: not found is [SKS_NOT_FOUND]; when a size is given and does not
    match the size of the value, [SKS_SHORT_BUFFER]; else the value is copied.
    With the boolean bit-field in the header, "boolean attribute reads
    synthesize a one-byte result from the header bitfield". *)
Definition get_attribute {W : Type} {E : sks_env W} (head : sks_attrs_head) (attribute : sks_id)
    (attr_size : option Z) : sks_rc * list byte :=
  let found :=
    let shift := sks_attr2boolprop_shift attribute in
    if SKS_SHEAD_WITH_BOOLPROPS && (0 <=? shift) then
      let bit := if 31 <? shift
                 then Z.land (boolproph head) (BIT (shift - 32))
                 else Z.land (boolpropl head) (BIT shift) in
      (SKS_OK, [if bit =? 0 then x00 else x01])
    else get_attribute_ptr head attribute in
  match found with
  | (SKS_OK, v) =>
      match attr_size with
      | Some n =>
          if decide (n = Z.of_nat (length v)) then (SKS_OK, v)
          else (SKS_SHORT_BUFFER, [])
      | None => (SKS_OK, v)
      end
  | (rv, _) => (rv, [])
  end.

Section attributes_h.
Context {W : Type} {E : sks_env W}.

(** The two variants of [get_class] and [get_type], by build flag. *)
Definition get_class (head : sks_attrs_head) : sks_id :=
  if SKS_SHEAD_WITH_TYPE then class head
  else
    match get_attribute head SKS_CKA_CLASS (Some 4) with
    | (SKS_OK, v) => class_of_u32 (le_uint v)
    | _ => SKS_UNDEFINED_ID
    end.

Definition get_type (head : sks_attrs_head) : sks_id :=
  if SKS_SHEAD_WITH_TYPE then type head
  else
    match get_attribute head SKS_CKA_KEY_TYPE (Some 4) with
    | (SKS_OK, v) => key_type_of_u32 (le_uint v)
    | _ => SKS_UNDEFINED_ID
    end.

(** [get_bool] of the builds with [SKS_SHEAD_WITH_BOOLPROPS] (lines 138 to
    149), and the code in those builds only.  The variant of the other builds
    (lines 151 to 162), which looks the attribute up and ends in an [assert],
    is not embedded. *)
Definition get_bool (head : sks_attrs_head) (attribute : sks_id) : outcome bool :=
  let shift := sks_attr2boolprop_shift attribute in
  if shift <? 0 then TEE_Panic (PANIC_SKS SKS_NOT_FOUND)
  else if 31 <? shift then
    Done (negb (Z.land (boolproph head) (BIT (shift - 32)) =? 0))
  else
    Done (negb (Z.land (boolpropl head) (BIT shift) =? 0)).
End attributes_h.

(** ** processing.c *)

Section processing.
Context {W : Type} {E : sks_env W}.

Definition release_active_processing (w : W) (session : pkcs11_session) :
    outcome (W * pkcs11_session) :=
  let session :=
    match proc_id session with
    | SKS_CKM_AES_CTR => tee_release_ctr_operation session
    | SKS_CKM_AES_GCM => tee_release_gcm_operation session
    | SKS_CKM_AES_CCM => tee_release_ccm_operation session
    | _ => session
    end in
  let session := set_proc_id session SKS_UNDEFINED_ID in
  let '(w, session) :=
    if decide (tee_op_handle session = TEE_HANDLE_NULL) then (w, session)
    else (TEE_FreeOperation w (tee_op_handle session),
          set_tee_op_handle session TEE_HANDLE_NULL) in
  let '(err, session) := set_processing_state session PKCS11_SESSION_READY in
  if decide (err = 0) then Done (w, session) else TEE_Panic PANIC_0.

(** The nested [switch] of [tee_operarion_params]: the provider algorithm,
    mode and key size of a mechanism, or the code it returns. *)
Definition tee_operation_selection (key_type : sks_id) (function : sks_function)
    (proc : sks_id) (value_size : Z) : sks_rc + tee_algorithm * tee_mode * Z :=
  let hmac (algo : tee_algorithm) (own : sks_id) :=
    if negb (bool_decide (key_type = SKS_CKK_GENERIC_SECRET)) &&
       negb (bool_decide (key_type = own))
    then inl SKS_CKR_ATTRIBUTE_TYPE_INVALID
    else inr (algo, TEE_MODE_MAC, uint32 (value_size * 8)) in
  match key_type with
  | SKS_CKK_AES =>
      match function with
      | SKS_FUNCTION_ENCRYPT | SKS_FUNCTION_DECRYPT =>
          let mode := match function with
                      | SKS_FUNCTION_DECRYPT => TEE_MODE_DECRYPT
                      | _ => TEE_MODE_ENCRYPT
                      end in
          let size := uint32 (value_size * 8) in
          match proc with
          | SKS_CKM_AES_ECB => inr (TEE_ALG_AES_ECB_NOPAD, mode, size)
          | SKS_CKM_AES_CBC => inr (TEE_ALG_AES_CBC_NOPAD, mode, size)
          | SKS_CKM_AES_CTR => inr (TEE_ALG_AES_CTR, mode, size)
          | SKS_CKM_AES_CTS => inr (TEE_ALG_AES_CTS, mode, size)
          | SKS_CKM_AES_CCM => inr (TEE_ALG_AES_CCM, mode, size)
          | SKS_CKM_AES_GCM => inr (TEE_ALG_AES_GCM, mode, size)
          | _ => inl SKS_CKR_ATTRIBUTE_TYPE_INVALID
          end
      | SKS_FUNCTION_SIGN | SKS_FUNCTION_VERIFY =>
          match proc with
          | SKS_CKM_AES_CMAC | SKS_CKM_AES_CMAC_GENERAL =>
              inr (TEE_ALG_AES_CMAC, TEE_MODE_MAC, uint32 (value_size * 8))
          | SKS_CKM_AES_XCBC_MAC =>
              inr (TEE_ALG_AES_CBC_MAC_NOPAD, TEE_MODE_MAC, uint32 (value_size * 8))
          | _ => inl SKS_CKR_ATTRIBUTE_TYPE_INVALID
          end
      | _ => inl SKS_FAILED
      end
  | SKS_CKK_GENERIC_SECRET | SKS_CKK_MD5_HMAC | SKS_CKK_SHA_1_HMAC
  | SKS_CKK_SHA224_HMAC | SKS_CKK_SHA256_HMAC | SKS_CKK_SHA384_HMAC
  | SKS_CKK_SHA512_HMAC =>
      match function with
      | SKS_FUNCTION_SIGN | SKS_FUNCTION_VERIFY =>
          match proc with
          | SKS_CKM_MD5_HMAC => hmac TEE_ALG_HMAC_MD5 SKS_CKK_MD5_HMAC
          | SKS_CKM_SHA_1_HMAC => hmac TEE_ALG_HMAC_SHA1 SKS_CKK_SHA_1_HMAC
          | SKS_CKM_SHA224_HMAC => hmac TEE_ALG_HMAC_SHA224 SKS_CKK_SHA224_HMAC
          | SKS_CKM_SHA256_HMAC => hmac TEE_ALG_HMAC_SHA256 SKS_CKK_SHA256_HMAC
          | SKS_CKM_SHA384_HMAC => hmac TEE_ALG_HMAC_SHA384 SKS_CKK_SHA384_HMAC
          | SKS_CKM_SHA512_HMAC => hmac TEE_ALG_HMAC_SHA512 SKS_CKK_SHA512_HMAC
          | _ => inl SKS_CKR_ATTRIBUTE_TYPE_INVALID
          end
      | _ => inl SKS_FAILED
      end
  | _ => inl SKS_FAILED
  end.

(** [TEE_AllocateOperation] stores the handle in the session when it
    succeeds.  [get_attribute] is called without a size to check, on the
    four bytes of the local [key_type]: it copies the whole KEY_TYPE value,
    which fills the variable when it has four bytes and not otherwise. *)
Definition tee_operarion_params (w : W) (session : pkcs11_session)
    (proc_params : sks_attribute_head) (sks_key : sks_object)
    (function : sks_function) : outcome (sks_rc * W * pkcs11_session) :=
  let '(rc, value) := get_attribute_ptr (attributes sks_key) SKS_CKA_VALUE in
  if failed rc then TEE_Panic PANIC_0 else
  let value_size := Z.of_nat (length value) in
  let '(rc, kt) := get_attribute (attributes sks_key) SKS_CKA_KEY_TYPE None in
  if failed rc then Done (SKS_ERROR, w, session) else
  if decide (length kt = 4%nat) then
    let key_type := key_type_of_u32 (le_uint kt) in
    match tee_operation_selection key_type function (id proc_params) value_size with
    | inl rv => Done (rv, w, session)
    | inr (algo, mode, size) =>
        if decide (tee_op_handle session = TEE_HANDLE_NULL) then
          let '(res, handle, w) := TEE_AllocateOperation w algo mode size in
          if decide (res = TEE_SUCCESS) then
            Done (SKS_OK, w, set_tee_op_handle session handle)
          else Done (tee2sks_error res, w, session)
        else TEE_Panic PANIC_0
    end
  else Indeterminate.

Definition get_tee_object_info (head : sks_attrs_head) :
    sks_rc + tee_object_type * tee_attribute_id :=
  match get_type head with
  | SKS_CKK_AES => inr (TEE_TYPE_AES, TEE_ATTR_SECRET_VALUE)
  | SKS_CKK_GENERIC_SECRET => inr (TEE_TYPE_GENERIC_SECRET, TEE_ATTR_SECRET_VALUE)
  | SKS_CKK_MD5_HMAC => inr (TEE_TYPE_HMAC_MD5, TEE_ATTR_SECRET_VALUE)
  | SKS_CKK_SHA_1_HMAC => inr (TEE_TYPE_HMAC_SHA1, TEE_ATTR_SECRET_VALUE)
  | SKS_CKK_SHA224_HMAC => inr (TEE_TYPE_HMAC_SHA224, TEE_ATTR_SECRET_VALUE)
  | SKS_CKK_SHA256_HMAC => inr (TEE_TYPE_HMAC_SHA256, TEE_ATTR_SECRET_VALUE)
  | SKS_CKK_SHA384_HMAC => inr (TEE_TYPE_HMAC_SHA384, TEE_ATTR_SECRET_VALUE)
  | SKS_CKK_SHA512_HMAC => inr (TEE_TYPE_HMAC_SHA512, TEE_ATTR_SECRET_VALUE)
  | _ => inl SKS_CKR_ATTRIBUTE_TYPE_INVALID
  end.

(** [load_key]: [rv] is the local variable of the source; past the call of
    [get_tee_object_info] it holds [SKS_OK]. *)
Definition load_key (w : W) (obj : sks_object) : outcome (sks_rc * W * sks_object) :=
  if decide (key_handle obj = TEE_HANDLE_NULL) then
    match get_tee_object_info (attributes obj) with
    | inl rv => Done (rv, w, obj)
    | inr (tee_obj_type, tee_obj_attr) =>
        let rv := SKS_OK in
        let '(rc, value) := get_attribute_ptr (attributes obj) SKS_CKA_VALUE in
        if failed rc then TEE_Panic PANIC_0 else
        let value_size := Z.of_nat (length value) in
        let '(res, handle, w) :=
          TEE_AllocateTransientObject w tee_obj_type (uint32 (value_size * 8)) in
        if decide (res = TEE_SUCCESS) then
          let obj := set_key_handle obj handle in
          let '(res, w) :=
            TEE_PopulateTransientObject w (key_handle obj) tee_obj_attr
                                        value value_size in
          if decide (res = TEE_SUCCESS) then Done (rv, w, obj)
          else
            let w := TEE_FreeTransientObject w (key_handle obj) in
            Done (tee2sks_error res, w, set_key_handle obj TEE_HANDLE_NULL)
        else Done (rv, w, obj)
    end
  else Done (SKS_OK, w, obj).

(** *** Cipher init *)

(** Lines 524 to 587 of [entry_cipher_init]: the key is bound to the
    operation, then the mechanism-specific initialization. *)
Definition cipher_init_operation (st : sks_state W) (session : pkcs11_session)
    (obj : sks_object) (proc_params : sks_attribute_head) :
    outcome (sks_rc * sks_state W * pkcs11_session) :=
  let '(res, w) :=
    TEE_SetOperationKey (tee st) (tee_op_handle session) (key_handle obj) in
  let st := set_tee st w in
  if decide (res = TEE_SUCCESS) then
    match id proc_params with
    | SKS_CKM_AES_ECB =>
        if decide (size proc_params = 0) then
          let w := TEE_CipherInit (tee st) (tee_op_handle session) None 0 in
          Done (SKS_OK, set_tee st w, set_proc_id session (id proc_params))
        else Done (SKS_CKR_MECHANISM_PARAM_INVALID, st, session)
    | SKS_CKM_AES_CBC | SKS_CKM_AES_CBC_PAD | SKS_CKM_AES_CTS =>
        if decide (size proc_params = 16) then
          let w := TEE_CipherInit (tee st) (tee_op_handle session)
                                  (Some (data proc_params)) 16 in
          Done (SKS_OK, set_tee st w, set_proc_id session (id proc_params))
        else Done (SKS_CKR_MECHANISM_PARAM_INVALID, st, session)
    | SKS_CKM_AES_CTR =>
        let '(rv, ctx, w) :=
          tee_init_ctr_operation (tee st) (tee_op_handle session)
            (ae_scratch session) (data proc_params) (size proc_params) in
        let session := set_ae_scratch session ctx in
        if failed rv then Done (rv, set_tee st w, session)
        else Done (SKS_OK, set_tee st w, set_proc_id session (id proc_params))
    | SKS_CKM_AES_CCM =>
        let '(rv, ctx, w) :=
          tee_init_ccm_operation (tee st) (tee_op_handle session)
            (ae_scratch session) (data proc_params) (size proc_params) in
        let session := set_ae_scratch session ctx in
        if failed rv then Done (rv, set_tee st w, session)
        else Done (SKS_OK, set_tee st w, set_proc_id session (id proc_params))
    | SKS_CKM_AES_GCM =>
        let '(rv, ctx, w) :=
          tee_init_gcm_operation (tee st) (tee_op_handle session)
            (ae_scratch session) (data proc_params) (size proc_params) in
        let session := set_ae_scratch session ctx in
        if failed rv then Done (rv, set_tee st w, session)
        else Done (SKS_OK, set_tee st w, set_proc_id session (id proc_params))
    | _ => TEE_Panic (PANIC_TEE TEE_ERROR_NOT_IMPLEMENTED)
    end
  else Done (tee2sks_error res, st, session).

(** Lines 463 to 587 of [entry_cipher_init], from the state check to the
    label [bail]: the value of [rv] there, and the state and the session as
    the steps leave them. *)
Definition cipher_init_steps (st : sks_state W) (session : pkcs11_session)
    (key_handle : Z) (proc_params : sks_attribute_head) (decrypt : bool) :
    outcome (sks_rc * sks_state W * pkcs11_session) :=
  let function := if decrypt then SKS_FUNCTION_DECRYPT else SKS_FUNCTION_ENCRYPT in
  if decide (check_processing_state session PKCS11_SESSION_READY = 0) then
    let '(err, session) :=
      set_processing_state session (if decrypt then PKCS11_SESSION_DECRYPTING
                                    else PKCS11_SESSION_ENCRYPTING) in
    if decide (err = 0) then
      match sks_handle2object st key_handle with
      | None => Done (SKS_CKR_KEY_HANDLE_INVALID, st, session)
      | Some obj =>
          rv ← check_parent_attrs_against_processing (id proc_params) function
                 (attributes obj);
          if failed rv then Done (rv, st, session) else
          rv ← check_parent_attrs_against_token session (attributes obj);
          if failed rv then Done (rv, st, session) else
          '(rv, w, session) ← tee_operarion_params (tee st) session proc_params
                                obj function;
          let st := set_tee st w in
          if failed rv then Done (rv, st, session) else
          match get_class (attributes obj) with
          | SKS_CKO_SECRET_KEY =>
              '(rv, w, obj) ← load_key (tee st) obj;
              let st := set_object (set_tee st w) key_handle obj in
              if failed rv then Done (rv, st, session)
              else cipher_init_operation st session obj proc_params
          | _ => Done (SKS_FAILED, st, session)
          end
      end
    else Done (SKS_CKR_OPERATION_ACTIVE, st, session)
  else Done (SKS_CKR_OPERATION_ACTIVE, st, session).

(** [entry_cipher_init].  With an invalid session handle the source jumps to
    [bail] with a null [session] and a non-zero [rv], and
    [release_active_processing] reads [session->proc_id]. *)
Definition entry_cipher_init (st : sks_state W) (tee_session : Z)
    (ctrl in_ out : option TEE_Param) (decrypt : bool) :
    outcome (sks_rc * sks_state W) :=
  match ctrl, in_, out with
  | Some ctrl, None, None =>
      let ctrlargs := serialargs_init (memref_buffer ctrl) (memref_size ctrl) in
      match serialargs_get ctrlargs 4 with
      | inl rv => Done (rv, st)
      | inr (session_handle, ctrlargs) =>
      match serialargs_get ctrlargs 4 with
      | inl rv => Done (rv, st)
      | inr (key_handle, ctrlargs) =>
      match serialargs_alloc_get_one_attribute ctrlargs with
      | inl rv => Done (rv, st)
      | inr (proc_params, ctrlargs) =>
      match sks_handle2session st (le_uint session_handle) tee_session with
      | None => NullDeref
      | Some session =>
          '(rv, st, session) ← cipher_init_steps st session (le_uint key_handle)
                                 proc_params decrypt;
          '(w, session) ← (if failed rv
                           then release_active_processing (tee st) session
                           else Done (tee st, session));
          Done (rv, set_session (set_tee st w) tee_session
                      (le_uint session_handle) session)
      end end end end
  | _, _, _ => Done (SKS_BAD_PARAM, st)
  end.

(** *** Cipher update and final *)

(** What a provider call leaves in the caller's output buffer. *)
Definition fill (out : option TEE_Param) (content : list byte) : option TEE_Param :=
  (fun p => set_memref_buffer p content) <$> out.

(** The [switch] of [entry_cipher_update]: the value of [rv] and of
    [out_size] after it, and the output parameter, the provider and the
    session as it leaves them. *)
Definition cipher_update_switch (w : W) (session : pkcs11_session)
    (in_ out : option TEE_Param) (in_size out_size : Z) (decrypt : bool) :
    sks_rc * option TEE_Param * Z * W * pkcs11_session :=
  match proc_id session with
  | SKS_CKM_AES_CCM | SKS_CKM_AES_GCM =>
      if decrypt then
        let '(rv, ctx, w) :=
          tee_ae_decrypt_update w (tee_op_handle session) (ae_scratch session)
            (memref_buffer <$> in_) in_size in
        (* Keep decrypted data in secure memory until final *)
        (rv, out, 0, w, set_ae_scratch session ctx)
      else
        let '(res, content, out_size, w) :=
          TEE_AEUpdate w (tee_op_handle session) (memref_buffer <$> in_) in_size
            (memref_buffer <$> out) out_size in
        (tee2sks_error res, fill out content, out_size, w, session)
  | _ =>
      let '(res, content, out_size, w) :=
        TEE_CipherUpdate w (tee_op_handle session) (memref_buffer <$> in_) in_size
          (memref_buffer <$> out) out_size in
      (tee2sks_error res, fill out content, out_size, w, session)
  end.

Definition entry_cipher_update (st : sks_state W) (tee_session : Z)
    (ctrl in_ out : option TEE_Param) (decrypt : bool) :
    outcome (sks_rc * option TEE_Param * sks_state W) :=
  let in_size := from_option memref_size 0 in_ in
  let out_size := from_option memref_size 0 out in
  match ctrl with
  | None => Done (SKS_BAD_PARAM, out, st)
  | Some ctrl =>
      let ctrlargs := serialargs_init (memref_buffer ctrl) (memref_size ctrl) in
      match serialargs_get ctrlargs 4 with
      | inl rv => Done (rv, out, st)
      | inr (session_handle, ctrlargs) =>
      match sks_handle2session st (le_uint session_handle) tee_session with
      | None => Done (SKS_CKR_SESSION_HANDLE_INVALID, out, st)
      | Some session =>
          if decide (check_processing_state session
                       (if decrypt then PKCS11_SESSION_DECRYPTING
                        else PKCS11_SESSION_ENCRYPTING) = 0) then
            let '(rv, out, out_size, w, session) :=
              cipher_update_switch (tee st) session in_ out in_size out_size
                                   decrypt in
            let rv := if null out && bool_decide (rv = SKS_SHORT_BUFFER)
                      then SKS_BAD_PARAM else rv in
            if bool_decide (rv ≠ SKS_OK) && bool_decide (rv ≠ SKS_SHORT_BUFFER) then
              '(w, session) ← release_active_processing w session;
              Done (rv, out,
                    set_session (set_tee st w) tee_session
                      (le_uint session_handle) session)
            else
              Done (rv, (fun p => set_memref_size p out_size) <$> out,
                    set_session (set_tee st w) tee_session
                      (le_uint session_handle) session)
          else Done (SKS_CKR_OPERATION_NOT_INITIALIZED, out, st)
      end end
  end.

(** The [switch] of [entry_cipher_final]. *)
Definition cipher_final_switch (w : W) (session : pkcs11_session)
    (in_ out : option TEE_Param) (in_size out_size : Z) (decrypt : bool) :
    sks_rc * option TEE_Param * Z * W * pkcs11_session :=
  match proc_id session with
  | SKS_CKM_AES_CCM | SKS_CKM_AES_GCM =>
      if decide (in_size = 0) then
        let '(rv, content, out_size, ctx, w) :=
          if decrypt then
            tee_ae_decrypt_final w (tee_op_handle session) (ae_scratch session)
              (memref_buffer <$> out) out_size
          else
            tee_ae_encrypt_final w (tee_op_handle session) (ae_scratch session)
              (memref_buffer <$> out) out_size in
        (rv, fill out content, out_size, w, set_ae_scratch session ctx)
      else (SKS_BAD_PARAM, out, out_size, w, session)
  | _ =>
      let '(res, content, out_size, w) :=
        TEE_CipherDoFinal w (tee_op_handle session) (memref_buffer <$> in_) in_size
          (memref_buffer <$> out) out_size in
      (tee2sks_error res, fill out content, out_size, w, session)
  end.

Definition entry_cipher_final (st : sks_state W) (tee_session : Z)
    (ctrl in_ out : option TEE_Param) (decrypt : bool) :
    outcome (sks_rc * option TEE_Param * sks_state W) :=
  let in_size := from_option memref_size 0 in_ in
  let out_size := from_option memref_size 0 out in
  match ctrl with
  | None => Done (SKS_BAD_PARAM, out, st)
  | Some ctrl =>
      let ctrlargs := serialargs_init (memref_buffer ctrl) (memref_size ctrl) in
      match serialargs_get ctrlargs 4 with
      | inl rv => Done (rv, out, st)
      | inr (session_handle, ctrlargs) =>
      match sks_handle2session st (le_uint session_handle) tee_session with
      | None => Done (SKS_CKR_SESSION_HANDLE_INVALID, out, st)
      | Some session =>
          if decide (check_processing_state session
                       (if decrypt then PKCS11_SESSION_DECRYPTING
                        else PKCS11_SESSION_ENCRYPTING) = 0) then
            let '(rv, out, out_size, w, session) :=
              cipher_final_switch (tee st) session in_ out in_size out_size
                                  decrypt in
            let rv := if null out && bool_decide (rv = SKS_SHORT_BUFFER)
                      then SKS_BAD_PARAM else rv in
            let out :=
              if bool_decide (rv = SKS_OK) || bool_decide (rv = SKS_SHORT_BUFFER)
              then (fun p => set_memref_size p out_size) <$> out
              else out in
            (* Only a short buffer error can leave the operation active *)
            '(w, session) ← (if bool_decide (rv ≠ SKS_SHORT_BUFFER)
                             then release_active_processing w session
                             else Done (w, session));
            Done (rv, out,
                  set_session (set_tee st w) tee_session
                    (le_uint session_handle) session)
          else Done (SKS_CKR_OPERATION_NOT_INITIALIZED, out, st)
      end end
  end.

(** *** Sign and verify *)

(** The case labels that the four [switch] statements of the sign/verify
    entries share. *)
Definition mac_mechanism (proc : sks_id) : bool :=
  match proc with
  | SKS_CKM_AES_CMAC | SKS_CKM_AES_CMAC_GENERAL | SKS_CKM_MD5_HMAC
  | SKS_CKM_SHA_1_HMAC | SKS_CKM_SHA224_HMAC | SKS_CKM_SHA256_HMAC
  | SKS_CKM_SHA384_HMAC | SKS_CKM_SHA512_HMAC | SKS_CKM_AES_XCBC_MAC => true
  | _ => false
  end.

(** Lines 1025 to 1055 of [entry_signverify_init]: the key is bound to the
    operation, then the MAC is initialized. *)
Definition signverify_init_operation (st : sks_state W) (session : pkcs11_session)
    (obj : sks_object) (proc_params : sks_attribute_head) :
    outcome (sks_rc * sks_state W * pkcs11_session) :=
  let '(res, w) :=
    TEE_SetOperationKey (tee st) (tee_op_handle session) (key_handle obj) in
  let st := set_tee st w in
  if decide (res = TEE_SUCCESS) then
    if mac_mechanism (id proc_params) then
      let w := TEE_MACInit (tee st) (tee_op_handle session) None 0 in
      Done (SKS_OK, set_tee st w, set_proc_id session (id proc_params))
    else Done (SKS_CKR_MECHANISM_INVALID, st, session)
  else Done (tee2sks_error res, st, session).

(** Lines 960 to 1055 of [entry_signverify_init], up to the label [bail]. *)
Definition signverify_init_steps (st : sks_state W) (session : pkcs11_session)
    (key_handle : Z) (proc_params : sks_attribute_head) (sign : bool) :
    outcome (sks_rc * sks_state W * pkcs11_session) :=
  let function := if sign then SKS_FUNCTION_SIGN else SKS_FUNCTION_VERIFY in
  if decide (check_processing_state session PKCS11_SESSION_READY = 0) then
    let '(err, session) :=
      set_processing_state session (if sign then PKCS11_SESSION_SIGNING
                                    else PKCS11_SESSION_VERIFYING) in
    if decide (err = 0) then
      match sks_handle2object st key_handle with
      | None => Done (SKS_CKR_KEY_HANDLE_INVALID, st, session)
      | Some obj =>
          rv ← check_parent_attrs_against_processing (id proc_params) function
                 (attributes obj);
          if failed rv then Done (rv, st, session) else
          rv ← check_parent_attrs_against_token session (attributes obj);
          if failed rv then Done (rv, st, session) else
          '(rv, w, session) ← tee_operarion_params (tee st) session proc_params
                                obj function;
          let st := set_tee st w in
          if failed rv then Done (rv, st, session) else
          if mac_mechanism (id proc_params) then
            '(rv, w, obj) ← load_key (tee st) obj;
            let st := set_object (set_tee st w) key_handle obj in
            if failed rv then Done (rv, st, session)
            else signverify_init_operation st session obj proc_params
          else Done (SKS_CKR_MECHANISM_INVALID, st, session)
      end
    else Done (SKS_CKR_OPERATION_ACTIVE, st, session)
  else Done (SKS_CKR_OPERATION_ACTIVE, st, session).

Definition entry_signverify_init (st : sks_state W) (tee_session : Z)
    (ctrl in_ out : option TEE_Param) (sign : bool) :
    outcome (sks_rc * sks_state W) :=
  match ctrl, in_, out with
  | Some ctrl, None, None =>
      let ctrlargs := serialargs_init (memref_buffer ctrl) (memref_size ctrl) in
      match serialargs_get ctrlargs 4 with
      | inl rv => Done (rv, st)
      | inr (session_handle, ctrlargs) =>
      match serialargs_get ctrlargs 4 with
      | inl rv => Done (rv, st)
      | inr (key_handle, ctrlargs) =>
      match serialargs_alloc_get_one_attribute ctrlargs with
      | inl rv => Done (rv, st)
      | inr (proc_params, ctrlargs) =>
      match sks_handle2session st (le_uint session_handle) tee_session with
      | None => Done (SKS_CKR_SESSION_HANDLE_INVALID, st)
      | Some session =>
          '(rv, st, session) ← signverify_init_steps st session
                                 (le_uint key_handle) proc_params sign;
          '(w, session) ← (if failed rv
                           then release_active_processing (tee st) session
                           else Done (tee st, session));
          Done (rv, set_session (set_tee st w) tee_session
                      (le_uint session_handle) session)
      end end end end
  | _, _, _ => Done (SKS_BAD_PARAM, st)
  end.

(** [entry_signverify_update]; the output parameter is returned as it came. *)
Definition entry_signverify_update (st : sks_state W) (tee_session : Z)
    (ctrl in_ out : option TEE_Param) (sign : bool) :
    outcome (sks_rc * option TEE_Param * sks_state W) :=
  match ctrl with
  | None => Done (SKS_BAD_PARAM, out, st)
  | Some ctrl =>
      let ctrlargs := serialargs_init (memref_buffer ctrl) (memref_size ctrl) in
      match serialargs_get ctrlargs 4 with
      | inl rv => Done (rv, out, st)
      | inr (session_handle, ctrlargs) =>
      match sks_handle2session st (le_uint session_handle) tee_session with
      | None => Done (SKS_CKR_SESSION_HANDLE_INVALID, out, st)
      | Some session =>
          if decide (check_processing_state session
                       (if sign then PKCS11_SESSION_SIGNING
                        else PKCS11_SESSION_VERIFYING) = 0) then
            let '(rv, w) :=
              match in_, out with
              | Some input, None =>
                  if mac_mechanism (proc_id session) then
                    (SKS_OK,
                     TEE_MACUpdate (tee st) (tee_op_handle session)
                       (memref_buffer input) (memref_size input))
                  else (SKS_CKR_MECHANISM_INVALID, tee st)
              | _, _ => (SKS_BAD_PARAM, tee st)
              end in
            '(w, session) ← (if failed rv
                             then release_active_processing w session
                             else Done (w, session));
            Done (rv, out,
                  set_session (set_tee st w) tee_session
                    (le_uint session_handle) session)
          else Done (SKS_CKR_OPERATION_NOT_INITIALIZED, out, st)
      end end
  end.

Definition entry_signverify_final (st : sks_state W) (tee_session : Z)
    (ctrl in_ out : option TEE_Param) (sign : bool) :
    outcome (sks_rc * option TEE_Param * sks_state W) :=
  let out_size := from_option memref_size 0 out in
  match ctrl with
  | None => Done (SKS_BAD_PARAM, out, st)
  | Some ctrl =>
      let ctrlargs := serialargs_init (memref_buffer ctrl) (memref_size ctrl) in
      match serialargs_get ctrlargs 4 with
      | inl rv => Done (rv, out, st)
      | inr (session_handle, ctrlargs) =>
      match sks_handle2session st (le_uint session_handle) tee_session with
      | None => Done (SKS_CKR_SESSION_HANDLE_INVALID, out, st)
      | Some session =>
          if decide (check_processing_state session
                       (if sign then PKCS11_SESSION_SIGNING
                        else PKCS11_SESSION_VERIFYING) = 0) then
            let '(rv, out, out_size, w) :=
              match in_, out with
              | None, Some output =>
                  if mac_mechanism (proc_id session) then
                    if sign then
                      let '(res, content, out_size, w) :=
                        TEE_MACComputeFinal (tee st) (tee_op_handle session)
                          (memref_buffer output) out_size in
                      (tee2sks_error res, fill out content, out_size, w)
                    else
                      let '(res, w) :=
                        TEE_MACCompareFinal (tee st) (tee_op_handle session)
                          (memref_buffer output) out_size in
                      (tee2sks_error res, out, out_size, w)
                  else (SKS_CKR_MECHANISM_INVALID, out, out_size, tee st)
              | _, _ => (SKS_BAD_PARAM, out, out_size, tee st)
              end in
            let out :=
              if sign && (bool_decide (rv = SKS_OK) ||
                          bool_decide (rv = SKS_SHORT_BUFFER))
              then (fun p => set_memref_size p out_size) <$> out
              else out in
            '(w, session) ← (if bool_decide (rv ≠ SKS_SHORT_BUFFER)
                             then release_active_processing w session
                             else Done (w, session));
            Done (rv, out,
                  set_session (set_tee st w) tee_session
                    (le_uint session_handle) session)
          else Done (SKS_CKR_OPERATION_NOT_INITIALIZED, out, st)
      end end
  end.

(** *** Object import and generation *)





(** *** The update and final commands as one family *)

Inductive processing_step : Type :=
| CIPHER_UPDATE (decrypt : bool)
| CIPHER_FINAL (decrypt : bool)
| SIGNVERIFY_UPDATE (sign : bool)
| SIGNVERIFY_FINAL (sign : bool).

(** The processing state that the state check of each command demands. *)
Definition step_state (c : processing_step) : pkcs11_session_processing :=
  match c with
  | CIPHER_UPDATE decrypt | CIPHER_FINAL decrypt =>
      if decrypt then PKCS11_SESSION_DECRYPTING else PKCS11_SESSION_ENCRYPTING
  | SIGNVERIFY_UPDATE sign | SIGNVERIFY_FINAL sign =>
      if sign then PKCS11_SESSION_SIGNING else PKCS11_SESSION_VERIFYING
  end.

Definition is_final (c : processing_step) : bool :=
  match c with
  | CIPHER_FINAL _ | SIGNVERIFY_FINAL _ => true
  | _ => false
  end.

Definition run_step (c : processing_step) (st : sks_state W) (tee_session : Z)
    (ctrl in_ out : option TEE_Param) :
    outcome (sks_rc * option TEE_Param * sks_state W) :=
  match c with
  | CIPHER_UPDATE decrypt => entry_cipher_update st tee_session ctrl in_ out decrypt
  | CIPHER_FINAL decrypt => entry_cipher_final st tee_session ctrl in_ out decrypt
  | SIGNVERIFY_UPDATE sign => entry_signverify_update st tee_session ctrl in_ out sign
  | SIGNVERIFY_FINAL sign => entry_signverify_final st tee_session ctrl in_ out sign
  end.

(** The session handle that an entry point reads at the head of its
    control buffer, when the buffer is there and holds four bytes. *)
Definition ctrl_session_handle (ctrl : option TEE_Param) : option Z :=
  match ctrl with
  | None => None
  | Some c =>
      match serialargs_get (serialargs_init (memref_buffer c) (memref_size c)) 4 with
      | inl _ => None
      | inr (h, _) => Some (le_uint h)
      end
  end.

(** The value of [rv] that the [switch] of a cipher update or final call
    leaves: what the provider, or the AES helper in front of it, answered. *)
Definition cipher_switch_rv (final decrypt : bool) (w : W) (session : pkcs11_session)
    (in_ out : option TEE_Param) : sks_rc :=
  let in_size := from_option memref_size 0 in_ in
  let out_size := from_option memref_size 0 out in
  let '(rv, _, _, _, _) :=
    if final
    then cipher_final_switch w session in_ out in_size out_size decrypt
    else cipher_update_switch w session in_ out in_size out_size decrypt in
  rv.

(** A session after [release_active_processing]: back to READY, no
    mechanism, no provider operation, and no AE scratch when the mechanism
    was CTR, CCM or GCM. *)
Definition ae_mechanism (proc : sks_id) : bool :=
  match proc with
  | SKS_CKM_AES_CTR | SKS_CKM_AES_CCM | SKS_CKM_AES_GCM => true
  | _ => false
  end.

Definition released (before after : pkcs11_session) : Prop :=
  processing after = PKCS11_SESSION_READY /\
  proc_id after = SKS_UNDEFINED_ID /\
  tee_op_handle after = TEE_HANDLE_NULL /\
  (ae_mechanism (proc_id before) = true -> ae_scratch after = None).

(** The operation of a session is untouched: same state, same mechanism,
    same provider operation. *)
Definition same_operation (before after : pkcs11_session) : Prop :=
  processing after = processing before /\
  proc_id after = proc_id before /\
  tee_op_handle after = tee_op_handle before.

(** *** All the entry points of the engine *)




(** The arguments that an init command reads from its control buffer:
    session handle, key handle and mechanism parameters. *)
Definition ctrl_init_arguments (ctrl : option TEE_Param) :
    option (Z * Z * sks_attribute_head) :=
  match ctrl with
  | None => None
  | Some c =>
      match serialargs_get (serialargs_init (memref_buffer c) (memref_size c)) 4 with
      | inl _ => None
      | inr (session_handle, ctrlargs) =>
      match serialargs_get ctrlargs 4 with
      | inl _ => None
      | inr (key_handle, ctrlargs) =>
      match serialargs_alloc_get_one_attribute ctrlargs with
      | inl _ => None
      | inr (proc_params, _) =>
          Some (le_uint session_handle, le_uint key_handle, proc_params)
      end end end
  end.
End processing.

(** ** A deterministic provider

    The design document asks for tests that "substitute a deterministic
    fake" for the provider.  This one logs the calls it receives, hands out
    fixed handles and copies its input for a cipher; a few of its answers can
    be forced to a given provider error.  The examples and counterexamples
    below run the engine against it. *)

Inductive tee_call : Type :=
| CALL_AllocateOperation (algo : tee_algorithm) (mode : tee_mode) (max_key_size : Z)
| CALL_FreeOperation (op : TEE_OperationHandle)
| CALL_SetOperationKey (op : TEE_OperationHandle) (key : TEE_ObjectHandle)
| CALL_AllocateTransientObject (ty : tee_object_type) (max_size : Z)
| CALL_PopulateTransientObject (key : TEE_ObjectHandle) (value : list byte)
| CALL_FreeTransientObject (key : TEE_ObjectHandle)
| CALL_CipherInit (op : TEE_OperationHandle) (iv : option (list byte))
| CALL_CipherUpdate (op : TEE_OperationHandle) (src : option (list byte))
| CALL_CipherDoFinal (op : TEE_OperationHandle) (src : option (list byte))
| CALL_AEUpdate (op : TEE_OperationHandle) (src : option (list byte))
| CALL_AEInit (op : TEE_OperationHandle)
| CALL_AEFinal (op : TEE_OperationHandle)
| CALL_MACInit (op : TEE_OperationHandle)
| CALL_MACUpdate (op : TEE_OperationHandle) (chunk : list byte)
| CALL_MACComputeFinal (op : TEE_OperationHandle)
| CALL_MACCompareFinal (op : TEE_OperationHandle) (mac : list byte)
| CALL_Malloc (len : Z)
| CALL_GenerateRandom (len : Z).

(** What the fake provider is told to answer: the result of
    [TEE_AllocateOperation], of [TEE_AllocateTransientObject], and, when
    given, of the cipher update and final calls. *)
Record fake_provider : Type := mk_fake {
  allocate_operation_result : TEE_Result;
  allocate_object_result : TEE_Result;
  cipher_result : option TEE_Result;
}.

Definition TEE_ERROR_BAD_PARAMETERS : TEE_Result := 0xFFFF0006.
Definition TEE_ERROR_MAC_INVALID : TEE_Result := 0xFFFF3071.

Definition fake_tee2sks_error (res : TEE_Result) : sks_rc :=
  if decide (res = TEE_SUCCESS) then SKS_OK
  else if decide (res = TEE_ERROR_BAD_PARAMETERS) then SKS_BAD_PARAM
  else if decide (res = TEE_ERROR_OUT_OF_MEMORY) then SKS_MEMORY
  else if decide (res = TEE_ERROR_SHORT_BUFFER) then SKS_SHORT_BUFFER
  else if decide (res = TEE_ERROR_MAC_INVALID) then SKS_CKR_SIGNATURE_INVALID
  else SKS_ERROR.

Definition fake_mechanism_of_u32 (n : Z) : sks_id :=
  match n with
  | 0 => SKS_CKM_AES_ECB
  | 1 => SKS_CKM_AES_CBC
  | 2 => SKS_CKM_AES_CBC_PAD
  | 3 => SKS_CKM_AES_CTS
  | 4 => SKS_CKM_AES_CTR
  | 5 => SKS_CKM_AES_GCM
  | 6 => SKS_CKM_AES_CCM
  | 7 => SKS_CKM_AES_CMAC
  | 8 => SKS_CKM_SHA256_HMAC
  | _ => SKS_UNLISTED_ID n
  end.

Definition fake_class_of_u32 (n : Z) : sks_id :=
  match n with
  | 0 => SKS_CKO_SECRET_KEY
  | _ => SKS_UNLISTED_ID n
  end.

Definition fake_key_type_of_u32 (n : Z) : sks_id :=
  match n with
  | 0 => SKS_CKK_AES
  | 1 => SKS_CKK_GENERIC_SECRET
  | 2 => SKS_CKK_SHA256_HMAC
  | _ => SKS_UNLISTED_ID n
  end.

Definition fake_boolprop_shift (attribute : sks_id) : Z :=
  match attribute with
  | SKS_CKA_TOKEN => 0
  | SKS_CKA_PRIVATE => 1
  | SKS_CKA_ENCRYPT => 2
  | SKS_CKA_DECRYPT => 3
  | SKS_CKA_SIGN => 4
  | SKS_CKA_VERIFY => 5
  | _ => -1
  end.

(** Modelled from the spec: rule 4 of the policy gate, "the parent key must
    have the corresponding usage bit set" and "its key-type must match the
    mechanism's required key-type", with the table of the design document
    (every AES mechanism, AES_CBC_PAD among them, wants an AES key). *)
Definition fake_check_parent_attrs_against_processing (proc : sks_id)
    (function : sks_function) (head : sks_attrs_head) : outcome sks_rc :=
  let usage :=
    match function with
    | SKS_FUNCTION_ENCRYPT => SKS_CKA_ENCRYPT
    | SKS_FUNCTION_DECRYPT => SKS_CKA_DECRYPT
    | SKS_FUNCTION_SIGN => SKS_CKA_SIGN
    | _ => SKS_CKA_VERIFY
    end in
  let permitted :=
    match find_attribute (attrs head) usage with
    | Some [b] => negb (bool_decide (b = x00))
    | _ => false
    end in
  let key_type :=
    match find_attribute (attrs head) SKS_CKA_KEY_TYPE with
    | Some v => fake_key_type_of_u32 (le_uint v)
    | None => SKS_UNDEFINED_ID
    end in
  if permitted then
    match proc with
    | SKS_CKM_AES_ECB | SKS_CKM_AES_CBC | SKS_CKM_AES_CBC_PAD | SKS_CKM_AES_CTS
    | SKS_CKM_AES_CTR | SKS_CKM_AES_CCM | SKS_CKM_AES_GCM | SKS_CKM_AES_CMAC
    | SKS_CKM_AES_CMAC_GENERAL | SKS_CKM_AES_XCBC_MAC =>
        if bool_decide (key_type = SKS_CKK_AES) then Done SKS_OK
        else Done SKS_CKR_KEY_TYPE_INCONSISTENT
    | SKS_CKM_SHA256_HMAC =>
        if bool_decide (key_type = SKS_CKK_GENERIC_SECRET) ||
           bool_decide (key_type = SKS_CKK_SHA256_HMAC)
        then Done SKS_OK else Done SKS_CKR_KEY_TYPE_INCONSISTENT
    | _ => Done SKS_CKR_MECHANISM_INVALID
    end
  else Done SKS_CKR_KEY_FUNCTION_NOT_PERMITTED.

(** Modelled from the spec: rule 5, "private parent keys require logged-in
    USER"; nobody is logged in here. *)
Definition fake_check_parent_attrs_against_token (session : pkcs11_session)
    (head : sks_attrs_head) : outcome sks_rc :=
  match find_attribute (attrs head) SKS_CKA_PRIVATE with
  | Some [b] => if bool_decide (b = x00) then Done SKS_OK
                else Done SKS_CKR_USER_NOT_LOGGED_IN
  | _ => Done SKS_OK
  end.

(** The fake cipher copies its input when the destination can hold it. *)
Definition fake_cipher (p : fake_provider) (src : option (list byte)) (src_len : Z)
    (dst : option (list byte)) (dst_len : Z) : TEE_Result * list byte * Z :=
  match cipher_result p with
  | Some res => (res, default [] dst, dst_len)
  | None =>
      if decide (dst_len < src_len) then
        (TEE_ERROR_SHORT_BUFFER, default [] dst, src_len)
      else (TEE_SUCCESS, default [] src, src_len)
  end.

Definition fake_ae_final (scratch dst : option (list byte)) (dst_len : Z) :
    sks_rc * list byte * Z * option (list byte) :=
  let pending := default [] scratch in
  if decide (dst_len < Z.of_nat (length pending)) then
    (SKS_SHORT_BUFFER, default [] dst, Z.of_nat (length pending), scratch)
  else (SKS_OK, pending, Z.of_nat (length pending), Some []).

Definition fake_env (p : fake_provider) : sks_env (list tee_call) := {|
  SKS_SHEAD_WITH_TYPE := false;
  SKS_SHEAD_WITH_BOOLPROPS := false;
  tee2sks_error := fake_tee2sks_error;
  sks_attr2boolprop_shift := fake_boolprop_shift;
  mechanism_of_u32 := fake_mechanism_of_u32;
  class_of_u32 := fake_class_of_u32;
  key_type_of_u32 := fake_key_type_of_u32;
  check_parent_attrs_against_processing := fake_check_parent_attrs_against_processing;
  check_parent_attrs_against_token := fake_check_parent_attrs_against_token;
  create_attributes_from_template := fun template size function =>
    Done (inr (mk_head SKS_UNDEFINED_ID SKS_UNDEFINED_ID 0 0 []));
  check_created_attrs_against_processing := fun proc head => Done SKS_OK;
  check_created_attrs_against_token := fun session head => Done SKS_OK;
  add_attribute := fun head attribute value size =>
    (SKS_OK, mk_head (class head) (type head) (boolpropl head) (boolproph head)
                     (attrs head ++ [(attribute, value)]));
  create_object := fun objs session head =>
    let handle := Z.of_nat (base.size (dom objs)) + 1 in
    (SKS_OK, handle, <[handle := mk_object head TEE_HANDLE_NULL]> objs);
  tee_init_ctr_operation := fun w op scratch params size =>
    (SKS_OK, Some [], w ++ [CALL_CipherInit op (Some params)]);
  tee_init_ccm_operation := fun w op scratch params size =>
    (SKS_OK, Some [], w ++ [CALL_AEInit op]);
  tee_init_gcm_operation := fun w op scratch params size =>
    (SKS_OK, Some [], w ++ [CALL_AEInit op]);
  tee_ae_decrypt_update := fun w op scratch src src_len =>
    (SKS_OK, Some (default [] scratch ++ default [] src), w ++ [CALL_AEUpdate op src]);
  tee_ae_decrypt_final := fun w op scratch dst dst_len =>
    let '(rv, content, n, scratch) := fake_ae_final scratch dst dst_len in
    (rv, content, n, scratch, w ++ [CALL_AEFinal op]);
  tee_ae_encrypt_final := fun w op scratch dst dst_len =>
    let '(rv, content, n, scratch) := fake_ae_final scratch dst dst_len in
    (rv, content, n, scratch, w ++ [CALL_AEFinal op]);
  TEE_AllocateOperation := fun w algo mode size =>
    (allocate_operation_result p, 7, w ++ [CALL_AllocateOperation algo mode size]);
  TEE_FreeOperation := fun w op => w ++ [CALL_FreeOperation op];
  TEE_SetOperationKey := fun w op key =>
    (TEE_SUCCESS, w ++ [CALL_SetOperationKey op key]);
  TEE_AllocateTransientObject := fun w ty size =>
    (allocate_object_result p, 9, w ++ [CALL_AllocateTransientObject ty size]);
  TEE_PopulateTransientObject := fun w key attribute value size =>
    (TEE_SUCCESS, w ++ [CALL_PopulateTransientObject key value]);
  TEE_FreeTransientObject := fun w key => w ++ [CALL_FreeTransientObject key];
  TEE_CipherInit := fun w op iv iv_len => w ++ [CALL_CipherInit op iv];
  TEE_CipherUpdate := fun w op src src_len dst dst_len =>
    (fake_cipher p src src_len dst dst_len, w ++ [CALL_CipherUpdate op src]);
  TEE_CipherDoFinal := fun w op src src_len dst dst_len =>
    (fake_cipher p src src_len dst dst_len, w ++ [CALL_CipherDoFinal op src]);
  TEE_AEUpdate := fun w op src src_len dst dst_len =>
    (fake_cipher p src src_len dst dst_len, w ++ [CALL_AEUpdate op src]);
  TEE_MACInit := fun w op iv iv_len => w ++ [CALL_MACInit op];
  TEE_MACUpdate := fun w op chunk size => w ++ [CALL_MACUpdate op chunk];
  TEE_MACComputeFinal := fun w op dst dst_len =>
    if decide (dst_len < 1) then
      (TEE_ERROR_SHORT_BUFFER, dst, 1, w ++ [CALL_MACComputeFinal op])
    else (TEE_SUCCESS, [xaa], 1, w ++ [CALL_MACComputeFinal op]);
  TEE_MACCompareFinal := fun w op mac mac_len =>
    (if bool_decide (take (Z.to_nat mac_len) mac = [xaa]) then TEE_SUCCESS
     else TEE_ERROR_MAC_INVALID,
     w ++ [CALL_MACCompareFinal op mac]);
  TEE_Malloc := fun w len => (true, w ++ [CALL_Malloc len]);
  TEE_GenerateRandom := fun w len =>
    (repeat x00 (Z.to_nat len), w ++ [CALL_GenerateRandom len]);
|}.

(** A provider that never fails. *)
Definition healthy : fake_provider := mk_fake TEE_SUCCESS TEE_SUCCESS None.

(** An AES-128 secret key that may encrypt and decrypt. *)
Definition aes_key_attributes : sks_attrs_head :=
  mk_head SKS_UNDEFINED_ID SKS_UNDEFINED_ID 0 0
    [(SKS_CKA_CLASS, [x00; x00; x00; x00]);
     (SKS_CKA_KEY_TYPE, [x00; x00; x00; x00]);
     (SKS_CKA_VALUE, repeat x11 16);
     (SKS_CKA_ENCRYPT, [x01]);
     (SKS_CKA_DECRYPT, [x01])].

Definition aes_key : sks_object := mk_object aes_key_attributes TEE_HANDLE_NULL.

(** The same key without its class attribute. *)
Definition classless_key : sks_object :=
  mk_object
    (mk_head SKS_UNDEFINED_ID SKS_UNDEFINED_ID 0 0
       [(SKS_CKA_KEY_TYPE, [x00; x00; x00; x00]);
        (SKS_CKA_VALUE, repeat x11 16);
        (SKS_CKA_ENCRYPT, [x01]);
        (SKS_CKA_DECRYPT, [x01])])
    TEE_HANDLE_NULL.

(** A state with one client (1), one session (handle 5) and one key
    (handle 3); the provider has seen no call yet. *)
Definition one_session_one_key (session : pkcs11_session) (key : sks_object) :
    sks_state (list tee_call) :=
  mk_state [] {[ (1, 5) := session ]} {[ 3 := key ]}.

Definition one_session (session : pkcs11_session) : sks_state (list tee_call) :=
  one_session_one_key session aes_key.

Definition ready_session : pkcs11_session :=
  mk_session PKCS11_SESSION_READY SKS_UNDEFINED_ID TEE_HANDLE_NULL None.

(** A session with an operation of the given state and mechanism on the
    provider operation 7. *)
Definition active_session (state : pkcs11_session_processing) (proc : sks_id) :
    pkcs11_session :=
  mk_session state proc 7 None.

(** The control buffer of an update or final command on session 5. *)
Definition ctrl_session_5 : TEE_Param :=
  mk_param 0x1000 [x05; x00; x00; x00] 4.

(** A 2-byte input buffer and a 16-byte output buffer. *)
Definition input_2 : TEE_Param := mk_param 0x2000 [x01; x02] 2.
Definition output_16 : TEE_Param := mk_param 0x3000 (repeat x00 16) 16.

(** The control buffer of an init command on session 5 with key 3 and the
    mechanism [mechanism] (its 32-bit identifier for the fake environment)
    with the parameter bytes [params]. *)
Definition ctrl_init (mechanism : Z) (params : list byte) : TEE_Param :=
  let buffer :=
    [x05; x00; x00; x00] ++ [x03; x00; x00; x00] ++
    le_bytes 4 mechanism ++ le_bytes 4 (Z.of_nat (length params)) ++ params in
  mk_param 0x1000 buffer (Z.of_nat (length buffer)).

(** The provider that never fails, in a build with the boolean bit-field
    in the header of the attributes. *)
Definition fake_env_bit_field : sks_env (list tee_call) := {|
  SKS_SHEAD_WITH_TYPE := SKS_SHEAD_WITH_TYPE (sks_env := fake_env healthy);
  SKS_SHEAD_WITH_BOOLPROPS := true;
  tee2sks_error := tee2sks_error (sks_env := fake_env healthy);
  sks_attr2boolprop_shift := sks_attr2boolprop_shift (sks_env := fake_env healthy);
  mechanism_of_u32 := mechanism_of_u32 (sks_env := fake_env healthy);
  class_of_u32 := class_of_u32 (sks_env := fake_env healthy);
  key_type_of_u32 := key_type_of_u32 (sks_env := fake_env healthy);
  check_parent_attrs_against_processing := check_parent_attrs_against_processing (sks_env := fake_env healthy);
  check_parent_attrs_against_token := check_parent_attrs_against_token (sks_env := fake_env healthy);
  create_attributes_from_template := create_attributes_from_template (sks_env := fake_env healthy);
  check_created_attrs_against_processing := check_created_attrs_against_processing (sks_env := fake_env healthy);
  check_created_attrs_against_token := check_created_attrs_against_token (sks_env := fake_env healthy);
  add_attribute := add_attribute (sks_env := fake_env healthy);
  create_object := create_object (sks_env := fake_env healthy);
  tee_init_ctr_operation := tee_init_ctr_operation (sks_env := fake_env healthy);
  tee_init_ccm_operation := tee_init_ccm_operation (sks_env := fake_env healthy);
  tee_init_gcm_operation := tee_init_gcm_operation (sks_env := fake_env healthy);
  tee_ae_decrypt_update := tee_ae_decrypt_update (sks_env := fake_env healthy);
  tee_ae_decrypt_final := tee_ae_decrypt_final (sks_env := fake_env healthy);
  tee_ae_encrypt_final := tee_ae_encrypt_final (sks_env := fake_env healthy);
  TEE_AllocateOperation := TEE_AllocateOperation (sks_env := fake_env healthy);
  TEE_FreeOperation := TEE_FreeOperation (sks_env := fake_env healthy);
  TEE_SetOperationKey := TEE_SetOperationKey (sks_env := fake_env healthy);
  TEE_AllocateTransientObject := TEE_AllocateTransientObject (sks_env := fake_env healthy);
  TEE_PopulateTransientObject := TEE_PopulateTransientObject (sks_env := fake_env healthy);
  TEE_FreeTransientObject := TEE_FreeTransientObject (sks_env := fake_env healthy);
  TEE_CipherInit := TEE_CipherInit (sks_env := fake_env healthy);
  TEE_CipherUpdate := TEE_CipherUpdate (sks_env := fake_env healthy);
  TEE_CipherDoFinal := TEE_CipherDoFinal (sks_env := fake_env healthy);
  TEE_AEUpdate := TEE_AEUpdate (sks_env := fake_env healthy);
  TEE_MACInit := TEE_MACInit (sks_env := fake_env healthy);
  TEE_MACUpdate := TEE_MACUpdate (sks_env := fake_env healthy);
  TEE_MACComputeFinal := TEE_MACComputeFinal (sks_env := fake_env healthy);
  TEE_MACCompareFinal := TEE_MACCompareFinal (sks_env := fake_env healthy);
  TEE_Malloc := TEE_Malloc (sks_env := fake_env healthy);
  TEE_GenerateRandom := TEE_GenerateRandom (sks_env := fake_env healthy);
|}.

(** The provider that never fails, but for [TEE_PopulateTransientObject],
    which answers [res]. *)
Definition fake_env_populate (res : TEE_Result) : sks_env (list tee_call) := {|
  SKS_SHEAD_WITH_TYPE := SKS_SHEAD_WITH_TYPE (sks_env := fake_env healthy);
  SKS_SHEAD_WITH_BOOLPROPS := SKS_SHEAD_WITH_BOOLPROPS (sks_env := fake_env healthy);
  tee2sks_error := tee2sks_error (sks_env := fake_env healthy);
  sks_attr2boolprop_shift := sks_attr2boolprop_shift (sks_env := fake_env healthy);
  mechanism_of_u32 := mechanism_of_u32 (sks_env := fake_env healthy);
  class_of_u32 := class_of_u32 (sks_env := fake_env healthy);
  key_type_of_u32 := key_type_of_u32 (sks_env := fake_env healthy);
  check_parent_attrs_against_processing := check_parent_attrs_against_processing (sks_env := fake_env healthy);
  check_parent_attrs_against_token := check_parent_attrs_against_token (sks_env := fake_env healthy);
  create_attributes_from_template := create_attributes_from_template (sks_env := fake_env healthy);
  check_created_attrs_against_processing := check_created_attrs_against_processing (sks_env := fake_env healthy);
  check_created_attrs_against_token := check_created_attrs_against_token (sks_env := fake_env healthy);
  add_attribute := add_attribute (sks_env := fake_env healthy);
  create_object := create_object (sks_env := fake_env healthy);
  tee_init_ctr_operation := tee_init_ctr_operation (sks_env := fake_env healthy);
  tee_init_ccm_operation := tee_init_ccm_operation (sks_env := fake_env healthy);
  tee_init_gcm_operation := tee_init_gcm_operation (sks_env := fake_env healthy);
  tee_ae_decrypt_update := tee_ae_decrypt_update (sks_env := fake_env healthy);
  tee_ae_decrypt_final := tee_ae_decrypt_final (sks_env := fake_env healthy);
  tee_ae_encrypt_final := tee_ae_encrypt_final (sks_env := fake_env healthy);
  TEE_AllocateOperation := TEE_AllocateOperation (sks_env := fake_env healthy);
  TEE_FreeOperation := TEE_FreeOperation (sks_env := fake_env healthy);
  TEE_SetOperationKey := TEE_SetOperationKey (sks_env := fake_env healthy);
  TEE_AllocateTransientObject := TEE_AllocateTransientObject (sks_env := fake_env healthy);
  TEE_PopulateTransientObject := fun w key attribute value size =>
    (res, w ++ [CALL_PopulateTransientObject key value]);
  TEE_FreeTransientObject := TEE_FreeTransientObject (sks_env := fake_env healthy);
  TEE_CipherInit := TEE_CipherInit (sks_env := fake_env healthy);
  TEE_CipherUpdate := TEE_CipherUpdate (sks_env := fake_env healthy);
  TEE_CipherDoFinal := TEE_CipherDoFinal (sks_env := fake_env healthy);
  TEE_AEUpdate := TEE_AEUpdate (sks_env := fake_env healthy);
  TEE_MACInit := TEE_MACInit (sks_env := fake_env healthy);
  TEE_MACUpdate := TEE_MACUpdate (sks_env := fake_env healthy);
  TEE_MACComputeFinal := TEE_MACComputeFinal (sks_env := fake_env healthy);
  TEE_MACCompareFinal := TEE_MACCompareFinal (sks_env := fake_env healthy);
  TEE_Malloc := TEE_Malloc (sks_env := fake_env healthy);
  TEE_GenerateRandom := TEE_GenerateRandom (sks_env := fake_env healthy);
|}.



(** An AES key of the builds with the boolean bit-field, with the bits of
    ENCRYPT and DECRYPT (2 and 3 in the fake environment) set. *)
Definition bit_field_head : sks_attrs_head :=
  mk_head SKS_CKO_SECRET_KEY SKS_CKK_AES 12 0 [(SKS_CKA_VALUE, repeat x11 16)].


(** A private AES key, and an AES key whose KEY_TYPE entry has two bytes. *)
Definition private_key : sks_object :=
  mk_object
    (mk_head SKS_UNDEFINED_ID SKS_UNDEFINED_ID 0 0
       (attrs aes_key_attributes ++ [(SKS_CKA_PRIVATE, [x01])]))
    TEE_HANDLE_NULL.
Definition short_type_key : sks_object :=
  mk_object
    (mk_head SKS_UNDEFINED_ID SKS_UNDEFINED_ID 0 0
       [(SKS_CKA_CLASS, [x00; x00; x00; x00]);
        (SKS_CKA_KEY_TYPE, [x00; x00]);
        (SKS_CKA_VALUE, repeat x11 16)])
    TEE_HANDLE_NULL.

(** An AES key that may sign and verify. *)
Definition signing_key : sks_object :=
  mk_object
    (mk_head SKS_UNDEFINED_ID SKS_UNDEFINED_ID 0 0
       (attrs aes_key_attributes ++
        [(SKS_CKA_SIGN, [x01]); (SKS_CKA_VERIFY, [x01])]))
    TEE_HANDLE_NULL.

(** * Properties *)

Section release.
Context {W : Type} {E : sks_env W}.

Lemma set_processing_state_ready (session : pkcs11_session) :
  set_processing_state session PKCS11_SESSION_READY =
  (0, set_processing session PKCS11_SESSION_READY).
Proof.
  unfold set_processing_state.
  destruct (decide (processing session = PKCS11_SESSION_READY)); reflexivity.
Qed.

(** [release_active_processing] frees the provider operation of a session
    that holds one, and calls the provider for nothing else. *)
Lemma release_active_processing_provider (w w' : W)
    (session session' : pkcs11_session) :
  release_active_processing w session = Done (w', session') ->
  w' = if decide (tee_op_handle session = TEE_HANDLE_NULL) then w
       else TEE_FreeOperation w (tee_op_handle session).
Proof.
  unfold release_active_processing.
  destruct (proc_id session); simpl;
    unfold tee_release_ctr_operation, tee_release_gcm_operation,
           tee_release_ccm_operation; simpl;
    destruct (decide (tee_op_handle session = TEE_HANDLE_NULL));
    rewrite set_processing_state_ready; simpl; congruence.
Qed.

(** [release_active_processing] never panics and leaves a released
    session. *)
Lemma release_active_processing_released (w : W) (session : pkcs11_session) :
  exists w' session',
    release_active_processing w session = Done (w', session') /\
    released session session'.
Proof.
  unfold release_active_processing.
  set (s1 := match proc_id session with
             | SKS_CKM_AES_CTR => tee_release_ctr_operation session
             | SKS_CKM_AES_GCM => tee_release_gcm_operation session
             | SKS_CKM_AES_CCM => tee_release_ccm_operation session
             | _ => session
             end).
  assert (Hs1 : ae_mechanism (proc_id session) = true -> ae_scratch s1 = None).
  { subst s1. destruct (proc_id session); simpl; intros; try discriminate; reflexivity. }
  destruct (decide (tee_op_handle (set_proc_id s1 SKS_UNDEFINED_ID) = TEE_HANDLE_NULL))
    as [Hnull | Hset];
    rewrite set_processing_state_ready; simpl;
    eexists _, _; (split; [reflexivity |]);
    unfold released; simpl; auto.
Qed.
End release.

Section state_machine.
Context {W : Type} {E : sks_env W}.

Lemma same_operation_refl (session : pkcs11_session) :
  same_operation session session.
Proof. unfold same_operation; auto. Qed.

Lemma same_operation_scratch (session : pkcs11_session) (ctx : option (list byte)) :
  same_operation session (set_ae_scratch session ctx).
Proof. unfold same_operation; auto. Qed.

Lemma released_same_operation (s0 s1 s2 : pkcs11_session) :
  same_operation s0 s1 -> released s1 s2 -> released s0 s2.
Proof.
  unfold same_operation, released. intros (_ & Hid & _) (? & ? & ? & Hae).
  rewrite Hid in Hae. auto.
Qed.

Lemma null_fmap {A B : Type} (f : A -> B) (p : option A) : null (f <$> p) = null p.
Proof. destruct p; reflexivity. Qed.

Lemma cipher_update_switch_operation (w : W) (session : pkcs11_session)
    (in_ out : option TEE_Param) (in_size out_size : Z) (decrypt : bool)
    rv out' n w' session' :
  cipher_update_switch w session in_ out in_size out_size decrypt =
    (rv, out', n, w', session') ->
  same_operation session session' /\ null out' = null out.
Proof.
  unfold cipher_update_switch, fill.
  destruct (proc_id session), decrypt;
    repeat match goal with
           | |- context [let '(_, _) := ?x in _] => destruct x
           end;
    intros [= <- <- <- <- <-];
    auto using same_operation_refl, same_operation_scratch, null_fmap.
Qed.

Lemma cipher_final_switch_operation (w : W) (session : pkcs11_session)
    (in_ out : option TEE_Param) (in_size out_size : Z) (decrypt : bool)
    rv out' n w' session' :
  cipher_final_switch w session in_ out in_size out_size decrypt =
    (rv, out', n, w', session') ->
  same_operation session session' /\ null out' = null out.
Proof.
  unfold cipher_final_switch, fill.
  destruct (proc_id session), decrypt, (decide (in_size = 0));
    repeat match goal with
           | |- context [let '(_, _) := ?x in _] => destruct x
           end;
    intros [= <- <- <- <- <-];
    auto using same_operation_refl, same_operation_scratch, null_fmap.
Qed.

Lemma lookup_set_session (st : sks_state W) (tee_session h : Z)
    (session : pkcs11_session) :
  sks_handle2session (set_session st tee_session h session) h tee_session =
  Some session.
Proof. unfold sks_handle2session, set_session; simpl. apply lookup_insert_eq. Qed.

Lemma check_processing_state_eq (session : pkcs11_session)
    (state : pkcs11_session_processing) :
  processing session = state -> check_processing_state session state = 0.
Proof.
  intros Hp. unfold check_processing_state.
  destruct (decide (processing session = state)); [reflexivity | contradiction].
Qed.

Lemma check_processing_state_ne (session : pkcs11_session)
    (state : pkcs11_session_processing) :
  processing session <> state -> check_processing_state session state = 1.
Proof.
  intros Hp. unfold check_processing_state.
  destruct (decide (processing session = state)); [contradiction | reflexivity].
Qed.

Ltac step_cases :=
  eexists _, _, _, _; (split; [reflexivity |]);
  (split; [| split]); intros;
  try assumption; try apply same_operation_refl; try congruence;
  try (exfalso; intuition congruence).

(** What an update or final command does to the session whose operation it
    drives. *)
Lemma run_step_on_active
    (c : processing_step) (st : sks_state W) (tee_session h : Z)
    (ctrl in_ out : option TEE_Param) (session : pkcs11_session) :
  ctrl_session_handle ctrl = Some h ->
  sks_handle2session st h tee_session = Some session ->
  processing session = step_state c ->
  exists rv out' w' session',
    run_step c st tee_session ctrl in_ out =
      Done (rv, out', set_session (set_tee st w') tee_session h session') /\
    (rv = SKS_SHORT_BUFFER -> same_operation session session') /\
    (rv <> SKS_SHORT_BUFFER -> rv <> SKS_OK \/ is_final c = true ->
     released session session') /\
    (rv = SKS_OK -> is_final c = false -> same_operation session session').
Proof.
  intros Hc Hs Hp.
  destruct ctrl as [ctrl |]; simpl in Hc; [| discriminate].
  destruct (serialargs_get (serialargs_init (memref_buffer ctrl) (memref_size ctrl)) 4)
    as [rv0 | [hb rest]] eqn:Hget; [discriminate |].
  injection Hc as <-.
  destruct c as [decrypt | decrypt | sign | sign]; simpl in Hp |- *.
  - unfold entry_cipher_update. rewrite Hget, Hs.
    rewrite (check_processing_state_eq _ _ Hp). simpl.
    destruct (cipher_update_switch _ _ _ _ _ _ _) as [[[[rv out1] n] w1] s1] eqn:Hsw.
    apply cipher_update_switch_operation in Hsw as [Hop Hnull].
    destruct (release_active_processing_released w1 s1) as (w2 & s2 & Hrel & Hreleased).
    pose proof (released_same_operation _ _ _ Hop Hreleased) as Hr.
    destruct (null out1), rv; simpl; rewrite ?Hrel; simpl;
      step_cases.
  - unfold entry_cipher_final. rewrite Hget, Hs.
    rewrite (check_processing_state_eq _ _ Hp). simpl.
    destruct (cipher_final_switch _ _ _ _ _ _ _) as [[[[rv out1] n] w1] s1] eqn:Hsw.
    apply cipher_final_switch_operation in Hsw as [Hop Hnull].
    destruct (release_active_processing_released w1 s1) as (w2 & s2 & Hrel & Hreleased).
    pose proof (released_same_operation _ _ _ Hop Hreleased) as Hr.
    destruct (null out1), rv; simpl; rewrite ?Hrel; simpl;
      step_cases.
  - unfold entry_signverify_update. rewrite Hget, Hs.
    rewrite (check_processing_state_eq _ _ Hp). simpl.
    destruct (release_active_processing_released (tee st) session)
      as (w2 & s2 & Hrel & Hreleased).
    destruct in_ as [input |], out as [output |],
             (mac_mechanism (proc_id session));
      simpl; rewrite ?Hrel; simpl;
      step_cases.
  - unfold entry_signverify_final. rewrite Hget, Hs.
    rewrite (check_processing_state_eq _ _ Hp). simpl.
    set (r := match in_, out with
              | None, Some output => _
              | _, _ => _
              end).
    destruct r as [[[rv out1] n] w1].
    destruct (release_active_processing_released w1 session)
      as (w2 & s2 & Hrel & Hreleased).
    destruct sign, rv; simpl; rewrite ?Hrel; simpl;
      step_cases.
Qed.


Lemma run_step_wrong_state
    (c : processing_step) (st : sks_state W) (tee_session h : Z)
    (ctrl in_ out : option TEE_Param) (session : pkcs11_session) :
  ctrl_session_handle ctrl = Some h ->
  sks_handle2session st h tee_session = Some session ->
  processing session <> step_state c ->
  run_step c st tee_session ctrl in_ out =
    Done (SKS_CKR_OPERATION_NOT_INITIALIZED, out, st).
Proof.
  intros Hc Hs Hp.
  destruct ctrl as [ctrl |]; simpl in Hc; [| discriminate].
  destruct (serialargs_get (serialargs_init (memref_buffer ctrl) (memref_size ctrl)) 4)
    as [rv0 | [hb rest]] eqn:Hget; [discriminate |].
  injection Hc as <-.
  destruct c as [decrypt | decrypt | sign | sign]; simpl in Hp |- *;
    [unfold entry_cipher_update | unfold entry_cipher_final
     | unfold entry_signverify_update | unfold entry_signverify_final];
    rewrite Hget, Hs, (check_processing_state_ne _ _ Hp); reflexivity.
Qed.

(** C2. An update or final command on a session whose processing state is
    not the one the command drives returns OPERATION_NOT_INITIALIZED and
    changes nothing: neither the session nor the rest of the state nor the
    output parameter. *)
Theorem wrong_state_is_not_initialized
    (c : processing_step) (st : sks_state W) (tee_session h : Z)
    (ctrl in_ out : option TEE_Param) (session : pkcs11_session) :
  ctrl_session_handle ctrl = Some h ->
  sks_handle2session st h tee_session = Some session ->
  processing session <> step_state c ->
  run_step c st tee_session ctrl in_ out =
    Done (SKS_CKR_OPERATION_NOT_INITIALIZED, out, st).
Proof.
  intros Hc Hs Hp.
  destruct ctrl as [ctrl |]; simpl in Hc; [| discriminate].
  destruct (serialargs_get (serialargs_init (memref_buffer ctrl) (memref_size ctrl)) 4)
    as [rv0 | [hb rest]] eqn:Hget; [discriminate |].
  injection Hc as <-.
  destruct c as [decrypt | decrypt | sign | sign]; simpl in Hp |- *.
  - unfold entry_cipher_update.
    rewrite Hget, Hs, (check_processing_state_ne _ _ Hp). reflexivity.
  - unfold entry_cipher_final.
    rewrite Hget, Hs, (check_processing_state_ne _ _ Hp). reflexivity.
  - unfold entry_signverify_update.
    rewrite Hget, Hs, (check_processing_state_ne _ _ Hp). reflexivity.
  - unfold entry_signverify_final.
    rewrite Hget, Hs, (check_processing_state_ne _ _ Hp). reflexivity.
Qed.

(** C3. A CCM or GCM decrypt update on a DECRYPTING session never writes
    to the caller's output buffer.  When the call reports an output size (on
    OK and on SHORT_BUFFER) the size is 0; on any other result the output
    parameter is untouched.  After a successful update the scratch of the
    session is the one [tee_ae_decrypt_update] left. *)
Theorem ae_decrypt_update_reveals_nothing
    (st : sks_state W) (tee_session h : Z)
    (ctrl in_ out : option TEE_Param) (session : pkcs11_session) :
  ctrl_session_handle ctrl = Some h ->
  sks_handle2session st h tee_session = Some session ->
  processing session = PKCS11_SESSION_DECRYPTING ->
  proc_id session = SKS_CKM_AES_CCM \/ proc_id session = SKS_CKM_AES_GCM ->
  exists rv out' st',
    entry_cipher_update st tee_session ctrl in_ out true = Done (rv, out', st') /\
    memref_buffer <$> out' = memref_buffer <$> out /\
    (rv = SKS_OK \/ rv = SKS_SHORT_BUFFER ->
     memref_size <$> out' = (fun _ => 0) <$> out) /\
    (rv <> SKS_OK -> rv <> SKS_SHORT_BUFFER -> out' = out) /\
    (rv = SKS_OK ->
     exists session',
       sks_handle2session st' h tee_session = Some session' /\
       ae_scratch session' =
         (tee_ae_decrypt_update (tee st) (tee_op_handle session)
            (ae_scratch session) (memref_buffer <$> in_)
            (from_option memref_size 0 in_)).1.2).
Proof.
  intros Hc Hs Hp Hid.
  destruct ctrl as [ctrl |]; simpl in Hc; [| discriminate].
  destruct (serialargs_get (serialargs_init (memref_buffer ctrl) (memref_size ctrl)) 4)
    as [rv0 | [hb rest]] eqn:Hget; [discriminate |].
  injection Hc as <-.
  unfold entry_cipher_update. rewrite Hget, Hs.
  rewrite (check_processing_state_eq _ _ Hp). simpl.
  assert (Hsw : forall in_size out_size,
    cipher_update_switch (tee st) session in_ out in_size out_size true =
    let '(rv, ctx, w) :=
      tee_ae_decrypt_update (tee st) (tee_op_handle session) (ae_scratch session)
        (memref_buffer <$> in_) in_size in
    (rv, out, 0, w, set_ae_scratch session ctx)).
  { intros. unfold cipher_update_switch. destruct Hid as [-> | ->]; reflexivity. }
  rewrite Hsw. clear Hsw.
  destruct (tee_ae_decrypt_update _ _ _ _ _) as [[rv ctx] w1]. simpl.
  destruct (release_active_processing_released w1 (set_ae_scratch session ctx))
    as (w2 & s2 & Hrel & _).
  destruct out as [output |], rv; simpl; rewrite ?Hrel; simpl;
    eexists _, _, _; (split; [reflexivity |]);
    (split; [reflexivity |]);
    (split; [intros [? | ?]; first [reflexivity | discriminate] |]);
    (split; [intros; first [reflexivity | congruence] |]);
    intros; try discriminate;
    eexists; (split; [apply lookup_set_session | reflexivity]).
Qed.

(** C10. A cipher update or final command called without an output buffer,
    on a session whose operation it drives: when the provider asks for a
    larger buffer (SHORT_BUFFER) the caller gets BAD_PARAM and the operation
    is released; and whatever the provider answers, the caller never gets
    SHORT_BUFFER, so that the retry is offered only to a caller who supplied
    an output buffer. *)
Theorem short_buffer_without_output_is_bad_param
    (final decrypt : bool) (st : sks_state W) (tee_session h : Z)
    (ctrl in_ : option TEE_Param) (session : pkcs11_session) :
  ctrl_session_handle ctrl = Some h ->
  sks_handle2session st h tee_session = Some session ->
  processing session =
    (if decrypt then PKCS11_SESSION_DECRYPTING else PKCS11_SESSION_ENCRYPTING) ->
  exists rv st' session',
    (if final then entry_cipher_final st tee_session ctrl in_ None decrypt
     else entry_cipher_update st tee_session ctrl in_ None decrypt) =
      Done (rv, None, st') /\
    sks_handle2session st' h tee_session = Some session' /\
    rv <> SKS_SHORT_BUFFER /\
    (cipher_switch_rv final decrypt (tee st) session in_ None = SKS_SHORT_BUFFER ->
     rv = SKS_BAD_PARAM /\ released session session').
Proof.
  intros Hc Hs Hp.
  destruct ctrl as [ctrl |]; simpl in Hc; [| discriminate].
  destruct (serialargs_get (serialargs_init (memref_buffer ctrl) (memref_size ctrl)) 4)
    as [rv0 | [hb rest]] eqn:Hget; [discriminate |].
  injection Hc as <-.
  unfold cipher_switch_rv.
  destruct final.
  - unfold entry_cipher_final. rewrite Hget, Hs.
    rewrite (check_processing_state_eq _ _ Hp). simpl.
    destruct (cipher_final_switch _ _ _ _ _ _ _) as [[[[rv out1] n] w1] s1] eqn:Hsw.
    apply cipher_final_switch_operation in Hsw as [Hop Hnull].
    destruct out1 as [? |]; [discriminate |].
    destruct (release_active_processing_released w1 s1) as (w2 & s2 & Hrel & Hreleased).
    pose proof (released_same_operation _ _ _ Hop Hreleased) as Hr.
    destruct rv; simpl; rewrite ?Hrel; simpl;
      eexists _, _, _; (split; [reflexivity |]);
      (split; [apply lookup_set_session |]);
      (split; [discriminate |]); intros; try discriminate; auto.
  - unfold entry_cipher_update. rewrite Hget, Hs.
    rewrite (check_processing_state_eq _ _ Hp). simpl.
    destruct (cipher_update_switch _ _ _ _ _ _ _) as [[[[rv out1] n] w1] s1] eqn:Hsw.
    apply cipher_update_switch_operation in Hsw as [Hop Hnull].
    destruct out1 as [? |]; [discriminate |].
    destruct (release_active_processing_released w1 s1) as (w2 & s2 & Hrel & Hreleased).
    pose proof (released_same_operation _ _ _ Hop Hreleased) as Hr.
    destruct rv; simpl; rewrite ?Hrel; simpl;
      eexists _, _, _; (split; [reflexivity |]);
      (split; [apply lookup_set_session |]);
      (split; [discriminate |]); intros; try discriminate; auto.
Qed.
End state_machine.

Section init_commands.
Context {W : Type} {E : sks_env W}.

Lemma bind_done_inv {A B : Type} (m : outcome A) (k : A -> outcome B) (b : B) :
  m ≫= k = Done b -> exists a, m = Done a /\ k a = Done b.
Proof. destruct m; simpl; intros Hk; try discriminate. eauto. Qed.

Ltac break_match :=
  match goal with
  | |- context [match ?x with _ => _ end] => destruct x eqn:?
  end.

Lemma cipher_init_operation_sessions (st : sks_state W) (session : pkcs11_session)
    (obj : sks_object) (pp : sks_attribute_head) rv st' session' :
  cipher_init_operation st session obj pp = Done (rv, st', session') ->
  sessions st' = sessions st.
Proof.
  unfold cipher_init_operation.
  repeat break_match; intros [= <- <- <-]; reflexivity.
Qed.

Lemma signverify_init_operation_sessions (st : sks_state W) (session : pkcs11_session)
    (obj : sks_object) (pp : sks_attribute_head) rv st' session' :
  signverify_init_operation st session obj pp = Done (rv, st', session') ->
  sessions st' = sessions st.
Proof.
  unfold signverify_init_operation.
  repeat break_match; intros [= <- <- <-]; reflexivity.
Qed.



(** An init command on a session that is not READY: the state check fails
    and the steps stop there. *)
Lemma cipher_init_steps_active (st : sks_state W) (session : pkcs11_session)
    (key_handle : Z) (pp : sks_attribute_head) (decrypt : bool) :
  processing session <> PKCS11_SESSION_READY ->
  cipher_init_steps st session key_handle pp decrypt =
    Done (SKS_CKR_OPERATION_ACTIVE, st, session).
Proof.
  intros Hp. unfold cipher_init_steps.
  rewrite (check_processing_state_ne _ _ Hp). reflexivity.
Qed.

Lemma signverify_init_steps_active (st : sks_state W) (session : pkcs11_session)
    (key_handle : Z) (pp : sks_attribute_head) (sign : bool) :
  processing session <> PKCS11_SESSION_READY ->
  signverify_init_steps st session key_handle pp sign =
    Done (SKS_CKR_OPERATION_ACTIVE, st, session).
Proof.
  intros Hp. unfold signverify_init_steps.
  rewrite (check_processing_state_ne _ _ Hp). reflexivity.
Qed.

(** The defect behind C4, for every input: an init command on a session
    with an active operation answers OPERATION_ACTIVE and, on its way out
    through [bail], releases that operation. *)
Lemma init_on_active_session_releases (cipher flag : bool)
    (st : sks_state W) (tee_session h key : Z) (pp : sks_attribute_head)
    (ctrl : option TEE_Param) (session : pkcs11_session) :
  ctrl_init_arguments ctrl = Some (h, key, pp) ->
  sks_handle2session st h tee_session = Some session ->
  processing session <> PKCS11_SESSION_READY ->
  exists w' session',
    (if cipher then entry_cipher_init st tee_session ctrl None None flag
     else entry_signverify_init st tee_session ctrl None None flag) =
      Done (SKS_CKR_OPERATION_ACTIVE,
            set_session (set_tee st w') tee_session h session') /\
    released session session'.
Proof.
  intros Hc Hs Hp.
  destruct ctrl as [ctrl |]; simpl in Hc; [| discriminate].
  destruct (serialargs_get (serialargs_init (memref_buffer ctrl) (memref_size ctrl)) 4)
    as [rv0 | [hb rest]] eqn:Hget; [discriminate |].
  destruct (serialargs_get rest 4) as [rv1 | [kb rest1]] eqn:Hget1; [discriminate |].
  destruct (serialargs_alloc_get_one_attribute rest1) as [rv2 | [pp2 rest2]] eqn:Hget2;
    [discriminate |].
  injection Hc as <- <- <-.
  destruct (release_active_processing_released (tee st) session)
    as (w2 & s2 & Hrel & Hreleased).
  exists w2, s2. split; [| exact Hreleased].
  destruct cipher.
  - unfold entry_cipher_init. rewrite Hget, Hget1, Hget2, Hs.
    rewrite (cipher_init_steps_active _ _ _ _ _ Hp). simpl.
    rewrite Hrel. reflexivity.
  - unfold entry_signverify_init. rewrite Hget, Hget1, Hget2, Hs.
    rewrite (signverify_init_steps_active _ _ _ _ _ Hp). simpl.
    rewrite Hrel. reflexivity.
Qed.

(** A failure of the steps of cipher init leaves through [bail], which
    releases the session. *)
Lemma cipher_init_failure_releases
    (st st1 : sks_state W) (tee_session h key : Z) (pp : sks_attribute_head)
    (ctrl : option TEE_Param) (decrypt : bool) (session s1 : pkcs11_session)
    (rv : sks_rc) :
  ctrl_init_arguments ctrl = Some (h, key, pp) ->
  sks_handle2session st h tee_session = Some session ->
  cipher_init_steps st session key pp decrypt = Done (rv, st1, s1) ->
  failed rv = true ->
  exists w' session',
    entry_cipher_init st tee_session ctrl None None decrypt =
      Done (rv, set_session (set_tee st1 w') tee_session h session') /\
    released s1 session'.
Proof.
  intros Hc Hs Hsteps Hrv.
  destruct ctrl as [ctrl |]; simpl in Hc; [| discriminate].
  destruct (serialargs_get (serialargs_init (memref_buffer ctrl) (memref_size ctrl)) 4)
    as [rv0 | [hb rest]] eqn:Hget; [discriminate |].
  destruct (serialargs_get rest 4) as [rv1 | [kb rest1]] eqn:Hget1; [discriminate |].
  destruct (serialargs_alloc_get_one_attribute rest1) as [rv2 | [pp2 rest2]] eqn:Hget2;
    [discriminate |].
  injection Hc as <- <- <-.
  destruct (release_active_processing_released (tee st1) s1)
    as (w2 & s2 & Hrel & Hreleased).
  exists w2, s2. split; [| exact Hreleased].
  unfold entry_cipher_init. rewrite Hget, Hget1, Hget2, Hs, Hsteps. simpl.
  rewrite Hrv, Hrel. reflexivity.
Qed.

(** The part of C5 that the code keeps: once the key is bound to the
    operation, a parameter of the wrong size is MECHANISM_PARAM_INVALID. *)
Lemma mechanism_parameter_mismatch (st : sks_state W) (session : pkcs11_session)
    (obj : sks_object) (pp : sks_attribute_head) (w : W) :
  TEE_SetOperationKey (tee st) (tee_op_handle session) (key_handle obj) =
    (TEE_SUCCESS, w) ->
  (id pp = SKS_CKM_AES_ECB /\ size pp <> 0) \/
  ((id pp = SKS_CKM_AES_CBC \/ id pp = SKS_CKM_AES_CBC_PAD \/
    id pp = SKS_CKM_AES_CTS) /\ size pp <> 16) ->
  cipher_init_operation st session obj pp =
    Done (SKS_CKR_MECHANISM_PARAM_INVALID, set_tee st w, session).
Proof.
  intros Hkey Hpp. unfold cipher_init_operation. rewrite Hkey. simpl.
  destruct Hpp as [[-> Hsize] | [[-> | [-> | ->]] Hsize]];
    [destruct (decide (size pp = 0)) | destruct (decide (size pp = 16)) ..];
    first [contradiction | reflexivity].
Qed.

(** The defect behind C5: no key type and no function make
    [tee_operarion_params] select a provider algorithm for AES_CBC_PAD. *)
Lemma cbc_pad_is_never_selected (key_type : sks_id) (function : sks_function)
    (value_size : Z) :
  exists rv,
    tee_operation_selection key_type function SKS_CKM_AES_CBC_PAD value_size = inl rv /\
    rv <> SKS_OK.
Proof.
  destruct key_type, function; simpl; eexists; split;
    first [reflexivity | discriminate].
Qed.

(** The defect behind C6, for every provider: when the allocation of the
    transient object fails, [load_key] returns the [rv] of the earlier
    call, [SKS_OK], and leaves the key without a handle. *)
Lemma load_key_allocation_failure (w w' : W) (obj : sks_object)
    (ty : tee_object_type) (attr : tee_attribute_id) (value : list byte)
    (res : TEE_Result) (handle : TEE_ObjectHandle) :
  key_handle obj = TEE_HANDLE_NULL ->
  get_tee_object_info (attributes obj) = inr (ty, attr) ->
  get_attribute_ptr (attributes obj) SKS_CKA_VALUE = (SKS_OK, value) ->
  TEE_AllocateTransientObject w ty (uint32 (Z.of_nat (length value) * 8)) =
    (res, handle, w') ->
  res <> TEE_SUCCESS ->
  load_key w obj = Done (SKS_OK, w', obj).
Proof.
  intros Hnull Hinfo Hvalue Halloc Hres. unfold load_key.
  destruct (decide (key_handle obj = TEE_HANDLE_NULL)); [| contradiction].
  rewrite Hinfo, Hvalue. simpl. rewrite Halloc.
  destruct (decide (res = TEE_SUCCESS)); [contradiction | reflexivity].
Qed.
End init_commands.

Section corrections.
Context {W : Type} {E : sks_env W}.


(** C9, as the code has it.  Two contract violations are fatal: in the
    builds with the boolean bit-field, [get_bool] on an attribute without a
    bit in the bit-field panics; and [tee_operarion_params], for a key whose
    KEY_TYPE value has four bytes, panics when it has selected an algorithm
    for a session that already holds a provider operation.  The class lookup
    is not: in the builds without the class in the header, [get_class] on
    attributes without a class entry returns SKS_UNDEFINED_ID. *)
Theorem contract_violations
    (head : sks_attrs_head) (attribute : sks_id)
    (w : W) (session : pkcs11_session) (pp : sks_attribute_head)
    (key : sks_object) (function : sks_function)
    (value key_type : list byte)
    (algo : tee_algorithm) (mode : tee_mode) (key_size : Z) :
  (SKS_SHEAD_WITH_BOOLPROPS = true ->
   sks_attr2boolprop_shift attribute < 0 ->
   get_bool head attribute = TEE_Panic (PANIC_SKS SKS_NOT_FOUND)) /\
  (get_attribute_ptr (attributes key) SKS_CKA_VALUE = (SKS_OK, value) ->
   get_attribute (attributes key) SKS_CKA_KEY_TYPE None = (SKS_OK, key_type) ->
   length key_type = 4%nat ->
   tee_operation_selection (key_type_of_u32 (le_uint key_type)) function (id pp)
     (Z.of_nat (length value)) = inr (algo, mode, key_size) ->
   tee_op_handle session <> TEE_HANDLE_NULL ->
   tee_operarion_params w session pp key function = TEE_Panic PANIC_0) /\
  (SKS_SHEAD_WITH_TYPE = false ->
   SKS_SHEAD_WITH_BOOLPROPS = false \/ sks_attr2boolprop_shift SKS_CKA_CLASS < 0 ->
   find_attribute (attrs head) SKS_CKA_CLASS = None ->
   get_class head = SKS_UNDEFINED_ID).
Proof.
  split; [| split].
  - intros _ Hshift. unfold get_bool.
    destruct (Z.ltb_spec (sks_attr2boolprop_shift attribute) 0); [reflexivity | lia].
  - intros Hvalue Htype Hsize Hsel Hhandle. unfold tee_operarion_params.
    rewrite Hvalue. simpl. rewrite Htype. simpl.
    destruct (decide (length key_type = 4%nat)); [| contradiction].
    rewrite Hsel.
    destruct (decide (tee_op_handle session = TEE_HANDLE_NULL));
      [contradiction | reflexivity].
  - intros Htype Hbool Hfind. unfold get_class, get_attribute, get_attribute_ptr.
    rewrite Htype, Hfind.
    destruct Hbool as [-> | Hshift]; [reflexivity |].
    destruct (Z.leb_spec 0 (sks_attr2boolprop_shift SKS_CKA_CLASS)); [lia |].
    rewrite andb_false_r. reflexivity.
Qed.
End corrections.

Section caller_errors.
Context {W : Type} {E : sks_env W}.




Lemma release_active_processing_done (w w' : W) (session session' : pkcs11_session) :
  release_active_processing w session = Done (w', session') ->
  released session session'.
Proof.
  intros Hrel.
  destruct (release_active_processing_released w session) as (w2 & s2 & Hrel2 & Hr).
  rewrite Hrel in Hrel2. injection Hrel2 as <- <-. exact Hr.
Qed.




(** An update or final command that does not reach a session leaves the
    state as it is. *)
Lemma run_step_no_session (c : processing_step) (st : sks_state W)
    (tee_session : Z) (ctrl in_ out : option TEE_Param) :
  (forall h, ctrl_session_handle ctrl = Some h ->
             sks_handle2session st h tee_session = None) ->
  exists rv, run_step c st tee_session ctrl in_ out = Done (rv, out, st).
Proof.
  intros Hnone.
  destruct ctrl as [ctrl |]; simpl in Hnone;
    [| destruct c; eexists; reflexivity].
  destruct c; simpl;
    [unfold entry_cipher_update | unfold entry_cipher_final
     | unfold entry_signverify_update | unfold entry_signverify_final];
    (destruct (serialargs_get (serialargs_init (memref_buffer ctrl)
                                               (memref_size ctrl)) 4)
       as [rv0 | [hb rest]]; [eexists; reflexivity |]);
    rewrite (Hnone _ eq_refl); eexists; reflexivity.
Qed.


End caller_errors.

(** * The defects, on the deterministic provider *)

(** C4. An init command on a session that is not READY must answer
    OPERATION_ACTIVE and leave the active operation intact.  The code answers
    OPERATION_ACTIVE and releases the operation: here a second encrypt init,
    and a sign init, on a session that is ENCRYPTING with AES_ECB on the
    provider operation 7, leave the session READY, without mechanism and
    without operation, the provider operation freed. *)
Theorem init_on_active_session_drops_operation :
  let st := one_session (active_session PKCS11_SESSION_ENCRYPTING SKS_CKM_AES_ECB) in
  exists st1 st2,
    entry_cipher_init (E := fake_env healthy) st 1 (Some (ctrl_init 0 []))
      None None false = Done (SKS_CKR_OPERATION_ACTIVE, st1) /\
    sks_handle2session st1 5 1 = Some ready_session /\
    tee st1 = [CALL_FreeOperation 7] /\
    entry_signverify_init (E := fake_env healthy) st 1 (Some (ctrl_init 7 []))
      None None true = Done (SKS_CKR_OPERATION_ACTIVE, st2) /\
    sks_handle2session st2 5 1 = Some ready_session /\
    tee st2 = [CALL_FreeOperation 7].
Proof.
  eexists _, _.
  split; [vm_compute; reflexivity |].
  split; [vm_compute; reflexivity |].
  split; [vm_compute; reflexivity |].
  split; [vm_compute; reflexivity |].
  split; vm_compute; reflexivity.
Qed.

(** C5. A cipher init that passes the session, key and policy checks with
    AES_CBC_PAD and a parameter that is not 16 bytes long must answer
    MECHANISM_PARAM_INVALID.  The code answers ATTRIBUTE_TYPE_INVALID, with a
    3-byte parameter and with a 16-byte one alike: [tee_operarion_params] has
    no case for AES_CBC_PAD, so that the case of the mechanism-specific
    [switch] is never reached.  The session is back in READY. *)
Theorem cbc_pad_init_is_attribute_type_invalid :
  let st := one_session ready_session in
  check_parent_attrs_against_processing (sks_env := fake_env healthy)
    SKS_CKM_AES_CBC_PAD SKS_FUNCTION_ENCRYPT aes_key_attributes = Done SKS_OK /\
  check_parent_attrs_against_token (sks_env := fake_env healthy)
    (set_processing ready_session PKCS11_SESSION_ENCRYPTING) aes_key_attributes =
    Done SKS_OK /\
  exists st1 st2,
    entry_cipher_init (E := fake_env healthy) st 1
      (Some (ctrl_init 2 [x01; x02; x03])) None None false =
      Done (SKS_CKR_ATTRIBUTE_TYPE_INVALID, st1) /\
    sks_handle2session st1 5 1 = Some ready_session /\
    entry_cipher_init (E := fake_env healthy) st 1
      (Some (ctrl_init 2 (repeat x00 16))) None None false =
      Done (SKS_CKR_ATTRIBUTE_TYPE_INVALID, st2) /\
    sks_handle2session st2 5 1 = Some ready_session.
Proof.
  split; [reflexivity |]. split; [reflexivity |].
  eexists _, _.
  split; [vm_compute; reflexivity |].
  split; [vm_compute; reflexivity |].
  split; vm_compute; reflexivity.
Qed.

(** C6. When [TEE_AllocateTransientObject] fails, [load_key] must return the
    translation of the provider error, never SKS_OK.  With a provider that is
    out of memory for the transient object the code returns SKS_OK, where the
    translation is SKS_MEMORY; the key has no handle, and the cipher init that
    called [load_key] goes on, binds the null key handle to the operation and
    answers SKS_OK. *)
Theorem load_key_reports_ok_on_allocation_failure :
  let out_of_memory := mk_fake TEE_SUCCESS TEE_ERROR_OUT_OF_MEMORY None in
  load_key (E := fake_env out_of_memory) [] aes_key =
    Done (SKS_OK, [CALL_AllocateTransientObject TEE_TYPE_AES 128], aes_key) /\
  tee2sks_error (sks_env := fake_env out_of_memory) TEE_ERROR_OUT_OF_MEMORY =
    SKS_MEMORY /\
  exists st',
    entry_cipher_init (E := fake_env out_of_memory) (one_session ready_session) 1
      (Some (ctrl_init 0 [])) None None false = Done (SKS_OK, st') /\
    sks_handle2object st' 3 = Some aes_key /\
    tee st' =
      [CALL_AllocateOperation TEE_ALG_AES_ECB_NOPAD TEE_MODE_ENCRYPT 128;
       CALL_AllocateTransientObject TEE_TYPE_AES 128;
       CALL_SetOperationKey 7 TEE_HANDLE_NULL;
       CALL_CipherInit 7 None].
Proof.
  split; [vm_compute; reflexivity |]. split; [reflexivity |].
  eexists.
  split; [vm_compute; reflexivity |].
  split; vm_compute; reflexivity.
Qed.

(** * Examples *)


Lemma wrong_state_is_not_initialized_witness :
  let session := active_session PKCS11_SESSION_ENCRYPTING SKS_CKM_AES_ECB in
  let st := one_session session in
  ctrl_session_handle (Some ctrl_session_5) = Some 5 /\
  sks_handle2session st 5 1 = Some session /\
  processing session <> step_state (SIGNVERIFY_FINAL false) /\
  run_step (E := fake_env healthy) (SIGNVERIFY_FINAL false) st 1
    (Some ctrl_session_5) None (Some output_16) =
    Done (SKS_CKR_OPERATION_NOT_INITIALIZED, Some output_16, st).
Proof.
  intros session st.
  split; [reflexivity |]. split; [reflexivity |]. split; [discriminate |].
  apply (wrong_state_is_not_initialized (E := fake_env healthy)
           (SIGNVERIFY_FINAL false) st 1 5 (Some ctrl_session_5) None
           (Some output_16) session); [reflexivity | reflexivity | discriminate].
Defined.

Lemma ae_decrypt_update_reveals_nothing_witness :
  let session := active_session PKCS11_SESSION_DECRYPTING SKS_CKM_AES_GCM in
  let st := one_session session in
  ctrl_session_handle (Some ctrl_session_5) = Some 5 /\
  sks_handle2session st 5 1 = Some session /\
  processing session = PKCS11_SESSION_DECRYPTING /\
  (proc_id session = SKS_CKM_AES_CCM \/ proc_id session = SKS_CKM_AES_GCM) /\
  exists rv out' st',
    entry_cipher_update (E := fake_env healthy) st 1 (Some ctrl_session_5)
      (Some input_2) (Some output_16) true = Done (rv, out', st') /\
    memref_buffer <$> out' = memref_buffer <$> Some output_16 /\
    (rv = SKS_OK \/ rv = SKS_SHORT_BUFFER ->
     memref_size <$> out' = (fun _ => 0) <$> Some output_16) /\
    (rv <> SKS_OK -> rv <> SKS_SHORT_BUFFER -> out' = Some output_16) /\
    (rv = SKS_OK ->
     exists session',
       sks_handle2session st' 5 1 = Some session' /\
       ae_scratch session' =
         (tee_ae_decrypt_update (sks_env := fake_env healthy) (tee st)
            (tee_op_handle session) (ae_scratch session)
            (memref_buffer <$> Some input_2)
            (from_option memref_size 0 (Some input_2))).1.2).
Proof.
  intros session st.
  split; [reflexivity |]. split; [reflexivity |]. split; [reflexivity |].
  split; [right; reflexivity |].
  apply (ae_decrypt_update_reveals_nothing (E := fake_env healthy) st 1 5
           (Some ctrl_session_5) (Some input_2) (Some output_16) session);
    [reflexivity | reflexivity | reflexivity | right; reflexivity].
Defined.

Lemma short_buffer_without_output_is_bad_param_witness :
  let session := active_session PKCS11_SESSION_ENCRYPTING SKS_CKM_AES_ECB in
  let st := one_session session in
  ctrl_session_handle (Some ctrl_session_5) = Some 5 /\
  sks_handle2session st 5 1 = Some session /\
  processing session = PKCS11_SESSION_ENCRYPTING /\
  cipher_switch_rv (E := fake_env healthy) false false (tee st) session
    (Some input_2) None = SKS_SHORT_BUFFER /\
  exists st' session',
    entry_cipher_update (E := fake_env healthy) st 1 (Some ctrl_session_5)
      (Some input_2) None false = Done (SKS_BAD_PARAM, None, st') /\
    sks_handle2session st' 5 1 = Some session' /\
    released session session'.
Proof.
  intros session st.
  split; [reflexivity |]. split; [reflexivity |]. split; [reflexivity |].
  split; [reflexivity |].
  destruct (short_buffer_without_output_is_bad_param (E := fake_env healthy)
              false false st 1 5 (Some ctrl_session_5) (Some input_2) session
              eq_refl eq_refl eq_refl)
    as (rv & st' & session' & Hrun & Hs & _ & Hbad).
  destruct (Hbad eq_refl) as [-> Hreleased].
  exists st', session'. auto.
Defined.





(** C9 as stated fails: the class lookup on attributes without a class
    entry returns SKS_UNDEFINED_ID, and the cipher init that does the lookup
    returns the error SKS_FAILED, after the release of the session; nothing
    aborts. *)
Lemma class_lookup_does_not_abort :
  get_class (E := fake_env healthy) (attributes classless_key) = SKS_UNDEFINED_ID /\
  exists st',
    entry_cipher_init (E := fake_env healthy)
      (one_session_one_key ready_session classless_key) 1
      (Some (ctrl_init 0 [])) None None false = Done (SKS_FAILED, st') /\
    sks_handle2session st' 5 1 = Some ready_session.
Proof.
  split; [reflexivity |].
  eexists. split; vm_compute; reflexivity.
Qed.

Lemma contract_violations_witness :
  let session := active_session PKCS11_SESSION_ENCRYPTING SKS_CKM_AES_ECB in
  let pp := mk_attribute SKS_CKM_AES_ECB 0 [] in
  SKS_SHEAD_WITH_BOOLPROPS (sks_env := fake_env_bit_field) = true /\
  sks_attr2boolprop_shift (sks_env := fake_env_bit_field) SKS_CKA_VALUE < 0 /\
  get_bool (E := fake_env_bit_field) bit_field_head SKS_CKA_VALUE =
    TEE_Panic (PANIC_SKS SKS_NOT_FOUND) /\
  get_attribute (E := fake_env healthy) (attributes aes_key) SKS_CKA_KEY_TYPE None =
    (SKS_OK, [x00; x00; x00; x00]) /\
  tee_op_handle session <> TEE_HANDLE_NULL /\
  tee_operarion_params (E := fake_env healthy) [] session pp aes_key
    SKS_FUNCTION_ENCRYPT = TEE_Panic PANIC_0 /\
  find_attribute (attrs (attributes classless_key)) SKS_CKA_CLASS = None /\
  get_class (E := fake_env healthy) (attributes classless_key) = SKS_UNDEFINED_ID.
Proof.
  intros session pp.
  pose proof (contract_violations (E := fake_env_bit_field)
                bit_field_head SKS_CKA_VALUE [] session pp aes_key
                SKS_FUNCTION_ENCRYPT (repeat x11 16) [x00; x00; x00; x00]
                TEE_ALG_AES_ECB_NOPAD TEE_MODE_ENCRYPT 128)
    as (Hbool & _ & _).
  pose proof (contract_violations (E := fake_env healthy)
                (attributes classless_key) SKS_CKA_VALUE [] session pp aes_key
                SKS_FUNCTION_ENCRYPT (repeat x11 16) [x00; x00; x00; x00]
                TEE_ALG_AES_ECB_NOPAD TEE_MODE_ENCRYPT 128)
    as (_ & Hparams & Hclass).
  split; [reflexivity |]. split; [reflexivity |].
  split; [apply Hbool; reflexivity |].
  split; [reflexivity |].
  split; [discriminate |].
  split; [apply Hparams;
          [reflexivity | reflexivity | reflexivity | reflexivity | discriminate] |].
  split; [reflexivity |].
  apply Hclass; [reflexivity | left; reflexivity | reflexivity].
Defined.

(** * Further properties of the engine *)

Section operation_parameters.
Context {W : Type} {E : sks_env W}.

(** X1. Releasing the processing of a session always returns; the only
    provider call it makes is [TEE_FreeOperation], on the operation of a
    session that holds one; and releasing again changes nothing and calls the
    provider no more. *)
Theorem release_active_processing_idempotent (w : W) (session : pkcs11_session) :
  exists w' session',
    release_active_processing w session = Done (w', session') /\
    w' = (if decide (tee_op_handle session = TEE_HANDLE_NULL) then w
          else TEE_FreeOperation w (tee_op_handle session)) /\
    release_active_processing w' session' = Done (w', session').
Proof.
  destruct (release_active_processing_released w session)
    as (w' & session' & Hrel & Hp & Hid & Hh & _).
  exists w', session'. split; [exact Hrel |].
  split; [exact (release_active_processing_provider w w' session session' Hrel) |].
  destruct session' as [p i h c]. simpl in Hp, Hid, Hh. subst p i h.
  reflexivity.
Qed.

(** X2. Whenever [tee_operarion_params] selects a provider algorithm, the
    function is one of encrypt, decrypt, sign and verify, the provider mode
    is the one of the function (MAC for sign and verify) and the key size is
    eight times the length of the key value, as a 32-bit number. *)
Theorem selected_mode_and_key_size (key_type : sks_id) (function : sks_function)
    (proc : sks_id) (value_size : Z)
    (algo : tee_algorithm) (mode : tee_mode) (key_size : Z) :
  tee_operation_selection key_type function proc value_size =
    inr (algo, mode, key_size) ->
  key_size = uint32 (value_size * 8) /\
  match function with
  | SKS_FUNCTION_ENCRYPT => mode = TEE_MODE_ENCRYPT
  | SKS_FUNCTION_DECRYPT => mode = TEE_MODE_DECRYPT
  | SKS_FUNCTION_SIGN | SKS_FUNCTION_VERIFY => mode = TEE_MODE_MAC
  | _ => False
  end.
Proof.
  destruct key_type; try discriminate;
    destruct function; try discriminate;
    destruct proc; try discriminate;
    simpl; intros [= <- <- <-]; auto.
Qed.

(** X3. The key type behind a selected algorithm: an AES algorithm (cipher,
    CMAC or CBC-MAC) is only selected for an AES key, and an HMAC algorithm
    only for a generic secret or for the HMAC key type of the same hash; cipher
    algorithms go with encrypt and decrypt, MAC algorithms with sign and
    verify. *)
Theorem selected_algorithm_key_type (key_type : sks_id) (function : sks_function)
    (proc : sks_id) (value_size : Z)
    (algo : tee_algorithm) (mode : tee_mode) (key_size : Z) :
  tee_operation_selection key_type function proc value_size =
    inr (algo, mode, key_size) ->
  match algo with
  | TEE_ALG_AES_ECB_NOPAD | TEE_ALG_AES_CBC_NOPAD | TEE_ALG_AES_CTR
  | TEE_ALG_AES_CTS | TEE_ALG_AES_CCM | TEE_ALG_AES_GCM =>
      key_type = SKS_CKK_AES /\
      (function = SKS_FUNCTION_ENCRYPT \/ function = SKS_FUNCTION_DECRYPT)
  | TEE_ALG_AES_CMAC | TEE_ALG_AES_CBC_MAC_NOPAD =>
      key_type = SKS_CKK_AES /\
      (function = SKS_FUNCTION_SIGN \/ function = SKS_FUNCTION_VERIFY)
  | TEE_ALG_HMAC_MD5 =>
      (key_type = SKS_CKK_GENERIC_SECRET \/ key_type = SKS_CKK_MD5_HMAC) /\
      (function = SKS_FUNCTION_SIGN \/ function = SKS_FUNCTION_VERIFY)
  | TEE_ALG_HMAC_SHA1 =>
      (key_type = SKS_CKK_GENERIC_SECRET \/ key_type = SKS_CKK_SHA_1_HMAC) /\
      (function = SKS_FUNCTION_SIGN \/ function = SKS_FUNCTION_VERIFY)
  | TEE_ALG_HMAC_SHA224 =>
      (key_type = SKS_CKK_GENERIC_SECRET \/ key_type = SKS_CKK_SHA224_HMAC) /\
      (function = SKS_FUNCTION_SIGN \/ function = SKS_FUNCTION_VERIFY)
  | TEE_ALG_HMAC_SHA256 =>
      (key_type = SKS_CKK_GENERIC_SECRET \/ key_type = SKS_CKK_SHA256_HMAC) /\
      (function = SKS_FUNCTION_SIGN \/ function = SKS_FUNCTION_VERIFY)
  | TEE_ALG_HMAC_SHA384 =>
      (key_type = SKS_CKK_GENERIC_SECRET \/ key_type = SKS_CKK_SHA384_HMAC) /\
      (function = SKS_FUNCTION_SIGN \/ function = SKS_FUNCTION_VERIFY)
  | TEE_ALG_HMAC_SHA512 =>
      (key_type = SKS_CKK_GENERIC_SECRET \/ key_type = SKS_CKK_SHA512_HMAC) /\
      (function = SKS_FUNCTION_SIGN \/ function = SKS_FUNCTION_VERIFY)
  end.
Proof.
  destruct key_type; try discriminate;
    destruct function; try discriminate;
    destruct proc; try discriminate;
    simpl; intros [= <- <- <-]; auto.
Qed.

(** X4. Every key for which [tee_operarion_params] can select an algorithm
    can also be loaded: [get_tee_object_info] knows a provider object type for
    its key type, with the secret value as the attribute to populate. *)
Theorem selected_key_type_has_object_type (head : sks_attrs_head)
    (function : sks_function) (proc : sks_id) (value_size : Z)
    (algo : tee_algorithm) (mode : tee_mode) (key_size : Z) :
  tee_operation_selection (get_type head) function proc value_size =
    inr (algo, mode, key_size) ->
  exists tee_obj_type,
    get_tee_object_info head = inr (tee_obj_type, TEE_ATTR_SECRET_VALUE) /\
    (get_type head = SKS_CKK_AES <-> tee_obj_type = TEE_TYPE_AES).
Proof.
  unfold get_tee_object_info.
  destruct (get_type head); try discriminate; intros _;
    eexists; (split; [reflexivity |]); split; intros; first [reflexivity | discriminate].
Qed.

Lemma tee_operation_selection_error (key_type : sks_id) (function : sks_function)
    (proc : sks_id) (value_size : Z) (rv : sks_rc) :
  tee_operation_selection key_type function proc value_size = inl rv ->
  failed rv = true.
Proof.
  destruct key_type; try (intros [= <-]; reflexivity);
    destruct function; try (intros [= <-]; reflexivity);
    destruct proc; simpl; intros [= <-]; reflexivity.
Qed.

(** X5. [tee_operarion_params], when it returns, has touched nothing of the
    session but the operation handle; it sets the handle only on success and
    only in a session that held none; and for a session that holds an
    operation it returns only errors found before the selection, without any
    provider call. *)
Theorem tee_operarion_params_session (w w' : W) (session session' : pkcs11_session)
    (pp : sks_attribute_head) (key : sks_object) (function : sks_function)
    (rv : sks_rc) :
  tee_operarion_params w session pp key function = Done (rv, w', session') ->
  processing session' = processing session /\
  proc_id session' = proc_id session /\
  ae_scratch session' = ae_scratch session /\
  (session' <> session -> tee_op_handle session = TEE_HANDLE_NULL /\ rv = SKS_OK) /\
  (tee_op_handle session <> TEE_HANDLE_NULL ->
   w' = w /\ session' = session /\ failed rv = true).
Proof.
  unfold tee_operarion_params.
  destruct (get_attribute_ptr (attributes key) SKS_CKA_VALUE) as [rc value].
  destruct (failed rc); [discriminate |].
  destruct (get_attribute (attributes key) SKS_CKA_KEY_TYPE None) as [rc2 kt].
  destruct (failed rc2);
    [intros [= <- <- <-]; repeat split; auto; congruence |].
  destruct (decide (length kt = 4%nat)); [| discriminate].
  destruct (tee_operation_selection _ _ _ _) as [rv0 | [[algo mode] sz]] eqn:Hsel.
  - intros [= <- <- <-]. apply tee_operation_selection_error in Hsel.
    repeat split; auto; congruence.
  - destruct (decide (tee_op_handle session = TEE_HANDLE_NULL)) as [Hnull | Hheld];
      [| discriminate].
    destruct (TEE_AllocateOperation w algo mode sz) as [[res handle] w1].
    destruct (decide (res = TEE_SUCCESS));
      intros [= <- <- <-]; repeat split; auto; try congruence; try contradiction.
Qed.

(** X6. [load_key] never changes the attributes of the object; when it
    returns an error the object has no key handle; and an object that has a
    key handle is not loaded again: the call returns OK at once, without any
    provider call. *)
Theorem load_key_object (w : W) (obj : sks_object) :
  (forall rv w' obj',
     load_key w obj = Done (rv, w', obj') ->
     attributes obj' = attributes obj /\
     (failed rv = true -> key_handle obj' = TEE_HANDLE_NULL)) /\
  (key_handle obj <> TEE_HANDLE_NULL -> load_key w obj = Done (SKS_OK, w, obj)).
Proof.
  unfold load_key. split.
  - intros rv w' obj'.
    destruct (decide (key_handle obj = TEE_HANDLE_NULL)) as [Hnull | Hheld];
      [| intros [= <- <- <-]; split; [reflexivity | discriminate]].
    destruct (get_tee_object_info (attributes obj)) as [rv0 | [ty attr]];
      [intros [= <- <- <-]; auto |].
    destruct (get_attribute_ptr (attributes obj) SKS_CKA_VALUE) as [rc value].
    destruct (failed rc); [discriminate |].
    destruct (TEE_AllocateTransientObject _ _ _) as [[res handle] w1].
    destruct (decide (res = TEE_SUCCESS));
      [| intros [= <- <- <-]; auto].
    destruct (TEE_PopulateTransientObject _ _ _ _ _) as [res2 w2].
    destruct (decide (res2 = TEE_SUCCESS)); intros [= <- <- <-]; simpl;
      split; auto; discriminate.
  - intros Hheld.
    destruct (decide (key_handle obj = TEE_HANDLE_NULL)); [contradiction | reflexivity].
Qed.

(** X7. When the provider allocates the transient object and then fails to
    populate it, [load_key] frees the transient object, leaves the key
    without handle and returns the translation of the provider error. *)
Theorem load_key_populate_failure (w w1 w2 : W) (obj : sks_object)
    (ty : tee_object_type) (attr : tee_attribute_id) (value : list byte)
    (handle : TEE_ObjectHandle) (res : TEE_Result) :
  key_handle obj = TEE_HANDLE_NULL ->
  get_tee_object_info (attributes obj) = inr (ty, attr) ->
  get_attribute_ptr (attributes obj) SKS_CKA_VALUE = (SKS_OK, value) ->
  TEE_AllocateTransientObject w ty (uint32 (Z.of_nat (length value) * 8)) =
    (TEE_SUCCESS, handle, w1) ->
  TEE_PopulateTransientObject w1 handle attr value (Z.of_nat (length value)) =
    (res, w2) ->
  res <> TEE_SUCCESS ->
  load_key w obj =
    Done (tee2sks_error res, TEE_FreeTransientObject w2 handle, obj).
Proof.
  intros Hnull Hinfo Hvalue Halloc Hpop Hres. unfold load_key.
  destruct (decide (key_handle obj = TEE_HANDLE_NULL)); [| contradiction].
  rewrite Hinfo, Hvalue. simpl. rewrite Halloc. simpl. rewrite Hpop.
  destruct (decide (res = TEE_SUCCESS)); [contradiction |].
  destruct obj as [a h]. simpl in Hnull. subst h. reflexivity.
Qed.
End operation_parameters.

Section init_results.
Context {W : Type} {E : sks_env W}.

Lemma cipher_selection_mechanism (key_type : sks_id) (decrypt : bool) (proc : sks_id)
    (value_size : Z) (algo : tee_algorithm) (mode : tee_mode) (key_size : Z) :
  tee_operation_selection key_type
    (if decrypt then SKS_FUNCTION_DECRYPT else SKS_FUNCTION_ENCRYPT)
    proc value_size = inr (algo, mode, key_size) ->
  proc = SKS_CKM_AES_ECB \/ proc = SKS_CKM_AES_CBC \/ proc = SKS_CKM_AES_CTS \/
  proc = SKS_CKM_AES_CTR \/ proc = SKS_CKM_AES_CCM \/ proc = SKS_CKM_AES_GCM.
Proof.
  destruct key_type; try (destruct decrypt; discriminate);
    destruct decrypt, proc; simpl; try discriminate; tauto.
Qed.

Lemma tee_operarion_params_ok (w w' : W) (session session' : pkcs11_session)
    (pp : sks_attribute_head) (key : sks_object) (function : sks_function) :
  (forall res : TEE_Result, tee2sks_error res = SKS_OK -> res = TEE_SUCCESS) ->
  tee_operarion_params w session pp key function = Done (SKS_OK, w', session') ->
  exists key_type value_size algo mode key_size handle,
    tee_operation_selection key_type function (id pp) value_size =
      inr (algo, mode, key_size) /\
    session' = set_tee_op_handle session handle.
Proof.
  intros Herr. unfold tee_operarion_params.
  destruct (get_attribute_ptr (attributes key) SKS_CKA_VALUE) as [rc value].
  destruct (failed rc); [discriminate |].
  destruct (get_attribute (attributes key) SKS_CKA_KEY_TYPE None) as [rc2 kt].
  destruct (failed rc2); [discriminate |].
  destruct (decide (length kt = 4%nat)); [| discriminate].
  destruct (tee_operation_selection _ _ _ _) as [rv0 | [[algo mode] sz]] eqn:Hsel.
  - intros [= -> <- <-]. apply tee_operation_selection_error in Hsel. discriminate.
  - destruct (decide (tee_op_handle session = TEE_HANDLE_NULL)); [| discriminate].
    destruct (TEE_AllocateOperation w algo mode sz) as [[res handle] w1].
    destruct (decide (res = TEE_SUCCESS)) as [Hres | Hres].
    + intros [= <- <-]. eauto 10.
    + intros [= Hrv <- <-]. apply Herr in Hrv. contradiction.
Qed.

Lemma cipher_init_operation_ok (st st' : sks_state W) (session session' : pkcs11_session)
    (obj : sks_object) (pp : sks_attribute_head) :
  (forall res : TEE_Result, tee2sks_error res = SKS_OK -> res = TEE_SUCCESS) ->
  cipher_init_operation st session obj pp = Done (SKS_OK, st', session') ->
  processing session' = processing session /\
  proc_id session' = id pp /\
  tee_op_handle session' = tee_op_handle session /\
  (id pp = SKS_CKM_AES_ECB -> size pp = 0) /\
  (id pp = SKS_CKM_AES_CBC \/ id pp = SKS_CKM_AES_CTS -> size pp = 16).
Proof.
  intros Herr. unfold cipher_init_operation.
  destruct (TEE_SetOperationKey _ _ _) as [res w1].
  destruct (decide (res = TEE_SUCCESS)) as [Hres | Hres];
    [| intros [= Hrv <- <-]; apply Herr in Hrv; contradiction].
  destruct (id pp) eqn:Hid; try discriminate;
    repeat match goal with
           | |- context [decide ?P] => destruct (decide P); [| discriminate]
           | |- context [let '(_, _) := ?x in _] => destruct x as [[rv ctx] w2]
           | |- context [failed ?r] =>
               destruct (failed r) eqn:Hf; [intros [= -> <- <-]; discriminate |]
           end;
    intros [= <- <-]; simpl;
    (split; [reflexivity |]); (split; [reflexivity |]); (split; [reflexivity |]);
    split; intros; try assumption; try discriminate;
    try match goal with H : _ \/ _ |- _ => destruct H; discriminate end.
Qed.

Lemma failed_ok (rv : sks_rc) : failed rv = false -> rv = SKS_OK.
Proof. destruct rv; simpl; intros; first [reflexivity | discriminate]. Qed.

Lemma cipher_init_steps_ok (st st' : sks_state W) (session session' : pkcs11_session)
    (key : Z) (pp : sks_attribute_head) (decrypt : bool) :
  (forall res : TEE_Result, tee2sks_error res = SKS_OK -> res = TEE_SUCCESS) ->
  cipher_init_steps st session key pp decrypt = Done (SKS_OK, st', session') ->
  processing session = PKCS11_SESSION_READY /\
  processing session' =
    (if decrypt then PKCS11_SESSION_DECRYPTING else PKCS11_SESSION_ENCRYPTING) /\
  proc_id session' = id pp /\
  (exists obj, sks_handle2object st key = Some obj /\
               get_class (attributes obj) = SKS_CKO_SECRET_KEY) /\
  ((id pp = SKS_CKM_AES_ECB /\ size pp = 0) \/
   ((id pp = SKS_CKM_AES_CBC \/ id pp = SKS_CKM_AES_CTS) /\ size pp = 16) \/
   id pp = SKS_CKM_AES_CTR \/ id pp = SKS_CKM_AES_CCM \/ id pp = SKS_CKM_AES_GCM).
Proof.
  intros Herr. unfold cipher_init_steps, check_processing_state, set_processing_state.
  destruct (decide (processing session = PKCS11_SESSION_READY)) as [Hready | Hactive];
    simpl; [| discriminate].
  destruct (sks_handle2object st key) as [obj |]; [| discriminate].
  intros Hsteps. apply bind_done_inv in Hsteps as (rv1 & _ & Hsteps).
  destruct (failed rv1) eqn:Hf1; [injection Hsteps as -> _ _; discriminate |].
  apply bind_done_inv in Hsteps as (rv2 & _ & Hsteps).
  destruct (failed rv2) eqn:Hf2; [injection Hsteps as -> _ _; discriminate |].
  apply bind_done_inv in Hsteps as ([[rv3 w3] s3] & Hparams & Hsteps).
  destruct (failed rv3) eqn:Hf3; [injection Hsteps as -> _ _; discriminate |].
  apply failed_ok in Hf3. subst rv3.
  apply (tee_operarion_params_ok _ _ _ _ _ _ _ Herr) in Hparams
    as (kt & vs & algo & mode & sz & handle & Hsel & ->).
  apply cipher_selection_mechanism in Hsel.
  destruct (get_class (attributes obj)) eqn:Hclass; try discriminate.
  apply bind_done_inv in Hsteps as ([[rv4 w4] obj4] & _ & Hsteps).
  destruct (failed rv4) eqn:Hf4; [injection Hsteps as -> _ _; discriminate |].
  apply (cipher_init_operation_ok _ _ _ _ _ _ Herr) in Hsteps
    as (Hp & Hid & _ & Hecb & Hcbc).
  split; [exact Hready |]. split; [rewrite Hp; reflexivity |].
  split; [exact Hid |]. split; [eauto |].
  destruct Hsel as [Hm | [Hm | [Hm | [Hm | [Hm | Hm]]]]]; auto 10.
Qed.

Lemma tee_operarion_params_allocation (w w' : W) (session session' : pkcs11_session)
    (pp : sks_attribute_head) (key : sks_object) (function : sks_function) :
  (forall res : TEE_Result, tee2sks_error res = SKS_OK -> res = TEE_SUCCESS) ->
  tee_operarion_params w session pp key function = Done (SKS_OK, w', session') ->
  exists algo mode key_size handle,
    tee_op_handle session = TEE_HANDLE_NULL /\
    TEE_AllocateOperation w algo mode key_size = (TEE_SUCCESS, handle, w') /\
    session' = set_tee_op_handle session handle.
Proof.
  intros Herr. unfold tee_operarion_params.
  destruct (get_attribute_ptr (attributes key) SKS_CKA_VALUE) as [rc value].
  destruct (failed rc); [discriminate |].
  destruct (get_attribute (attributes key) SKS_CKA_KEY_TYPE None) as [rc2 kt].
  destruct (failed rc2); [discriminate |].
  destruct (decide (length kt = 4%nat)); [| discriminate].
  destruct (tee_operation_selection _ _ _ _) as [rv0 | [[algo mode] sz]] eqn:Hsel.
  - intros [= -> <- <-]. apply tee_operation_selection_error in Hsel. discriminate.
  - destruct (decide (tee_op_handle session = TEE_HANDLE_NULL)) as [Hnull | Hheld];
      [| discriminate].
    destruct (TEE_AllocateOperation w algo mode sz) as [[res handle] w1] eqn:Halloc.
    destruct (decide (res = TEE_SUCCESS)) as [Hres | Hres].
    + intros [= <- <-]. subst res. exists algo, mode, sz, handle. auto.
    + intros [= Hrv <- <-]. apply Herr in Hrv. contradiction.
Qed.

Lemma load_key_done (w w' : W) (obj obj' : sks_object) (rv : sks_rc) :
  load_key w obj = Done (rv, w', obj') ->
  attributes obj' = attributes obj /\
  (key_handle obj <> TEE_HANDLE_NULL -> obj' = obj).
Proof.
  unfold load_key.
  destruct (decide (key_handle obj = TEE_HANDLE_NULL)) as [Hnull | Hheld];
    [| intros [= <- <- <-]; auto].
  destruct (get_tee_object_info (attributes obj)) as [rv0 | [ty attr]];
    [intros [= <- <- <-]; auto |].
  destruct (get_attribute_ptr (attributes obj) SKS_CKA_VALUE) as [rc value].
  destruct (failed rc); [discriminate |].
  destruct (TEE_AllocateTransientObject _ _ _) as [[res handle] w1].
  destruct (decide (res = TEE_SUCCESS));
    [| intros [= <- <- <-]; auto].
  destruct (TEE_PopulateTransientObject _ _ _ _ _) as [res2 w2].
  destruct (decide (res2 = TEE_SUCCESS)); intros [= <- <- <-]; simpl;
    split; auto; contradiction.
Qed.

Lemma cipher_init_operation_objects (st st' : sks_state W)
    (session session' : pkcs11_session) (obj : sks_object) (pp : sks_attribute_head)
    (rv : sks_rc) :
  cipher_init_operation st session obj pp = Done (rv, st', session') ->
  objects st' = objects st.
Proof.
  unfold cipher_init_operation.
  repeat match goal with
         | |- context [match ?x with _ => _ end] => destruct x eqn:?
         end; intros [= <- <- <-]; reflexivity.
Qed.

Lemma signverify_init_operation_ok (st st' : sks_state W)
    (session session' : pkcs11_session) (obj : sks_object) (pp : sks_attribute_head)
    (rv : sks_rc) :
  signverify_init_operation st session obj pp = Done (rv, st', session') ->
  objects st' = objects st /\ tee_op_handle session' = tee_op_handle session.
Proof.
  unfold signverify_init_operation.
  repeat match goal with
         | |- context [match ?x with _ => _ end] => destruct x eqn:?
         end; intros [= <- <- <-]; auto.
Qed.

(** What an init that reaches [bail] with OK has done to the session, the
    provider and the object store. *)
Lemma cipher_init_steps_frame (st st' : sks_state W) (session session' : pkcs11_session)
    (key : Z) (pp : sks_attribute_head) (decrypt : bool) :
  (forall res : TEE_Result, tee2sks_error res = SKS_OK -> res = TEE_SUCCESS) ->
  cipher_init_steps st session key pp decrypt = Done (SKS_OK, st', session') ->
  tee_op_handle session = TEE_HANDLE_NULL /\
  sessions st' = sessions st /\
  (exists algo mode key_size w1,
     TEE_AllocateOperation (tee st) algo mode key_size =
       (TEE_SUCCESS, tee_op_handle session', w1)) /\
  (exists obj obj',
     sks_handle2object st key = Some obj /\
     objects st' = <[key := obj']> (objects st) /\
     attributes obj' = attributes obj /\
     (key_handle obj <> TEE_HANDLE_NULL -> obj' = obj)).
Proof.
  intros Herr. unfold cipher_init_steps, check_processing_state, set_processing_state.
  destruct (decide (processing session = PKCS11_SESSION_READY)) as [Hready | Hactive];
    simpl; [| discriminate].
  destruct (sks_handle2object st key) as [obj |] eqn:Hobj; [| discriminate].
  intros Hsteps. apply bind_done_inv in Hsteps as (rv1 & _ & Hsteps).
  destruct (failed rv1) eqn:Hf1; [injection Hsteps as -> _ _; discriminate |].
  apply bind_done_inv in Hsteps as (rv2 & _ & Hsteps).
  destruct (failed rv2) eqn:Hf2; [injection Hsteps as -> _ _; discriminate |].
  apply bind_done_inv in Hsteps as ([[rv3 w3] s3] & Hparams & Hsteps).
  destruct (failed rv3) eqn:Hf3; [injection Hsteps as -> _ _; discriminate |].
  apply failed_ok in Hf3. subst rv3.
  apply (tee_operarion_params_allocation _ _ _ _ _ _ _ Herr) in Hparams
    as (algo & mode & sz & handle & Hnull & Halloc & ->).
  destruct (get_class (attributes obj)) eqn:Hclass; try discriminate.
  apply bind_done_inv in Hsteps as ([[rv4 w4] obj4] & Hload & Hsteps).
  destruct (failed rv4) eqn:Hf4; [injection Hsteps as -> _ _; discriminate |].
  apply load_key_done in Hload as (Hattrs & Hheld).
  pose proof (cipher_init_operation_ok _ _ _ _ _ _ Herr Hsteps) as (_ & _ & Hh & _).
  pose proof (cipher_init_operation_sessions _ _ _ _ _ _ _ Hsteps) as Hsessions.
  pose proof (cipher_init_operation_objects _ _ _ _ _ _ _ Hsteps) as Hobjects.
  simpl in Hnull, Hh, Hsessions, Hobjects, Halloc.
  split; [exact Hnull |]. split; [exact Hsessions |].
  split; [exists algo, mode, sz, w3; rewrite Hh; exact Halloc |].
  exists obj, obj4. auto.
Qed.

Lemma signverify_init_steps_frame (st st' : sks_state W)
    (session session' : pkcs11_session) (key : Z) (pp : sks_attribute_head)
    (sign : bool) :
  (forall res : TEE_Result, tee2sks_error res = SKS_OK -> res = TEE_SUCCESS) ->
  signverify_init_steps st session key pp sign = Done (SKS_OK, st', session') ->
  tee_op_handle session = TEE_HANDLE_NULL /\
  sessions st' = sessions st /\
  (exists algo mode key_size w1,
     TEE_AllocateOperation (tee st) algo mode key_size =
       (TEE_SUCCESS, tee_op_handle session', w1)) /\
  (exists obj obj',
     sks_handle2object st key = Some obj /\
     objects st' = <[key := obj']> (objects st) /\
     attributes obj' = attributes obj /\
     (key_handle obj <> TEE_HANDLE_NULL -> obj' = obj)).
Proof.
  intros Herr. unfold signverify_init_steps, check_processing_state, set_processing_state.
  destruct (decide (processing session = PKCS11_SESSION_READY)) as [Hready | Hactive];
    simpl; [| discriminate].
  destruct (sks_handle2object st key) as [obj |] eqn:Hobj; [| discriminate].
  intros Hsteps. apply bind_done_inv in Hsteps as (rv1 & _ & Hsteps).
  destruct (failed rv1) eqn:Hf1; [injection Hsteps as -> _ _; discriminate |].
  apply bind_done_inv in Hsteps as (rv2 & _ & Hsteps).
  destruct (failed rv2) eqn:Hf2; [injection Hsteps as -> _ _; discriminate |].
  apply bind_done_inv in Hsteps as ([[rv3 w3] s3] & Hparams & Hsteps).
  destruct (failed rv3) eqn:Hf3; [injection Hsteps as -> _ _; discriminate |].
  apply failed_ok in Hf3. subst rv3.
  apply (tee_operarion_params_allocation _ _ _ _ _ _ _ Herr) in Hparams
    as (algo & mode & sz & handle & Hnull & Halloc & ->).
  destruct (mac_mechanism (id pp)) eqn:Hmac; [| discriminate].
  apply bind_done_inv in Hsteps as ([[rv4 w4] obj4] & Hload & Hsteps).
  destruct (failed rv4) eqn:Hf4; [injection Hsteps as -> _ _; discriminate |].
  apply load_key_done in Hload as (Hattrs & Hheld).
  pose proof (signverify_init_operation_ok _ _ _ _ _ _ _ Hsteps) as (Hobjects & Hh).
  pose proof (signverify_init_operation_sessions _ _ _ _ _ _ _ Hsteps) as Hsessions.
  simpl in Hnull, Hh, Hsessions, Hobjects, Halloc.
  split; [exact Hnull |]. split; [exact Hsessions |].
  split; [exists algo, mode, sz, w3; rewrite Hh; exact Halloc |].
  exists obj, obj4. auto.
Qed.

(** X8. A cipher init that returns OK, with a translation of provider
    results that keeps errors apart from success: it came without data
    buffers, the session was READY and held no operation, and the key is a
    secret key.  The session is now ENCRYPTING or DECRYPTING by the direction
    of the call, with the mechanism of the call, which is AES_ECB with an
    empty parameter, AES_CBC or AES_CTS with a 16-byte parameter, or AES_CTR,
    AES_CCM or AES_GCM, and it holds the handle that [TEE_AllocateOperation]
    returned with TEE_SUCCESS.  No other session and no other object has
    changed; the key has its attributes, and is the same object when it came
    with a key handle.  That the key has a handle afterwards is not part of
    this: [load_key] reports OK when the allocation of its transient object
    fails. *)
Theorem cipher_init_success (st st' : sks_state W) (tee_session h key : Z)
    (pp : sks_attribute_head) (ctrl in_ out : option TEE_Param) (decrypt : bool)
    (session : pkcs11_session) :
  (forall res : TEE_Result, tee2sks_error res = SKS_OK -> res = TEE_SUCCESS) ->
  ctrl_init_arguments ctrl = Some (h, key, pp) ->
  sks_handle2session st h tee_session = Some session ->
  entry_cipher_init st tee_session ctrl in_ out decrypt = Done (SKS_OK, st') ->
  in_ = None /\ out = None /\
  processing session = PKCS11_SESSION_READY /\
  tee_op_handle session = TEE_HANDLE_NULL /\
  (exists obj obj',
     sks_handle2object st key = Some obj /\
     get_class (attributes obj) = SKS_CKO_SECRET_KEY /\
     objects st' = <[key := obj']> (objects st) /\
     attributes obj' = attributes obj /\
     (key_handle obj <> TEE_HANDLE_NULL -> obj' = obj)) /\
  (exists session' algo mode key_size w1,
     sks_handle2session st' h tee_session = Some session' /\
     sessions st' = <[(tee_session, h) := session']> (sessions st) /\
     processing session' =
       (if decrypt then PKCS11_SESSION_DECRYPTING else PKCS11_SESSION_ENCRYPTING) /\
     proc_id session' = id pp /\
     TEE_AllocateOperation (tee st) algo mode key_size =
       (TEE_SUCCESS, tee_op_handle session', w1)) /\
  ((id pp = SKS_CKM_AES_ECB /\ size pp = 0) \/
   ((id pp = SKS_CKM_AES_CBC \/ id pp = SKS_CKM_AES_CTS) /\ size pp = 16) \/
   id pp = SKS_CKM_AES_CTR \/ id pp = SKS_CKM_AES_CCM \/ id pp = SKS_CKM_AES_GCM).
Proof.
  intros Herr Hc Hs Hrun.
  destruct ctrl as [ctrl |]; simpl in Hc; [| discriminate].
  unfold entry_cipher_init in Hrun.
  destruct in_ as [? |]; [discriminate |]. destruct out as [? |]; [discriminate |].
  destruct (serialargs_get (serialargs_init (memref_buffer ctrl) (memref_size ctrl)) 4)
    as [rv0 | [hb rest]] eqn:Hget; [discriminate |].
  destruct (serialargs_get rest 4) as [rv1 | [kb rest1]] eqn:Hget1; [discriminate |].
  destruct (serialargs_alloc_get_one_attribute rest1) as [rv2 | [pp2 rest2]] eqn:Hget2;
    [discriminate |].
  injection Hc as <- <- <-. rewrite Hs in Hrun.
  apply bind_done_inv in Hrun as ([[rv3 st1] s1] & Hsteps & Hrun). simpl in Hrun.
  apply bind_done_inv in Hrun as ([w2 s2] & Hbail & Hrun).
  injection Hrun as -> <-. simpl in Hbail. injection Hbail as <- <-.
  pose proof (cipher_init_steps_frame _ _ _ _ _ _ _ Herr Hsteps)
    as (Hnull & Hsessions & (algo & mode & sz & w1 & Halloc) &
        (obj & obj' & Hobj & Hobjects & Hattrs & Hheld)).
  apply (cipher_init_steps_ok _ _ _ _ _ _ _ Herr) in Hsteps
    as (Hready & Hp & Hid & (obj0 & Hobj0 & Hclass) & Hmech).
  rewrite Hobj in Hobj0. injection Hobj0 as <-.
  split; [reflexivity |]. split; [reflexivity |]. split; [exact Hready |].
  split; [exact Hnull |].
  split; [exists obj, obj'; auto |]. split; [| exact Hmech].
  exists s1, algo, mode, sz, w1.
  split; [apply lookup_set_session |].
  split; [simpl; rewrite Hsessions; reflexivity | auto].
Qed.

Lemma signverify_init_steps_ok (st st' : sks_state W) (session session' : pkcs11_session)
    (key : Z) (pp : sks_attribute_head) (sign : bool) :
  (forall res : TEE_Result, tee2sks_error res = SKS_OK -> res = TEE_SUCCESS) ->
  signverify_init_steps st session key pp sign = Done (SKS_OK, st', session') ->
  processing session = PKCS11_SESSION_READY /\
  processing session' =
    (if sign then PKCS11_SESSION_SIGNING else PKCS11_SESSION_VERIFYING) /\
  proc_id session' = id pp /\
  mac_mechanism (id pp) = true /\
  is_Some (sks_handle2object st key).
Proof.
  intros Herr. unfold signverify_init_steps, check_processing_state, set_processing_state.
  destruct (decide (processing session = PKCS11_SESSION_READY)) as [Hready | Hactive];
    simpl; [| discriminate].
  destruct (sks_handle2object st key) as [obj |]; [| discriminate].
  intros Hsteps. apply bind_done_inv in Hsteps as (rv1 & _ & Hsteps).
  destruct (failed rv1) eqn:Hf1; [injection Hsteps as -> _ _; discriminate |].
  apply bind_done_inv in Hsteps as (rv2 & _ & Hsteps).
  destruct (failed rv2) eqn:Hf2; [injection Hsteps as -> _ _; discriminate |].
  apply bind_done_inv in Hsteps as ([[rv3 w3] s3] & Hparams & Hsteps).
  destruct (failed rv3) eqn:Hf3; [injection Hsteps as -> _ _; discriminate |].
  apply failed_ok in Hf3. subst rv3.
  apply (tee_operarion_params_ok _ _ _ _ _ _ _ Herr) in Hparams
    as (kt & vs & algo & mode & sz & handle & _ & ->).
  destruct (mac_mechanism (id pp)) eqn:Hmac; [| discriminate].
  apply bind_done_inv in Hsteps as ([[rv4 w4] obj4] & _ & Hsteps).
  destruct (failed rv4) eqn:Hf4; [injection Hsteps as -> _ _; discriminate |].
  unfold signverify_init_operation in Hsteps.
  destruct (TEE_SetOperationKey _ _ _) as [res w5].
  destruct (decide (res = TEE_SUCCESS));
    [| injection Hsteps as Hrv _ _; apply Herr in Hrv; contradiction].
  rewrite Hmac in Hsteps. injection Hsteps as _ <-.
  simpl. auto.
Qed.

(** X9. A sign or verify init that returns OK, with a translation of
    provider results that keeps errors apart from success: it came without
    data buffers, the session was READY and held no operation, and the key
    handle is valid.  The session is now SIGNING or VERIFYING by the direction
    of the call, with the mechanism of the call, which is one of the nine MAC
    mechanisms, and it holds the handle that [TEE_AllocateOperation] returned
    with TEE_SUCCESS.  No other session and no other object has changed; the
    key has its attributes, and is the same object when it came with a key
    handle.  That the key has a handle afterwards is not part of this:
    [load_key] reports OK when the allocation of its transient object
    fails. *)
Theorem signverify_init_success (st st' : sks_state W) (tee_session h key : Z)
    (pp : sks_attribute_head) (ctrl in_ out : option TEE_Param) (sign : bool)
    (session : pkcs11_session) :
  (forall res : TEE_Result, tee2sks_error res = SKS_OK -> res = TEE_SUCCESS) ->
  ctrl_init_arguments ctrl = Some (h, key, pp) ->
  sks_handle2session st h tee_session = Some session ->
  entry_signverify_init st tee_session ctrl in_ out sign = Done (SKS_OK, st') ->
  in_ = None /\ out = None /\
  processing session = PKCS11_SESSION_READY /\
  tee_op_handle session = TEE_HANDLE_NULL /\
  (exists obj obj',
     sks_handle2object st key = Some obj /\
     objects st' = <[key := obj']> (objects st) /\
     attributes obj' = attributes obj /\
     (key_handle obj <> TEE_HANDLE_NULL -> obj' = obj)) /\
  mac_mechanism (id pp) = true /\
  exists session' algo mode key_size w1,
    sks_handle2session st' h tee_session = Some session' /\
    sessions st' = <[(tee_session, h) := session']> (sessions st) /\
    processing session' =
      (if sign then PKCS11_SESSION_SIGNING else PKCS11_SESSION_VERIFYING) /\
    proc_id session' = id pp /\
    TEE_AllocateOperation (tee st) algo mode key_size =
      (TEE_SUCCESS, tee_op_handle session', w1).
Proof.
  intros Herr Hc Hs Hrun.
  destruct ctrl as [ctrl |]; simpl in Hc; [| discriminate].
  unfold entry_signverify_init in Hrun.
  destruct in_ as [? |]; [discriminate |]. destruct out as [? |]; [discriminate |].
  destruct (serialargs_get (serialargs_init (memref_buffer ctrl) (memref_size ctrl)) 4)
    as [rv0 | [hb rest]] eqn:Hget; [discriminate |].
  destruct (serialargs_get rest 4) as [rv1 | [kb rest1]] eqn:Hget1; [discriminate |].
  destruct (serialargs_alloc_get_one_attribute rest1) as [rv2 | [pp2 rest2]] eqn:Hget2;
    [discriminate |].
  injection Hc as <- <- <-. rewrite Hs in Hrun.
  apply bind_done_inv in Hrun as ([[rv3 st1] s1] & Hsteps & Hrun). simpl in Hrun.
  apply bind_done_inv in Hrun as ([w2 s2] & Hbail & Hrun).
  injection Hrun as -> <-. simpl in Hbail. injection Hbail as <- <-.
  pose proof (signverify_init_steps_frame _ _ _ _ _ _ _ Herr Hsteps)
    as (Hnull & Hsessions & (algo & mode & sz & w1 & Halloc) & Hobj).
  apply (signverify_init_steps_ok _ _ _ _ _ _ _ Herr) in Hsteps
    as (Hready & Hp & Hid & Hmac & _).
  split; [reflexivity |]. split; [reflexivity |]. split; [exact Hready |].
  split; [exact Hnull |]. split; [exact Hobj |]. split; [exact Hmac |].
  exists s1, algo, mode, sz, w1.
  split; [apply lookup_set_session |].
  split; [simpl; rewrite Hsessions; reflexivity | auto].
Qed.
End init_results.

Section engine_behaviour.
Context {W : Type} {E : sks_env W}.

(** X10. An init command that finds its session and returns an error leaves
    the session READY, without mechanism and without provider operation,
    whatever the step that failed. *)
Theorem init_failure_leaves_session_ready (cipher flag : bool)
    (st st' : sks_state W) (tee_session h key : Z) (pp : sks_attribute_head)
    (ctrl : option TEE_Param) (session : pkcs11_session) (rv : sks_rc) :
  ctrl_init_arguments ctrl = Some (h, key, pp) ->
  sks_handle2session st h tee_session = Some session ->
  (if cipher then entry_cipher_init st tee_session ctrl None None flag
   else entry_signverify_init st tee_session ctrl None None flag) = Done (rv, st') ->
  failed rv = true ->
  exists session',
    sks_handle2session st' h tee_session = Some session' /\
    processing session' = PKCS11_SESSION_READY /\
    proc_id session' = SKS_UNDEFINED_ID /\
    tee_op_handle session' = TEE_HANDLE_NULL.
Proof.
  intros Hc Hs Hrun Hrv.
  destruct ctrl as [ctrl |]; simpl in Hc; [| discriminate].
  unfold entry_cipher_init, entry_signverify_init in Hrun.
  destruct (serialargs_get (serialargs_init (memref_buffer ctrl) (memref_size ctrl)) 4)
    as [rv0 | [hb rest]] eqn:Hget; [discriminate |].
  destruct (serialargs_get rest 4) as [rv1 | [kb rest1]] eqn:Hget1; [discriminate |].
  destruct (serialargs_alloc_get_one_attribute rest1) as [rv2 | [pp2 rest2]] eqn:Hget2;
    [discriminate |].
  injection Hc as <- <- <-. rewrite Hs in Hrun.
  assert (Hbail : exists rv3 st1 s1 w2 s2,
             (if failed rv3 then release_active_processing (tee st1) s1
              else Done (tee st1, s1)) = Done (w2, s2) /\
             rv = rv3 /\
             st' = set_session (set_tee st1 w2) tee_session (le_uint hb) s2).
  { destruct cipher;
      apply bind_done_inv in Hrun as ([[rv3 st1] s1] & _ & Hrun); simpl in Hrun;
      apply bind_done_inv in Hrun as ([w2 s2] & Hbail & Hrun);
      injection Hrun as <- <-; eauto 10. }
  destruct Hbail as (rv3 & st1 & s1 & w2 & s2 & Hbail & <- & ->).
  rewrite Hrv in Hbail.
  apply release_active_processing_done in Hbail as (Hp & Hid & Hh & _).
  exists s2. split; [apply lookup_set_session | auto].
Qed.

Lemma set_session_same (st : sks_state W) (tee_session h : Z)
    (session : pkcs11_session) :
  sks_handle2session st h tee_session = Some session ->
  set_session (set_tee st (tee st)) tee_session h session = st.
Proof.
  destruct st as [w ss os]. unfold sks_handle2session, set_session, set_tee. simpl.
  intros Hs. f_equal. apply insert_id. exact Hs.
Qed.

Lemma release_clean_session (w : W) (session : pkcs11_session)
    (state : pkcs11_session_processing) :
  processing session = PKCS11_SESSION_READY ->
  proc_id session = SKS_UNDEFINED_ID ->
  tee_op_handle session = TEE_HANDLE_NULL ->
  release_active_processing w (set_processing session state) = Done (w, session).
Proof.
  destruct session as [p i hd c]. simpl. intros -> -> ->.
  unfold release_active_processing. simpl.
  rewrite set_processing_state_ready. reflexivity.
Qed.

(** X11. An init command rejected before any provider call, on a session
    that is READY with no mechanism and no operation: when the key handle is
    invalid, or when one of the two checks of the parent key fails, the
    command returns the error and the whole state is exactly as it was. *)
Theorem rejected_init_changes_nothing (cipher flag : bool)
    (st : sks_state W) (tee_session h key : Z) (pp : sks_attribute_head)
    (ctrl : option TEE_Param) (session : pkcs11_session) :
  ctrl_init_arguments ctrl = Some (h, key, pp) ->
  sks_handle2session st h tee_session = Some session ->
  processing session = PKCS11_SESSION_READY ->
  proc_id session = SKS_UNDEFINED_ID ->
  tee_op_handle session = TEE_HANDLE_NULL ->
  let function :=
    if cipher then (if flag then SKS_FUNCTION_DECRYPT else SKS_FUNCTION_ENCRYPT)
    else (if flag then SKS_FUNCTION_SIGN else SKS_FUNCTION_VERIFY) in
  let state :=
    if cipher then (if flag then PKCS11_SESSION_DECRYPTING
                    else PKCS11_SESSION_ENCRYPTING)
    else (if flag then PKCS11_SESSION_SIGNING else PKCS11_SESSION_VERIFYING) in
  let run :=
    if cipher then entry_cipher_init st tee_session ctrl None None flag
    else entry_signverify_init st tee_session ctrl None None flag in
  (sks_handle2object st key = None ->
   run = Done (SKS_CKR_KEY_HANDLE_INVALID, st)) /\
  (forall obj rv,
     sks_handle2object st key = Some obj ->
     check_parent_attrs_against_processing (id pp) function (attributes obj) =
       Done rv ->
     failed rv = true ->
     run = Done (rv, st)) /\
  (forall obj rv,
     sks_handle2object st key = Some obj ->
     check_parent_attrs_against_processing (id pp) function (attributes obj) =
       Done SKS_OK ->
     check_parent_attrs_against_token (set_processing session state)
       (attributes obj) = Done rv ->
     failed rv = true ->
     run = Done (rv, st)).
Proof.
  intros Hc Hs Hp Hid Hh function state run.
  destruct ctrl as [ctrl |]; simpl in Hc; [| discriminate].
  destruct (serialargs_get (serialargs_init (memref_buffer ctrl) (memref_size ctrl)) 4)
    as [rv0 | [hb rest]] eqn:Hget; [discriminate |].
  destruct (serialargs_get rest 4) as [rv1 | [kb rest1]] eqn:Hget1; [discriminate |].
  destruct (serialargs_alloc_get_one_attribute rest1) as [rv2 | [pp2 rest2]] eqn:Hget2;
    [discriminate |].
  injection Hc as <- <- <-.
  assert (Hstate : forall s, set_processing_state session s = (0, set_processing session s)).
  { intros s. unfold set_processing_state.
    destruct (decide (processing session = PKCS11_SESSION_READY)); [reflexivity | contradiction]. }
  assert (Hrun : forall rv,
             (if cipher
              then cipher_init_steps st session (le_uint kb) pp2 flag
              else signverify_init_steps st session (le_uint kb) pp2 flag) =
               Done (rv, st, set_processing session state) ->
             failed rv = true ->
             run = Done (rv, st)).
  { intros rv Hsteps Hrv. subst run.
    destruct cipher;
      [unfold entry_cipher_init | unfold entry_signverify_init];
      rewrite Hget, Hget1, Hget2, Hs, Hsteps; simpl; rewrite Hrv;
      rewrite (release_clean_session _ _ _ Hp Hid Hh); simpl;
      rewrite (set_session_same _ _ _ _ Hs); reflexivity. }
  split; [| split].
  - intros Hobj. apply Hrun; [| reflexivity].
    destruct cipher;
      [unfold cipher_init_steps | unfold signverify_init_steps];
      rewrite (check_processing_state_eq _ _ Hp), Hstate, Hobj; reflexivity.
  - intros obj rv Hobj Hcheck Hrv. apply Hrun; [| exact Hrv].
    destruct cipher;
      [unfold cipher_init_steps | unfold signverify_init_steps];
      rewrite (check_processing_state_eq _ _ Hp), Hstate, Hobj; simpl;
      fold function; rewrite Hcheck; simpl; rewrite Hrv; reflexivity.
  - intros obj rv Hobj Hcheck Htoken Hrv. apply Hrun; [| exact Hrv].
    destruct cipher;
      [unfold cipher_init_steps | unfold signverify_init_steps];
      rewrite (check_processing_state_eq _ _ Hp), Hstate, Hobj; simpl;
      fold function; rewrite Hcheck; simpl; fold state; rewrite Htoken; simpl;
      rewrite Hrv; reflexivity.
Qed.

(** X12. An update or final command changes at most the provider and the
    session that its control buffer names for its client: the object store
    and every other session are as they were. *)
Theorem run_step_frame (c : processing_step) (st st' : sks_state W)
    (tee_session : Z) (ctrl in_ out out' : option TEE_Param) (rv : sks_rc) :
  run_step c st tee_session ctrl in_ out = Done (rv, out', st') ->
  objects st' = objects st /\
  forall k, ctrl_session_handle ctrl <> Some k.2 \/ k.1 <> tee_session ->
            sessions st' !! k = sessions st !! k.
Proof.
  intros Hrun.
  destruct (ctrl_session_handle ctrl) as [h |] eqn:Hc.
  - destruct (sks_handle2session st h tee_session) as [session |] eqn:Hs.
    + destruct (decide (processing session = step_state c)) as [Hp | Hp].
      * destruct (run_step_on_active c st tee_session h ctrl in_ out session Hc Hs Hp)
          as (rv1 & out1 & w1 & s1 & Hrun1 & _).
        rewrite Hrun in Hrun1. injection Hrun1 as _ _ ->.
        split; [reflexivity |]. intros [k1 k2] Hk. simpl in Hk |- *.
        apply lookup_insert_ne. intros [= <- <-]. destruct Hk; congruence.
      * rewrite (run_step_wrong_state c st tee_session h ctrl in_ out session Hc Hs Hp)
          in Hrun.
        injection Hrun as _ _ <-. auto.
    + destruct (run_step_no_session c st tee_session ctrl in_ out) as (rv1 & Hrun1).
      { intros h' Hh'. rewrite Hc in Hh'. injection Hh' as <-. exact Hs. }
      rewrite Hrun in Hrun1. injection Hrun1 as _ _ ->. auto.
  - destruct (run_step_no_session c st tee_session ctrl in_ out) as (rv1 & Hrun1).
    { intros h' Hh'. rewrite Hc in Hh'. discriminate. }
    rewrite Hrun in Hrun1. injection Hrun1 as _ _ ->. auto.
Qed.

(** X13. Once an update or final command has ended an operation (any
    result of a final other than SHORT_BUFFER, any error of an update other
    than SHORT_BUFFER), every further update or final command on the session,
    of either family and direction, returns OPERATION_NOT_INITIALIZED and
    changes nothing. *)
Theorem step_after_release_is_not_initialized
    (c c' : processing_step) (st st' : sks_state W) (tee_session h : Z)
    (ctrl in_ out out' in2 out2 : option TEE_Param) (session : pkcs11_session)
    (rv : sks_rc) :
  ctrl_session_handle ctrl = Some h ->
  sks_handle2session st h tee_session = Some session ->
  processing session = step_state c ->
  run_step c st tee_session ctrl in_ out = Done (rv, out', st') ->
  rv <> SKS_SHORT_BUFFER ->
  rv <> SKS_OK \/ is_final c = true ->
  run_step c' st' tee_session ctrl in2 out2 =
    Done (SKS_CKR_OPERATION_NOT_INITIALIZED, out2, st').
Proof.
  intros Hc Hs Hp Hrun Hshort Hend.
  destruct (run_step_on_active c st tee_session h ctrl in_ out session Hc Hs Hp)
    as (rv1 & out1 & w1 & s1 & Hrun1 & _ & Hother & _).
  rewrite Hrun in Hrun1. injection Hrun1 as <- <- ->.
  destruct (Hother Hshort Hend) as (Hready & _).
  apply (run_step_wrong_state c' _ tee_session h ctrl in2 out2 s1 Hc).
  - apply lookup_set_session.
  - rewrite Hready. destruct c' as [[|] | [|] | [|] | [|]]; discriminate.
Qed.

(** X14. A verify final hands the caller's buffer to the provider as the
    signature to compare and never updates its size: whatever the result, the
    output parameter comes back as it was given. *)
Theorem verify_final_keeps_signature_buffer (st st' : sks_state W) (tee_session : Z)
    (ctrl in_ out out' : option TEE_Param) (rv : sks_rc) :
  entry_signverify_final st tee_session ctrl in_ out false = Done (rv, out', st') ->
  out' = out.
Proof.
  unfold entry_signverify_final.
  destruct ctrl as [ctrl |]; [| intros [= _ <- _]; reflexivity].
  destruct (serialargs_get _ 4) as [rv0 | [hb rest]]; [intros [= _ <- _]; reflexivity |].
  destruct (sks_handle2session _ _ _) as [session |]; [| intros [= _ <- _]; reflexivity].
  destruct (decide _); [| intros [= _ <- _]; reflexivity].
  destruct in_ as [input |], out as [output |]; simpl;
    try destruct (mac_mechanism (proc_id session));
    try destruct (TEE_MACCompareFinal _ _ _ _) as [res w1];
    simpl; intros Hrun; apply bind_done_inv in Hrun as ([w2 s2] & _ & Hrun);
    injection Hrun as _ <- _; reflexivity.
Qed.

(** X15. With a well-formed control buffer that names no session of the
    client, a sign/verify init returns SESSION_HANDLE_INVALID and changes
    nothing, while a cipher init does not return: it reaches [bail] with a
    null session and [release_active_processing] dereferences it. *)
Theorem init_with_invalid_session_handle (st : sks_state W) (tee_session h key : Z)
    (pp : sks_attribute_head) (ctrl : option TEE_Param) (flag : bool) :
  ctrl_init_arguments ctrl = Some (h, key, pp) ->
  sks_handle2session st h tee_session = None ->
  entry_signverify_init st tee_session ctrl None None flag =
    Done (SKS_CKR_SESSION_HANDLE_INVALID, st) /\
  entry_cipher_init st tee_session ctrl None None flag = NullDeref.
Proof.
  intros Hc Hs.
  destruct ctrl as [ctrl |]; simpl in Hc; [| discriminate].
  destruct (serialargs_get (serialargs_init (memref_buffer ctrl) (memref_size ctrl)) 4)
    as [rv0 | [hb rest]] eqn:Hget; [discriminate |].
  destruct (serialargs_get rest 4) as [rv1 | [kb rest1]] eqn:Hget1; [discriminate |].
  destruct (serialargs_alloc_get_one_attribute rest1) as [rv2 | [pp2 rest2]] eqn:Hget2;
    [discriminate |].
  injection Hc as <- <- <-.
  unfold entry_signverify_init, entry_cipher_init.
  rewrite Hget, Hget1, Hget2, Hs. split; reflexivity.
Qed.
End engine_behaviour.

Section objects_and_attributes.
Context {W : Type} {E : sks_env W}.




End objects_and_attributes.

Section bit_field.
Context {W : Type} {E : sks_env W}.

Lemma land_bit_is_zero (x n : Z) :
  0 <= n -> (Z.land x (BIT n) =? 0) = negb (Z.testbit x n).
Proof.
  intros Hn. unfold BIT. rewrite Z.shiftl_1_l.
  destruct (Z.testbit x n) eqn:Hbit; simpl.
  - apply Z.eqb_neq. intros Hzero.
    assert (Hn' : Z.testbit (Z.land x (2 ^ n)) n = true).
    { rewrite Z.land_spec, Hbit, Z.pow2_bits_true by exact Hn. reflexivity. }
    rewrite Hzero, Z.bits_0 in Hn'. discriminate.
  - apply Z.eqb_eq. apply Z.bits_inj'. intros m Hm.
    rewrite Z.land_spec, Z.bits_0, Z.pow2_bits_eqb by exact Hn.
    destruct (Z.eqb_spec n m) as [-> | Hne].
    + rewrite Hbit. reflexivity.
    + apply andb_false_r.
Qed.

Lemma testbit_two_words (high low n : Z) :
  0 <= low < 2 ^ 32 -> 0 <= n ->
  Z.testbit (high * 2 ^ 32 + low) n =
  if n <? 32 then Z.testbit low n else Z.testbit high (n - 32).
Proof.
  intros Hlow Hn. destruct (Z.ltb_spec n 32) as [Hlt | Hge].
  - rewrite <- (Z.mod_pow2_bits_low (high * 2 ^ 32 + low) 32 n) by lia.
    rewrite Z.add_comm, Z_mod_plus_full, Z.mod_small by lia. reflexivity.
  - replace n with (n - 32 + 32) at 1 by lia.
    rewrite <- Z.div_pow2_bits by lia.
    rewrite Z.div_add_l, Z.div_small by lia.
    rewrite Z.add_0_r. reflexivity.
Qed.

(** X18. [get_bool], for an attribute that has a bit position below 64,
    reads the two 32-bit header words as one 64-bit bit-field: the result is
    the bit at that position of [boolproph * 2^32 + boolpropl]. *)
Theorem get_bool_reads_bit_field (head : sks_attrs_head) (attribute : sks_id) :
  0 <= sks_attr2boolprop_shift attribute < 64 ->
  0 <= boolpropl head < 2 ^ 32 ->
  0 <= boolproph head < 2 ^ 32 ->
  get_bool head attribute =
    Done (Z.testbit (boolproph head * 2 ^ 32 + boolpropl head)
            (sks_attr2boolprop_shift attribute)).
Proof.
  intros Hshift Hlow Hhigh. unfold get_bool.
  rewrite testbit_two_words by lia.
  destruct (Z.ltb_spec (sks_attr2boolprop_shift attribute) 0); [lia |].
  destruct (Z.ltb_spec 31 (sks_attr2boolprop_shift attribute)) as [Hh | Hl];
    destruct (Z.ltb_spec (sks_attr2boolprop_shift attribute) 32); try lia;
    rewrite land_bit_is_zero by lia; rewrite negb_involutive; reflexivity.
Qed.

(** X19. In the builds that look the key type up in the entries (with
    [get_attribute] as the design describes it), a key whose KEY_TYPE entry is
    missing or is not four bytes long has the type SKS_UNDEFINED_ID, and
    [load_key] refuses it with ATTRIBUTE_TYPE_INVALID before any provider
    call, leaving the object as it is. *)
Theorem key_type_of_wrong_size_is_not_loaded (w : W) (obj : sks_object) :
  SKS_SHEAD_WITH_TYPE = false ->
  SKS_SHEAD_WITH_BOOLPROPS = false \/ sks_attr2boolprop_shift SKS_CKA_KEY_TYPE < 0 ->
  (forall v, find_attribute (attrs (attributes obj)) SKS_CKA_KEY_TYPE = Some v ->
             length v <> 4%nat) ->
  key_handle obj = TEE_HANDLE_NULL ->
  get_type (attributes obj) = SKS_UNDEFINED_ID /\
  load_key w obj = Done (SKS_CKR_ATTRIBUTE_TYPE_INVALID, w, obj).
Proof.
  intros Htype Hbool Hsize Hnull.
  assert (Hundefined : get_type (attributes obj) = SKS_UNDEFINED_ID).
  { unfold get_type, get_attribute, get_attribute_ptr. rewrite Htype.
    assert (Hsynth : SKS_SHEAD_WITH_BOOLPROPS &&
                     (0 <=? sks_attr2boolprop_shift SKS_CKA_KEY_TYPE) = false).
    { destruct Hbool as [-> | Hshift]; [reflexivity |].
      destruct (Z.leb_spec 0 (sks_attr2boolprop_shift SKS_CKA_KEY_TYPE)); [lia |].
      apply andb_false_r. }
    rewrite Hsynth.
    destruct (find_attribute (attrs (attributes obj)) SKS_CKA_KEY_TYPE) as [v |] eqn:Hv;
      [| reflexivity].
    specialize (Hsize v eq_refl).
    destruct (decide (4 = Z.of_nat (length v))); [lia | reflexivity]. }
  split; [exact Hundefined |].
  unfold load_key, get_tee_object_info. rewrite Hundefined.
  destruct (decide (key_handle obj = TEE_HANDLE_NULL)); [reflexivity | contradiction].
Qed.
End bit_field.

Section pass_through.
Context {W : Type} {E : sks_env W}.

(** X20. A cipher update with a mechanism other than CCM and GCM, on a
    session whose operation it drives and with an output buffer: when the
    translated answer of [TEE_CipherUpdate] is OK or SHORT_BUFFER, that is the
    result, the output parameter carries what the provider wrote and the size
    the provider reported, and the session is exactly as it was. *)
Theorem cipher_update_passes_provider_output
    (st : sks_state W) (tee_session h : Z) (ctrl in_ : option TEE_Param)
    (output : TEE_Param) (decrypt : bool) (session : pkcs11_session)
    (res : TEE_Result) (content : list byte) (n : Z) (w1 : W) :
  ctrl_session_handle ctrl = Some h ->
  sks_handle2session st h tee_session = Some session ->
  processing session =
    (if decrypt then PKCS11_SESSION_DECRYPTING else PKCS11_SESSION_ENCRYPTING) ->
  proc_id session <> SKS_CKM_AES_CCM ->
  proc_id session <> SKS_CKM_AES_GCM ->
  TEE_CipherUpdate (tee st) (tee_op_handle session) (memref_buffer <$> in_)
    (from_option memref_size 0 in_) (Some (memref_buffer output))
    (memref_size output) = (res, content, n, w1) ->
  tee2sks_error res = SKS_OK \/ tee2sks_error res = SKS_SHORT_BUFFER ->
  entry_cipher_update st tee_session ctrl in_ (Some output) decrypt =
    Done (tee2sks_error res,
          Some (mk_param (memref_addr output) content n),
          set_session (set_tee st w1) tee_session h session).
Proof.
  intros Hc Hs Hp Hccm Hgcm Hupdate Hrv.
  destruct ctrl as [ctrl |]; simpl in Hc; [| discriminate].
  destruct (serialargs_get (serialargs_init (memref_buffer ctrl) (memref_size ctrl)) 4)
    as [rv0 | [hb rest]] eqn:Hget; [discriminate |].
  injection Hc as <-.
  unfold entry_cipher_update. rewrite Hget, Hs.
  rewrite (check_processing_state_eq _ _ Hp). simpl.
  assert (Hsw : cipher_update_switch (tee st) session in_ (Some output)
                  (from_option memref_size 0 in_) (memref_size output) decrypt =
                (tee2sks_error res, fill (Some output) content, n, w1, session)).
  { unfold cipher_update_switch.
    destruct (proc_id session); try contradiction; simpl; simpl in Hupdate;
      rewrite Hupdate; reflexivity. }
  rewrite Hsw. simpl.
  destruct Hrv as [-> | ->]; reflexivity.
Qed.

(** A sign or verify update with one of the nine MAC mechanisms, an input
    buffer and no output buffer, on a session whose operation it drives. *)
Lemma signverify_update_feeds_provider
    (st : sks_state W) (tee_session h : Z) (ctrl : option TEE_Param)
    (input : TEE_Param) (sign : bool) (session : pkcs11_session) :
  ctrl_session_handle ctrl = Some h ->
  sks_handle2session st h tee_session = Some session ->
  processing session =
    (if sign then PKCS11_SESSION_SIGNING else PKCS11_SESSION_VERIFYING) ->
  mac_mechanism (proc_id session) = true ->
  entry_signverify_update st tee_session ctrl (Some input) None sign =
    Done (SKS_OK, None,
          set_session
            (set_tee st (TEE_MACUpdate (tee st) (tee_op_handle session)
                           (memref_buffer input) (memref_size input)))
            tee_session h session).
Proof.
  intros Hc Hs Hp Hmac.
  destruct ctrl as [ctrl |]; simpl in Hc; [| discriminate].
  destruct (serialargs_get (serialargs_init (memref_buffer ctrl) (memref_size ctrl)) 4)
    as [rv0 | [hb rest]] eqn:Hget; [discriminate |].
  injection Hc as <-.
  unfold entry_signverify_update. rewrite Hget, Hs.
  rewrite (check_processing_state_eq _ _ Hp). simpl. rewrite Hmac. reflexivity.
Qed.

(** X21. How sign/verify init and update compose: after an init that
    returned OK (with a translation of provider results that keeps errors
    apart from success), an update of the same direction with an input buffer
    and no output buffer returns OK, whatever the provider does; the
    provider has received the input in one [TEE_MACUpdate], and the session
    is as the init left it. *)
Theorem signverify_update_after_init
    (st st' : sks_state W) (tee_session h key : Z) (pp : sks_attribute_head)
    (ctrl ctrl2 : option TEE_Param) (input : TEE_Param) (sign : bool)
    (session : pkcs11_session) :
  (forall res : TEE_Result, tee2sks_error res = SKS_OK -> res = TEE_SUCCESS) ->
  ctrl_init_arguments ctrl = Some (h, key, pp) ->
  sks_handle2session st h tee_session = Some session ->
  entry_signverify_init st tee_session ctrl None None sign = Done (SKS_OK, st') ->
  ctrl_session_handle ctrl2 = Some h ->
  exists session',
    sks_handle2session st' h tee_session = Some session' /\
    entry_signverify_update st' tee_session ctrl2 (Some input) None sign =
      Done (SKS_OK, None,
            set_session
              (set_tee st' (TEE_MACUpdate (tee st') (tee_op_handle session')
                              (memref_buffer input) (memref_size input)))
              tee_session h session').
Proof.
  intros Herr Hc Hs Hrun Hc2.
  destruct ctrl as [ctrl |]; simpl in Hc; [| discriminate].
  unfold entry_signverify_init in Hrun.
  destruct (serialargs_get (serialargs_init (memref_buffer ctrl) (memref_size ctrl)) 4)
    as [rv0 | [hb rest]] eqn:Hget; [discriminate |].
  destruct (serialargs_get rest 4) as [rv1 | [kb rest1]] eqn:Hget1; [discriminate |].
  destruct (serialargs_alloc_get_one_attribute rest1) as [rv2 | [pp2 rest2]] eqn:Hget2;
    [discriminate |].
  injection Hc as <- <- <-. rewrite Hs in Hrun.
  apply bind_done_inv in Hrun as ([[rv3 st1] s1] & Hsteps & Hrun). simpl in Hrun.
  apply bind_done_inv in Hrun as ([w2 s2] & Hbail & Hrun).
  injection Hrun as -> <-. simpl in Hbail. injection Hbail as <- <-.
  apply (signverify_init_steps_ok _ _ _ _ _ _ _ Herr) in Hsteps
    as (_ & Hp & Hid & Hmac & _).
  exists s1. split; [apply lookup_set_session |].
  apply signverify_update_feeds_provider;
    [exact Hc2 | apply lookup_set_session | exact Hp | rewrite Hid; exact Hmac].
Qed.
End pass_through.

(** * Examples of the further properties *)

Lemma fake_tee2sks_error_ok (res : TEE_Result) :
  fake_tee2sks_error res = SKS_OK -> res = TEE_SUCCESS.
Proof.
  unfold fake_tee2sks_error.
  repeat match goal with
         | |- context [decide ?P] => destruct (decide P)
         end; first [discriminate | auto].
Qed.

Lemma selected_mode_and_key_size_witness :
  tee_operation_selection SKS_CKK_AES SKS_FUNCTION_DECRYPT SKS_CKM_AES_GCM 16 =
    inr (TEE_ALG_AES_GCM, TEE_MODE_DECRYPT, 128) /\
  128 = uint32 (16 * 8) /\ TEE_MODE_DECRYPT = TEE_MODE_DECRYPT.
Proof.
  split; [reflexivity |].
  apply (selected_mode_and_key_size SKS_CKK_AES SKS_FUNCTION_DECRYPT
           SKS_CKM_AES_GCM 16 TEE_ALG_AES_GCM TEE_MODE_DECRYPT 128).
  reflexivity.
Defined.

Lemma selected_algorithm_key_type_witness :
  tee_operation_selection SKS_CKK_GENERIC_SECRET SKS_FUNCTION_SIGN
    SKS_CKM_SHA256_HMAC 32 = inr (TEE_ALG_HMAC_SHA256, TEE_MODE_MAC, 256) /\
  (SKS_CKK_GENERIC_SECRET = SKS_CKK_GENERIC_SECRET \/
   SKS_CKK_GENERIC_SECRET = SKS_CKK_SHA256_HMAC) /\
  (SKS_FUNCTION_SIGN = SKS_FUNCTION_SIGN \/ SKS_FUNCTION_SIGN = SKS_FUNCTION_VERIFY).
Proof.
  split; [reflexivity |].
  apply (selected_algorithm_key_type SKS_CKK_GENERIC_SECRET SKS_FUNCTION_SIGN
           SKS_CKM_SHA256_HMAC 32 TEE_ALG_HMAC_SHA256 TEE_MODE_MAC 256).
  reflexivity.
Defined.

Lemma selected_key_type_has_object_type_witness :
  tee_operation_selection (get_type (E := fake_env healthy) aes_key_attributes)
    SKS_FUNCTION_ENCRYPT SKS_CKM_AES_CTR 16 =
    inr (TEE_ALG_AES_CTR, TEE_MODE_ENCRYPT, 128) /\
  exists tee_obj_type,
    get_tee_object_info (E := fake_env healthy) aes_key_attributes =
      inr (tee_obj_type, TEE_ATTR_SECRET_VALUE) /\
    (get_type (E := fake_env healthy) aes_key_attributes = SKS_CKK_AES <->
     tee_obj_type = TEE_TYPE_AES).
Proof.
  split; [reflexivity |].
  apply (selected_key_type_has_object_type (E := fake_env healthy)
           aes_key_attributes SKS_FUNCTION_ENCRYPT SKS_CKM_AES_CTR 16
           TEE_ALG_AES_CTR TEE_MODE_ENCRYPT 128).
  reflexivity.
Defined.

Lemma tee_operarion_params_session_witness :
  let pp := mk_attribute SKS_CKM_AES_ECB 0 [] in
  let session' := set_tee_op_handle ready_session 7 in
  let w' := [CALL_AllocateOperation TEE_ALG_AES_ECB_NOPAD TEE_MODE_ENCRYPT 128] in
  tee_operarion_params (E := fake_env healthy) [] ready_session pp aes_key
    SKS_FUNCTION_ENCRYPT = Done (SKS_OK, w', session') /\
  session' <> ready_session /\
  processing session' = processing ready_session /\
  proc_id session' = proc_id ready_session /\
  ae_scratch session' = ae_scratch ready_session /\
  tee_op_handle ready_session = TEE_HANDLE_NULL.
Proof.
  intros pp session' w'.
  destruct (tee_operarion_params_session (E := fake_env healthy) [] w'
              ready_session session' pp aes_key SKS_FUNCTION_ENCRYPT SKS_OK eq_refl)
    as (Hp & Hid & Hscratch & Hset & _).
  assert (Hne : session' <> ready_session) by discriminate.
  destruct (Hset Hne) as [Hnull _].
  split; [reflexivity |]. auto.
Defined.

Lemma load_key_object_witness :
  let loaded := set_key_handle aes_key 9 in
  load_key (E := fake_env healthy) [] short_type_key =
    Done (SKS_CKR_ATTRIBUTE_TYPE_INVALID, [], short_type_key) /\
  attributes short_type_key = attributes short_type_key /\
  key_handle short_type_key = TEE_HANDLE_NULL /\
  key_handle loaded <> TEE_HANDLE_NULL /\
  load_key (E := fake_env healthy) [] loaded = Done (SKS_OK, [], loaded).
Proof.
  intros loaded.
  destruct (load_key_object (E := fake_env healthy) [] short_type_key) as [Hall _].
  destruct (Hall SKS_CKR_ATTRIBUTE_TYPE_INVALID [] short_type_key eq_refl)
    as [Hattrs Hhandle].
  destruct (load_key_object (E := fake_env healthy) [] loaded) as [_ Hloaded].
  split; [reflexivity |]. split; [exact Hattrs |].
  split; [exact (Hhandle eq_refl) |].
  split; [discriminate |]. apply Hloaded. discriminate.
Defined.

Lemma load_key_populate_failure_witness :
  let E := fake_env_populate TEE_ERROR_OUT_OF_MEMORY in
  let w1 := [CALL_AllocateTransientObject TEE_TYPE_AES 128] in
  let w2 := w1 ++ [CALL_PopulateTransientObject 9 (repeat x11 16)] in
  key_handle aes_key = TEE_HANDLE_NULL /\
  get_tee_object_info (E := E) (attributes aes_key) =
    inr (TEE_TYPE_AES, TEE_ATTR_SECRET_VALUE) /\
  get_attribute_ptr (attributes aes_key) SKS_CKA_VALUE = (SKS_OK, repeat x11 16) /\
  TEE_AllocateTransientObject (sks_env := E) [] TEE_TYPE_AES 128 =
    (TEE_SUCCESS, 9, w1) /\
  TEE_PopulateTransientObject (sks_env := E) w1 9 TEE_ATTR_SECRET_VALUE
    (repeat x11 16) 16 = (TEE_ERROR_OUT_OF_MEMORY, w2) /\
  TEE_ERROR_OUT_OF_MEMORY <> TEE_SUCCESS /\
  load_key (E := E) [] aes_key =
    Done (SKS_MEMORY, w2 ++ [CALL_FreeTransientObject 9], aes_key).
Proof.
  intros E w1 w2.
  split; [reflexivity |]. split; [reflexivity |]. split; [reflexivity |].
  split; [reflexivity |]. split; [reflexivity |]. split; [discriminate |].
  apply (load_key_populate_failure (E := E) [] w1 w2 aes_key TEE_TYPE_AES
           TEE_ATTR_SECRET_VALUE (repeat x11 16) 9 TEE_ERROR_OUT_OF_MEMORY);
    first [reflexivity | discriminate].
Defined.

Lemma cipher_init_success_witness :
  let st := one_session ready_session in
  let pp := mk_attribute SKS_CKM_AES_CBC 16 (repeat x00 16) in
  let ctrl := Some (ctrl_init 1 (repeat x00 16)) in
  (forall res, tee2sks_error (sks_env := fake_env healthy) res = SKS_OK ->
               res = TEE_SUCCESS) /\
  ctrl_init_arguments (E := fake_env healthy) ctrl = Some (5, 3, pp) /\
  sks_handle2session st 5 1 = Some ready_session /\
  exists st',
    entry_cipher_init (E := fake_env healthy) st 1 ctrl None None true =
      Done (SKS_OK, st') /\
    tee_op_handle ready_session = TEE_HANDLE_NULL /\
    (exists obj obj',
       sks_handle2object st 3 = Some obj /\
       get_class (E := fake_env healthy) (attributes obj) = SKS_CKO_SECRET_KEY /\
       objects st' = <[3 := obj']> (objects st) /\
       attributes obj' = attributes obj /\
       (key_handle obj <> TEE_HANDLE_NULL -> obj' = obj)) /\
    (exists session' algo mode key_size w1,
       sks_handle2session st' 5 1 = Some session' /\
       sessions st' = <[(1, 5) := session']> (sessions st) /\
       processing session' = PKCS11_SESSION_DECRYPTING /\
       proc_id session' = SKS_CKM_AES_CBC /\
       TEE_AllocateOperation (sks_env := fake_env healthy) (tee st) algo mode
         key_size = (TEE_SUCCESS, tee_op_handle session', w1)).
Proof.
  intros st pp ctrl.
  assert (Hrun : exists st',
             entry_cipher_init (E := fake_env healthy) st 1 ctrl None None true =
               Done (SKS_OK, st'))
    by (eexists; vm_compute; reflexivity).
  destruct Hrun as [st' Hrun].
  split; [exact fake_tee2sks_error_ok |].
  split; [reflexivity |]. split; [reflexivity |].
  exists st'. split; [exact Hrun |].
  destruct (cipher_init_success (E := fake_env healthy) st st' 1 5 3 pp ctrl None
              None true ready_session fake_tee2sks_error_ok eq_refl eq_refl Hrun)
    as (_ & _ & _ & Hnull & Hobj & Hsession & _).
  split; [exact Hnull |]. split; [exact Hobj | exact Hsession].
Defined.

Lemma signverify_init_success_witness :
  let st := one_session_one_key ready_session signing_key in
  let pp := mk_attribute SKS_CKM_AES_CMAC 0 [] in
  let ctrl := Some (ctrl_init 7 []) in
  (forall res, tee2sks_error (sks_env := fake_env healthy) res = SKS_OK ->
               res = TEE_SUCCESS) /\
  ctrl_init_arguments (E := fake_env healthy) ctrl = Some (5, 3, pp) /\
  sks_handle2session st 5 1 = Some ready_session /\
  exists st',
    entry_signverify_init (E := fake_env healthy) st 1 ctrl None None true =
      Done (SKS_OK, st') /\
    tee_op_handle ready_session = TEE_HANDLE_NULL /\
    (exists obj obj',
       sks_handle2object st 3 = Some obj /\
       objects st' = <[3 := obj']> (objects st) /\
       attributes obj' = attributes obj /\
       (key_handle obj <> TEE_HANDLE_NULL -> obj' = obj)) /\
    mac_mechanism (id pp) = true /\
    exists session' algo mode key_size w1,
      sks_handle2session st' 5 1 = Some session' /\
      sessions st' = <[(1, 5) := session']> (sessions st) /\
      processing session' = PKCS11_SESSION_SIGNING /\
      proc_id session' = id pp /\
      TEE_AllocateOperation (sks_env := fake_env healthy) (tee st) algo mode
        key_size = (TEE_SUCCESS, tee_op_handle session', w1).
Proof.
  intros st pp ctrl.
  assert (Hrun : exists st',
             entry_signverify_init (E := fake_env healthy) st 1 ctrl None None true =
               Done (SKS_OK, st'))
    by (eexists; vm_compute; reflexivity).
  destruct Hrun as [st' Hrun].
  split; [exact fake_tee2sks_error_ok |].
  split; [reflexivity |]. split; [reflexivity |].
  exists st'. split; [exact Hrun |].
  destruct (signverify_init_success (E := fake_env healthy) st st' 1 5 3 pp ctrl None
              None true ready_session fake_tee2sks_error_ok eq_refl eq_refl Hrun)
    as (_ & _ & _ & Hnull & Hobj & Hmac & Hsession).
  split; [exact Hnull |]. split; [exact Hobj |]. split; [exact Hmac | exact Hsession].
Defined.

Lemma init_failure_leaves_session_ready_witness :
  let session := active_session PKCS11_SESSION_ENCRYPTING SKS_CKM_AES_ECB in
  let st := one_session session in
  let ctrl := Some (ctrl_init 1 (repeat x00 16)) in
  ctrl_init_arguments (E := fake_env healthy) ctrl =
    Some (5, 3, mk_attribute SKS_CKM_AES_CBC 16 (repeat x00 16)) /\
  sks_handle2session st 5 1 = Some session /\
  exists st',
    entry_cipher_init (E := fake_env healthy) st 1 ctrl None None false =
      Done (SKS_CKR_OPERATION_ACTIVE, st') /\
    failed SKS_CKR_OPERATION_ACTIVE = true /\
    exists session',
      sks_handle2session st' 5 1 = Some session' /\
      processing session' = PKCS11_SESSION_READY /\
      proc_id session' = SKS_UNDEFINED_ID /\
      tee_op_handle session' = TEE_HANDLE_NULL.
Proof.
  intros session st ctrl.
  split; [reflexivity |]. split; [reflexivity |].
  eexists. split; [vm_compute; reflexivity |]. split; [reflexivity |].
  apply (init_failure_leaves_session_ready (E := fake_env healthy) true false st _
           1 5 3 (mk_attribute SKS_CKM_AES_CBC 16 (repeat x00 16)) ctrl session
           SKS_CKR_OPERATION_ACTIVE eq_refl eq_refl);
    [vm_compute; reflexivity | reflexivity].
Defined.

Lemma rejected_init_changes_nothing_witness :
  let no_key : sks_state (list tee_call) :=
    mk_state [] {[ (1, 5) := ready_session ]} ∅ in
  let private := one_session_one_key ready_session private_key in
  let st := one_session ready_session in
  entry_cipher_init (E := fake_env healthy) no_key 1 (Some (ctrl_init 0 []))
    None None false = Done (SKS_CKR_KEY_HANDLE_INVALID, no_key) /\
  entry_signverify_init (E := fake_env healthy) st 1 (Some (ctrl_init 7 []))
    None None true = Done (SKS_CKR_KEY_FUNCTION_NOT_PERMITTED, st) /\
  entry_cipher_init (E := fake_env healthy) private 1 (Some (ctrl_init 0 []))
    None None false = Done (SKS_CKR_USER_NOT_LOGGED_IN, private).
Proof.
  intros no_key private st.
  split; [| split].
  - apply (rejected_init_changes_nothing (E := fake_env healthy) true false no_key
             1 5 3 (mk_attribute SKS_CKM_AES_ECB 0 []) (Some (ctrl_init 0 []))
             ready_session eq_refl eq_refl eq_refl eq_refl eq_refl).
    reflexivity.
  - apply (proj1 (proj2
             (rejected_init_changes_nothing (E := fake_env healthy) false true st
                1 5 3 (mk_attribute SKS_CKM_AES_CMAC 0 []) (Some (ctrl_init 7 []))
                ready_session eq_refl eq_refl eq_refl eq_refl eq_refl)) aes_key);
      reflexivity.
  - apply (proj2 (proj2
             (rejected_init_changes_nothing (E := fake_env healthy) true false private
                1 5 3 (mk_attribute SKS_CKM_AES_ECB 0 []) (Some (ctrl_init 0 []))
                ready_session eq_refl eq_refl eq_refl eq_refl eq_refl)) private_key);
      reflexivity.
Defined.

Lemma run_step_frame_witness :
  let session := active_session PKCS11_SESSION_ENCRYPTING SKS_CKM_AES_ECB in
  let st : sks_state (list tee_call) :=
    mk_state [] {[ (1, 5) := session; (1, 6) := ready_session ]} {[ 3 := aes_key ]} in
  exists rv out' st',
    run_step (E := fake_env healthy) (CIPHER_FINAL false) st 1
      (Some ctrl_session_5) (Some input_2) (Some output_16) = Done (rv, out', st') /\
    objects st' = objects st /\
    forall k, ctrl_session_handle (Some ctrl_session_5) <> Some k.2 \/ k.1 <> 1 ->
              sessions st' !! k = sessions st !! k.
Proof.
  intros session st.
  do 3 eexists. split; [vm_compute; reflexivity |].
  refine (run_step_frame (E := fake_env healthy) (CIPHER_FINAL false) st _ 1
            (Some ctrl_session_5) (Some input_2) (Some output_16) _ _ _).
  vm_compute. reflexivity.
Defined.

Lemma step_after_release_is_not_initialized_witness :
  let session := active_session PKCS11_SESSION_ENCRYPTING SKS_CKM_AES_ECB in
  let st := one_session session in
  ctrl_session_handle (Some ctrl_session_5) = Some 5 /\
  sks_handle2session st 5 1 = Some session /\
  processing session = step_state (CIPHER_FINAL false) /\
  exists out' st',
    run_step (E := fake_env healthy) (CIPHER_FINAL false) st 1
      (Some ctrl_session_5) (Some input_2) (Some output_16) =
      Done (SKS_OK, out', st') /\
    SKS_OK <> SKS_SHORT_BUFFER /\
    (SKS_OK <> SKS_OK \/ is_final (CIPHER_FINAL false) = true) /\
    run_step (E := fake_env healthy) (CIPHER_UPDATE false) st' 1
      (Some ctrl_session_5) (Some input_2) (Some output_16) =
      Done (SKS_CKR_OPERATION_NOT_INITIALIZED, Some output_16, st').
Proof.
  intros session st.
  split; [reflexivity |]. split; [reflexivity |]. split; [reflexivity |].
  do 2 eexists. split; [vm_compute; reflexivity |].
  split; [discriminate |]. split; [right; reflexivity |].
  refine (step_after_release_is_not_initialized (E := fake_env healthy)
            (CIPHER_FINAL false) (CIPHER_UPDATE false) st _ 1 5
            (Some ctrl_session_5) (Some input_2) (Some output_16) _
            (Some input_2) (Some output_16) session SKS_OK eq_refl eq_refl eq_refl
            _ _ _);
    [vm_compute; reflexivity | discriminate | right; reflexivity].
Defined.

Lemma verify_final_keeps_signature_buffer_witness :
  let session := active_session PKCS11_SESSION_VERIFYING SKS_CKM_AES_CMAC in
  let st := one_session session in
  exists st',
    entry_signverify_final (E := fake_env healthy) st 1 (Some ctrl_session_5)
      None (Some output_16) false =
      Done (SKS_CKR_SIGNATURE_INVALID, Some output_16, st') /\
    Some output_16 = Some output_16.
Proof.
  intros session st.
  eexists. split; [vm_compute; reflexivity |].
  refine (verify_final_keeps_signature_buffer (E := fake_env healthy) st _ 1
            (Some ctrl_session_5) None (Some output_16) (Some output_16)
            SKS_CKR_SIGNATURE_INVALID _).
  vm_compute. reflexivity.
Defined.

Lemma init_with_invalid_session_handle_witness :
  let st := one_session ready_session in
  let ctrl := Some (ctrl_init 0 []) in
  ctrl_init_arguments (E := fake_env healthy) ctrl =
    Some (5, 3, mk_attribute SKS_CKM_AES_ECB 0 []) /\
  sks_handle2session st 5 2 = None /\
  entry_signverify_init (E := fake_env healthy) st 2 ctrl None None true =
    Done (SKS_CKR_SESSION_HANDLE_INVALID, st) /\
  entry_cipher_init (E := fake_env healthy) st 2 ctrl None None true = NullDeref.
Proof.
  intros st ctrl.
  split; [reflexivity |]. split; [reflexivity |].
  apply (init_with_invalid_session_handle (E := fake_env healthy) st 2 5 3
           (mk_attribute SKS_CKM_AES_ECB 0 []) ctrl true); reflexivity.
Defined.



Lemma get_bool_reads_bit_field_witness :
  SKS_SHEAD_WITH_BOOLPROPS (sks_env := fake_env_bit_field) = true /\
  0 <= sks_attr2boolprop_shift (sks_env := fake_env_bit_field) SKS_CKA_ENCRYPT < 64 /\
  0 <= boolpropl bit_field_head < 2 ^ 32 /\
  0 <= boolproph bit_field_head < 2 ^ 32 /\
  get_bool (E := fake_env_bit_field) bit_field_head SKS_CKA_ENCRYPT = Done true /\
  get_bool (E := fake_env_bit_field) bit_field_head SKS_CKA_PRIVATE = Done false.
Proof.
  split; [reflexivity |].
  split; [simpl; lia |]. split; [simpl; lia |]. split; [simpl; lia |].
  split.
  - apply (get_bool_reads_bit_field (E := fake_env_bit_field) bit_field_head
             SKS_CKA_ENCRYPT); simpl; lia.
  - apply (get_bool_reads_bit_field (E := fake_env_bit_field) bit_field_head
             SKS_CKA_PRIVATE); simpl; lia.
Defined.

Lemma key_type_of_wrong_size_is_not_loaded_witness :
  SKS_SHEAD_WITH_TYPE (sks_env := fake_env healthy) = false /\
  (forall v, find_attribute (attrs (attributes short_type_key)) SKS_CKA_KEY_TYPE =
               Some v -> length v <> 4%nat) /\
  key_handle short_type_key = TEE_HANDLE_NULL /\
  get_type (E := fake_env healthy) (attributes short_type_key) = SKS_UNDEFINED_ID /\
  load_key (E := fake_env healthy) [] short_type_key =
    Done (SKS_CKR_ATTRIBUTE_TYPE_INVALID, [], short_type_key).
Proof.
  assert (Hsize : forall v,
             find_attribute (attrs (attributes short_type_key)) SKS_CKA_KEY_TYPE =
               Some v -> length v <> 4%nat).
  { intros v H. vm_compute in H. injection H as <-. simpl. lia. }
  split; [reflexivity |]. split; [exact Hsize |]. split; [reflexivity |].
  apply (key_type_of_wrong_size_is_not_loaded (E := fake_env healthy) []
           short_type_key eq_refl (or_introl eq_refl) Hsize eq_refl).
Defined.

Lemma cipher_update_passes_provider_output_witness :
  let session := active_session PKCS11_SESSION_ENCRYPTING SKS_CKM_AES_ECB in
  let st := one_session session in
  let w1 := [CALL_CipherUpdate 7 (Some [x01; x02])] in
  ctrl_session_handle (Some ctrl_session_5) = Some 5 /\
  sks_handle2session st 5 1 = Some session /\
  TEE_CipherUpdate (sks_env := fake_env healthy) (tee st) (tee_op_handle session)
    (Some [x01; x02]) 2 (Some (memref_buffer output_16)) 16 =
    (TEE_SUCCESS, [x01; x02], 2, w1) /\
  entry_cipher_update (E := fake_env healthy) st 1 (Some ctrl_session_5)
    (Some input_2) (Some output_16) false =
    Done (SKS_OK, Some (mk_param 0x3000 [x01; x02] 2),
          set_session (set_tee st w1) 1 5 session).
Proof.
  intros session st w1.
  split; [reflexivity |]. split; [reflexivity |]. split; [reflexivity |].
  apply (cipher_update_passes_provider_output (E := fake_env healthy) st 1 5
           (Some ctrl_session_5) (Some input_2) output_16 false session
           TEE_SUCCESS [x01; x02] 2 w1);
    first [reflexivity | discriminate | left; reflexivity].
Defined.

Lemma signverify_update_after_init_witness :
  let st := one_session_one_key ready_session signing_key in
  let ctrl := Some (ctrl_init 7 []) in
  (forall res, tee2sks_error (sks_env := fake_env healthy) res = SKS_OK ->
               res = TEE_SUCCESS) /\
  ctrl_init_arguments (E := fake_env healthy) ctrl =
    Some (5, 3, mk_attribute SKS_CKM_AES_CMAC 0 []) /\
  sks_handle2session st 5 1 = Some ready_session /\
  ctrl_session_handle (Some ctrl_session_5) = Some 5 /\
  exists st',
    entry_signverify_init (E := fake_env healthy) st 1 ctrl None None true =
      Done (SKS_OK, st') /\
    exists session',
      sks_handle2session st' 5 1 = Some session' /\
      entry_signverify_update (E := fake_env healthy) st' 1 (Some ctrl_session_5)
        (Some input_2) None true =
        Done (SKS_OK, None,
              set_session
                (set_tee st'
                   (TEE_MACUpdate (sks_env := fake_env healthy) (tee st')
                      (tee_op_handle session') (memref_buffer input_2)
                      (memref_size input_2)))
                1 5 session').
Proof.
  intros st ctrl.
  split; [exact fake_tee2sks_error_ok |].
  split; [reflexivity |]. split; [reflexivity |]. split; [reflexivity |].
  eexists. split; [vm_compute; reflexivity |].
  refine (signverify_update_after_init (E := fake_env healthy) st _ 1 5 3
            (mk_attribute SKS_CKM_AES_CMAC 0 []) ctrl (Some ctrl_session_5) input_2
            true ready_session fake_tee2sks_error_ok eq_refl eq_refl _ eq_refl).
  vm_compute. reflexivity.
Defined.
